(** * CatalystEVPNasCode: data-model converter and device configuration generator

    A shallow embedding of [yaml_to_template_vars.py] (class
    [BGPEVPNDataModelConverter]) and [generate_device_config.py] (class
    [BGPEVPNConfigGenerator] and its [main]) together with the properties
    of the repository's specification that concern them.

    The YAML document is an untyped Python object; the embedding keeps it
    untyped ([value]) and gives every Python operation the source performs
    on it (subscript, [.get], [.items], iteration, [in], [set(...)]) its
    dynamic meaning, exceptions included ([result]). *)

From Stdlib Require Import ZArith List String Ascii Bool Lia DecimalString.
From Stdlib Require Import Sorted Permutation.
From stdpp Require Import gmap strings.
Import ListNotations.
Open Scope string_scope.
Open Scope list_scope.

(** ** Python values as produced by [yaml.safe_load] *)

(** Hashable values: the ones that can be dictionary keys and set members.
    Floats and timestamps are not used by the data model and are left out. *)
Inductive scalar : Type :=
| SNone
| SBool (b : bool)
| SInt (z : Z)
| SStr (s : string).

(** Dictionaries keep insertion order, hence association lists. *)
#[local] Set Warnings "-register-all".
Inductive value : Type :=
| VScalar (s : scalar)
| VList (l : list value)
| VDict (d : list (scalar * value)).

Abbreviation VNone := (VScalar SNone).
Abbreviation VBool b := (VScalar (SBool b)).
Abbreviation VInt z := (VScalar (SInt z)).
Abbreviation VStr s := (VScalar (SStr s)).

(** ** Exceptions *)

(** The exceptions of the interpreter carry what was refused, as a note
    for the reader: the text [str(e)] gives for them is the interpreter's
    and is not fixed here (see [str_exn]).  The others carry the message
    they were built with. *)
Inductive exn : Type :=
| KeyError (key : string)        (* d[key] on a dict without that key *)
| TypeError (what : string)      (* operation applied to the wrong kind of object *)
| AttributeError (what : string) (* method of dict or str called on another object *)
| ValueError (msg : string)
| RuntimeError (msg : string)
| EngineError (msg : string).    (* raised by the templating engine or by the operating system *)

Inductive result (A : Type) : Type :=
| Ok (a : A)
| Raise (e : exn).
Arguments Ok {A} a.
Arguments Raise {A} e.

Definition bind {A B} (c : result A) (k : A -> result B) : result B :=
  match c with
  | Ok a => k a
  | Raise e => Raise e
  end.

Notation "'let*' x ':=' c 'in' k" := (bind c (fun x => k))
  (at level 10, x pattern, c at level 100, k at level 200).

Fixpoint mapM {A B} (f : A -> result B) (l : list A) : result (list B) :=
  match l with
  | [] => Ok []
  | a :: l' => let* b := f a in let* bs := mapM f l' in Ok (b :: bs)
  end.

Fixpoint foldM {A S} (f : S -> A -> result S) (s : S) (l : list A) : result S :=
  match l with
  | [] => Ok s
  | a :: l' => let* s' := f s a in foldM f s' l'
  end.

(** [str(e)].  An exception built from a message prints that message.
    For the exceptions the interpreter raises itself the text depends on
    the interpreter and its version (the [repr] of a missing key, the
    type names in a [TypeError]); [wording] stands for it. *)
Definition str_exn (wording : exn -> string) (e : exn) : string :=
  match e with
  | KeyError _ | TypeError _ | AttributeError _ => wording e
  | ValueError m | RuntimeError m | EngineError m => m
  end.

(** ** Python operations used by the program *)

Definition num_of_bool (b : bool) : Z := if b then 1%Z else 0%Z.

(** [==] on hashable values: [True == 1] and [False == 0]. *)
Definition scalar_eq (a b : scalar) : bool :=
  match a, b with
  | SNone, SNone => true
  | SBool x, SBool y => Bool.eqb x y
  | SBool x, SInt z | SInt z, SBool x => Z.eqb (num_of_bool x) z
  | SInt x, SInt y => Z.eqb x y
  | SStr x, SStr y => String.eqb x y
  | _, _ => false
  end.

Fixpoint dict_lookup {V} (d : list (scalar * V)) (k : scalar) : option V :=
  match d with
  | [] => None
  | (k', v) :: d' => if scalar_eq k' k then Some v else dict_lookup d' k
  end.

Definition dict_mem {V} (d : list (scalar * V)) (k : scalar) : bool :=
  match dict_lookup d k with Some _ => true | None => false end.

(** [d[k] = v]: replaces the value of an existing key in place, appends a
    new key at the end. *)
Fixpoint dict_set {V} (d : list (scalar * V)) (k : scalar) (v : V) : list (scalar * V) :=
  match d with
  | [] => [(k, v)]
  | (k', v') :: d' =>
      if scalar_eq k' k then (k', v) :: d' else (k', v') :: dict_set d' k v
  end.

(** [==] on arbitrary values: lists position-wise, dicts key-wise. *)
Fixpoint py_eq (a b : value) : bool :=
  match a, b with
  | VScalar x, VScalar y => scalar_eq x y
  | VList l1, VList l2 =>
      (fix go (l1 l2 : list value) : bool :=
         match l1, l2 with
         | [], [] => true
         | x :: l1', y :: l2' => py_eq x y && go l1' l2'
         | _, _ => false
         end) l1 l2
  | VDict d1, VDict d2 =>
      Nat.eqb (length d1) (length d2) &&
      (fix all (d : list (scalar * value)) : bool :=
         match d with
         | [] => true
         | (k, v) :: d' =>
             match dict_lookup d2 k with
             | Some v2 => py_eq v v2
             | None => false
             end && all d'
         end) d1
  | _, _ => false
  end.

(** [d[key]] with a [str] key: only a dict accepts it.  The message of
    the [TypeError] names the type of the object and is the
    interpreter's; see [str_exn]. *)
Definition getitem (v : value) (key : string) : result value :=
  match v with
  | VDict d =>
      match dict_lookup d (SStr key) with
      | Some x => Ok x
      | None => Raise (KeyError key)
      end
  | VList _ => Raise (TypeError "list indices must be integers or slices, not str")
  | VStr _ => Raise (TypeError "string indices must be integers")
  | VScalar _ => Raise (TypeError "object is not subscriptable")
  end.

(** [v[k1][k2]...] *)
Fixpoint getpath (v : value) (keys : list string) : result value :=
  match keys with
  | [] => Ok v
  | k :: ks => let* x := getitem v k in getpath x ks
  end.

(** [v.get(key, default)] *)
Definition py_get (v : value) (key : string) (default : value) : result value :=
  match v with
  | VDict d =>
      match dict_lookup d (SStr key) with
      | Some x => Ok x
      | None => Ok default
      end
  | _ => Raise (AttributeError "object has no attribute 'get'")
  end.

(** [v.items()], [v.values()], [v.keys()] *)
Definition py_items (v : value) : result (list (scalar * value)) :=
  match v with
  | VDict d => Ok d
  | _ => Raise (AttributeError "object has no attribute 'items'")
  end.

Definition py_values (v : value) : result (list value) :=
  match v with
  | VDict d => Ok (map snd d)
  | _ => Raise (AttributeError "object has no attribute 'values'")
  end.

Definition py_keys (v : value) : result (list value) :=
  match v with
  | VDict d => Ok (map (fun kv => VScalar (fst kv)) d)
  | _ => Raise (AttributeError "object has no attribute 'keys'")
  end.

Fixpoint chars (s : string) : list string :=
  match s with
  | EmptyString => []
  | String c s' => String c EmptyString :: chars s'
  end.

(** [for x in v]: a list yields its elements, a dict its keys, a string
    its characters (bytes here; the program only compares them). *)
Definition py_iter (v : value) : result (list value) :=
  match v with
  | VList l => Ok l
  | VDict d => Ok (map (fun kv => VScalar (fst kv)) d)
  | VStr s => Ok (map (fun c => VStr c) (chars s))
  | VScalar _ => Raise (TypeError "object is not iterable")
  end.

Fixpoint is_substring (t s : string) : bool :=
  String.prefix t s ||
  match s with
  | EmptyString => false
  | String _ s' => is_substring t s'
  end.

(** [x in v] *)
Definition py_in (x : value) (v : value) : result bool :=
  match v with
  | VList l => Ok (existsb (py_eq x) l)
  | VDict d =>
      match x with
      | VScalar k => Ok (dict_mem d k)
      | _ => Raise (TypeError "unhashable type")
      end
  | VStr s =>
      match x with
      | VStr t => Ok (is_substring t s)
      | _ => Raise (TypeError "'in <string>' requires string as left operand")
      end
  | VScalar _ => Raise (TypeError "argument is not iterable")
  end.

(** Sets of hashable values; a list without [==]-duplicates.  The order
    Python iterates a set in is unspecified; nothing below depends on it. *)
Definition pyset := list scalar.

Definition set_mem (s : pyset) (x : scalar) : bool := existsb (scalar_eq x) s.

Definition set_add (s : pyset) (x : scalar) : pyset :=
  if set_mem s x then s else s ++ [x].

Definition hash (v : value) : result scalar :=
  match v with
  | VScalar x => Ok x
  | VList _ => Raise (TypeError "unhashable type: 'list'")
  | VDict _ => Raise (TypeError "unhashable type: 'dict'")
  end.

(** [s.update(v)] *)
Definition set_update (s : pyset) (v : value) : result pyset :=
  let* xs := py_iter v in
  foldM (fun acc x => let* k := hash x in Ok (set_add acc k)) s xs.

(** [set(l)] for a list object [l] the program built itself *)
Definition set_of_list (l : list value) : result pyset :=
  foldM (fun acc x => let* k := hash x in Ok (set_add acc k)) [] l.

(** [set(v)] *)
Definition py_set (v : value) : result pyset := set_update [] v.

(** [a - b] *)
Definition set_diff (a b : pyset) : pyset :=
  List.filter (fun x => negb (set_mem b x)) a.

(** A dict literal with [str] keys. *)
Definition record (fields : list (string * value)) : value :=
  VDict (map (fun kv => (SStr (fst kv), snd kv)) fields).

(** A dict literal [{new1: src[old1], new2: src[old2], ...}]; the
    subscripts are evaluated left to right. *)
Definition renamed (src : value) (fields : list (string * string)) : result value :=
  let* kvs := mapM (fun no => let* x := getitem src (snd no) in Ok (fst no, x)) fields in
  Ok (record kvs).

(** [if s:] on an optional string *)
Definition truthy (s : option string) : bool :=
  match s with
  | Some (String _ _) => true
  | _ => false
  end.

(** [s.split('.')] *)
Fixpoint split_dot (s : string) : list string :=
  match s with
  | EmptyString => [EmptyString]
  | String c s' =>
      if Ascii.eqb c "."%char then EmptyString :: split_dot s'
      else match split_dot s' with
           | p :: ps => String c p :: ps
           | [] => [String c EmptyString]
           end
  end.

(** Pieces of an f-string.  Literal text is kept as text; an interpolated
    object is kept as the object, its printed form being the interpreter's. *)
Inductive fragment : Type :=
| Lit (text : string)
| Fmt (v : value)
| FmtSet (s : pyset).

Definition message := list fragment.

(** ** yaml_to_template_vars.py: [BGPEVPNDataModelConverter] *)

Module Converter.

(** Lines 80-93: one element of [DEFN_OVERLAY]. *)
Definition convert_vlan (vlan_config : value) : result value :=
  renamed vlan_config
    [("name", "name"); ("ipaddr", "ip_address"); ("mac", "mac_address");
     ("dhcp_helper", "dhcp_helper"); ("bum_addr", "bum_address")].

Definition convert_overlay (overlay : value) : result value :=
  let* vrf := getitem overlay "vrf" in
  let* vlans := getitem overlay "vlans" in
  let* items := py_items vlans in
  let* vlans' :=
    foldM (fun acc kv =>
             let* entry := convert_vlan (snd kv) in
             Ok (dict_set acc (fst kv) entry)) [] items in
  Ok (record [("vrf", vrf); ("vlans", VDict vlans')]).

(** Lines 97-111: one element of [DEFN_L3OUT]. *)
Definition convert_interface (intf_config : value) : result value :=
  renamed intf_config
    [("name", "name"); ("vlan", "vlan"); ("ipaddr", "ip_address");
     ("neighbour", "neighbor_ip")].

Definition convert_connection (connection : value) : result value :=
  let* vrf := getitem connection "vrf" in
  let* node := getitem connection "device" in
  let* neighbour_asn := getitem connection "neighbor_asn" in
  let* interfaces := getitem connection "interfaces" in
  let* items := py_items interfaces in
  let* interfaces' :=
    foldM (fun acc kv =>
             let* entry := convert_interface (snd kv) in
             Ok (dict_set acc (fst kv) entry)) [] items in
  Ok (record [("vrf", vrf); ("node", node); ("neighbour_asn", neighbour_asn);
              ("interfaces", VDict interfaces')]).

(** Lines 117-122: one element of [DEFN_NAC_IOT]. *)
Definition convert_server (server : value) : result value :=
  renamed server
    [("vrf", "vrf"); ("nac_ip", "server_ip"); ("nac_key", "shared_key")].

(** Lines 126-135: one entry of [DEFN_IPSEC]. *)
Definition convert_tunnel (tunnel : value) : result value :=
  renamed tunnel
    [("tun_ip", "tunnel_ip"); ("peer_ip", "peer_ip");
     ("tun_dst", "tunnel_destination"); ("tun_mode", "tunnel_mode");
     ("peer_bgp_asn", "peer_bgp_asn")].

Definition convert_ipsec (tunnels_by_device : list (scalar * value))
  : result (list (scalar * value)) :=
  foldM (fun acc kv =>
           let* tunnels := py_iter (snd kv) in
           let* converted := mapM convert_tunnel tunnels in
           Ok (dict_set acc (fst kv) (VList converted))) [] tunnels_by_device.

(** Lines 145-147: the names of the definitions whose id is in the
    device's id list, in definition order. *)
Definition vrf_names (DEFN_VRF device_vrf_ids : value) : result (list value) :=
  let* defs := py_iter DEFN_VRF in
  foldM (fun acc vrf_def =>
           let* id := getitem vrf_def "id" in
           let* hit := py_in id device_vrf_ids in
           if hit
           then let* name := getitem vrf_def "name" in Ok (acc ++ [name])
           else Ok acc) [] defs.

(** Lines 42-135: the variables that do not depend on the device; the
    fields are read in source order. *)
Definition fabric_template_vars (data_model : value) : result (list (scalar * value)) :=
  let* FABRIC_BGP_ASN := getpath data_model ["fabric"; "bgp_asn"] in
  let* FABRIC_UNDERLAY := getpath data_model ["fabric"; "underlay"] in
  let* FABRIC_IPSEC_UNDERLAY := getpath data_model ["fabric"; "ipsec_underlay"] in
  let* L2VNIOFFSET := getpath data_model ["vni_offsets"; "l2_vni_offset"] in
  let* L3VNIOFFSET := getpath data_model ["vni_offsets"; "l3_vni_offset"] in
  let* FABRIC_RP_ADDR := getpath data_model ["multicast"; "fabric_rp"; "address"] in
  let* FABRIC_RP_SCOPES := getpath data_model ["multicast"; "fabric_rp"; "scopes"] in
  let* ENTERPRISE_RP_ADDR := getpath data_model ["multicast"; "enterprise_rp"; "address"] in
  let* ENTERPRISE_RP_SCOPES := getpath data_model ["multicast"; "enterprise_rp"; "scopes"] in
  let* SPINE := getpath data_model ["devices"; "roles"; "spine"] in
  let* RR := getpath data_model ["devices"; "roles"; "route_reflector"] in
  let* CLIENT := getpath data_model ["devices"; "roles"; "client"] in
  let* BORDER := getpath data_model ["devices"; "roles"; "border"] in
  let* DEFN_LOOP_UNDERLAY := getpath data_model ["devices"; "loopbacks"; "underlay"] in
  let* DEFN_LOOP_IPSEC := getpath data_model ["devices"; "loopbacks"; "ipsec"] in
  let* DEFN_LOOP_MCLUSTER := getpath data_model ["devices"; "loopbacks"; "multi_cluster"] in
  let* DEFN_LOOP_OVERLAY := getpath data_model ["devices"; "loopbacks"; "overlay_prefixes"] in
  let* DEFN_LOOP_NAME := getpath data_model ["devices"; "loopbacks"; "interface_names"] in
  let* DEFN_VRF := getpath data_model ["vrfs"; "definitions"] in
  let* DEFN_VRF_TO_NODE := getpath data_model ["vrfs"; "device_mappings"] in
  let* overlay_networks := getpath data_model ["overlay_networks"] in
  let* overlays := py_iter overlay_networks in
  let* DEFN_OVERLAY := mapM convert_overlay overlays in
  let* l3_connections := getpath data_model ["l3_external"; "connections"] in
  let* connections := py_iter l3_connections in
  let* DEFN_L3OUT := mapM convert_connection connections in
  let* DEFN_L3OUT_AGGREGATES := getpath data_model ["l3_external"; "aggregate_routes"] in
  let* nac_servers := getpath data_model ["network_access_control"; "servers"] in
  let* servers := py_iter nac_servers in
  let* DEFN_NAC_IOT := mapM convert_server servers in
  let* ipsec_tunnels := getpath data_model ["ipsec"; "tunnels"] in
  let* tunnels_by_device := py_items ipsec_tunnels in
  let* DEFN_IPSEC := convert_ipsec tunnels_by_device in
  Ok [(SStr "FABRIC_BGP_ASN", FABRIC_BGP_ASN);
      (SStr "FABRIC_UNDERLAY", FABRIC_UNDERLAY);
      (SStr "FABRIC_IPSEC_UNDERLAY", FABRIC_IPSEC_UNDERLAY);
      (SStr "L2VNIOFFSET", L2VNIOFFSET);
      (SStr "L3VNIOFFSET", L3VNIOFFSET);
      (SStr "FABRIC_RP_ADDR", FABRIC_RP_ADDR);
      (SStr "FABRIC_RP_SCOPES", FABRIC_RP_SCOPES);
      (SStr "ENTERPRISE_RP_ADDR", ENTERPRISE_RP_ADDR);
      (SStr "ENTERPRISE_RP_SCOPES", ENTERPRISE_RP_SCOPES);
      (SStr "DEFN_NODE_ROLES",
        record [("SPINE", SPINE); ("RR", RR); ("CLIENT", CLIENT); ("BORDER", BORDER)]);
      (SStr "DEFN_LOOP_UNDERLAY", DEFN_LOOP_UNDERLAY);
      (SStr "DEFN_LOOP_IPSEC", DEFN_LOOP_IPSEC);
      (SStr "DEFN_LOOP_MCLUSTER", DEFN_LOOP_MCLUSTER);
      (SStr "DEFN_LOOP_OVERLAY", DEFN_LOOP_OVERLAY);
      (SStr "DEFN_LOOP_NAME", DEFN_LOOP_NAME);
      (SStr "DEFN_VRF", DEFN_VRF);
      (SStr "DEFN_VRF_TO_NODE", DEFN_VRF_TO_NODE);
      (SStr "DEFN_OVERLAY", VList DEFN_OVERLAY);
      (SStr "DEFN_L3OUT", VList DEFN_L3OUT);
      (SStr "DEFN_L3OUT_AGGREGATES", DEFN_L3OUT_AGGREGATES);
      (SStr "DEFN_NAC_IOT", VList DEFN_NAC_IOT);
      (SStr "DEFN_IPSEC", VDict DEFN_IPSEC)].

(** Lines 138-147: the device-specific additions. *)
Definition device_context (template_vars : list (scalar * value))
    (device_hostname : option string) : result (list (scalar * value)) :=
  match device_hostname with
  | Some hostname =>
      if truthy device_hostname then
        let template_vars :=
          dict_set template_vars (SStr "__device") (record [("hostname", VStr hostname)]) in
        let* DEFN_VRF_TO_NODE := getitem (VDict template_vars) "DEFN_VRF_TO_NODE" in
        let* mapped := py_in (VStr hostname) DEFN_VRF_TO_NODE in
        if mapped then
          let* device_vrf_ids := getitem DEFN_VRF_TO_NODE hostname in
          let* DEFN_VRF := getitem (VDict template_vars) "DEFN_VRF" in
          let* names := vrf_names DEFN_VRF device_vrf_ids in
          Ok (dict_set template_vars (SStr "vrf_list") (VList names))
        else Ok template_vars
      else Ok template_vars
  | None => Ok template_vars
  end.

Definition convert_to_template_vars (data_model : value) (device_hostname : option string)
  : result (list (scalar * value)) :=
  let* template_vars := fabric_template_vars data_model in
  device_context template_vars device_hostname.

Definition generate_device_specific_vars (data_model : value) (device_hostname : string)
  : result (list (scalar * value)) :=
  convert_to_template_vars data_model (Some device_hostname).

(** [_check_field_exists]: the loop over the path components. *)
Fixpoint walk_path (current : value) (parts : list string) : bool :=
  match parts with
  | [] => true
  | part :: rest =>
      match current with
      | VDict d =>
          match dict_lookup d (SStr part) with
          | Some next => walk_path next rest
          | None => false
          end
      | _ => false
      end
  end.

Definition _check_field_exists (data_model : value) (field_path : value) : result bool :=
  match field_path with
  | VStr s => Ok (walk_path data_model (split_dot s))
  | _ => Raise (AttributeError "object has no attribute 'split'")
  end.

(** Line 160 and the iteration of line 161: the declared paths. *)
Definition required_fields (data_model : value) : result (list value) :=
  let* validation := py_get data_model "validation" (VDict []) in
  let* required_fields := py_get validation "required_fields" (VList []) in
  py_iter required_fields.

(** Lines 160-163 *)
Definition check_required_fields (data_model : value) : result (list message) :=
  let* paths := required_fields data_model in
  foldM (fun errors field_path =>
           let* present := _check_field_exists data_model field_path in
           if negb present
           then Ok (errors ++ [[Lit "Required field missing: "; Fmt field_path]])
           else Ok errors) [] paths.

(** Line 166 *)
Definition vrf_id_list (data_model : value) : result (list value) :=
  let* definitions := getpath data_model ["vrfs"; "definitions"] in
  let* defs := py_iter definitions in
  mapM (fun vrf => getitem vrf "id") defs.

(** Lines 167-168 *)
Definition check_vrf_ids_unique (vrf_ids : list value) : result (list message) :=
  let* distinct := set_of_list vrf_ids in
  if negb (Nat.eqb (length vrf_ids) (length distinct))
  then Ok [[Lit "VRF IDs must be unique"]]
  else Ok [].

(** Lines 171-178 *)
Definition check_underlay_loopbacks (data_model : value) : result (list message) :=
  let* roles := getpath data_model ["devices"; "roles"] in
  let* role_lists := py_values roles in
  let* all_devices := foldM set_update [] role_lists in
  let* underlay := getpath data_model ["devices"; "loopbacks"; "underlay"] in
  let* keys := py_keys underlay in
  let* underlay_devices := set_of_list keys in
  let missing_loopbacks := set_diff all_devices underlay_devices in
  match missing_loopbacks with
  | _ :: _ => Ok [[Lit "Devices missing underlay loopbacks: "; FmtSet missing_loopbacks]]
  | [] => Ok []
  end.

(** Lines 181-185 *)
Definition check_device_mappings (data_model : value) (vrf_ids : list value)
  : result (list message) :=
  let* valid_vrf_ids := set_of_list vrf_ids in
  let* device_mappings := getpath data_model ["vrfs"; "device_mappings"] in
  let* items := py_items device_mappings in
  foldM (fun errors kv =>
           let* mapped := py_set (snd kv) in
           let invalid_vrfs := set_diff mapped valid_vrf_ids in
           match invalid_vrfs with
           | _ :: _ =>
               Ok (errors ++ [[Lit "Device "; Fmt (VScalar (fst kv));
                               Lit " references invalid VRF IDs: "; FmtSet invalid_vrfs]])
           | [] => Ok errors
           end) [] items.

Definition validate_data_model (data_model : value) : result (list message) :=
  let* errors1 := check_required_fields data_model in
  let* vrf_ids := vrf_id_list data_model in
  let* errors2 := check_vrf_ids_unique vrf_ids in
  let* errors3 := check_underlay_loopbacks data_model in
  let* errors4 := check_device_mappings data_model vrf_ids in
  Ok (errors1 ++ errors2 ++ errors3 ++ errors4).

End Converter.

(** ** More Python operations, used by the generator *)

Definition nl : string := String "010"%char EmptyString.
Definition dquote : string := String "034"%char EmptyString.

(** [str(x)] of a hashable value *)
Definition str_scalar (x : scalar) : string :=
  match x with
  | SNone => "None"
  | SBool true => "True"
  | SBool false => "False"
  | SInt z => NilZero.string_of_int (Z.to_int z)
  | SStr s => s
  end.

(** [repr] of a list of plain identifiers: [['a', 'b']] *)
Definition repr_names (names : list string) : string :=
  "[" +:+ String.concat ", " (map (fun n => "'" +:+ n +:+ "'") names) +:+ "]".

Fixpoint insert_sorted {A} (leb : A -> A -> bool) (x : A) (l : list A) : list A :=
  match l with
  | [] => [x]
  | y :: l' => if leb x y then x :: y :: l' else y :: insert_sorted leb x l'
  end.

Definition sort_by {A} (leb : A -> A -> bool) (l : list A) : list A :=
  fold_right (insert_sorted leb) [] l.

Definition is_number (x : scalar) : bool :=
  match x with SBool _ | SInt _ => true | _ => false end.

Definition is_str (x : scalar) : bool :=
  match x with SStr _ => true | _ => false end.

Definition number_of (x : scalar) : Z :=
  match x with SBool b => num_of_bool b | SInt z => z | _ => 0%Z end.

Definition text_of (x : scalar) : string :=
  match x with SStr s => s | _ => EmptyString end.

(** [sorted(list(s))] of a set: numbers order among themselves and
    strings among themselves; two or more elements that do not are a
    [TypeError].  A list of at most one element is never compared. *)
Definition py_sorted (s : pyset) : result (list scalar) :=
  match s with
  | [] | [_] => Ok s
  | _ =>
      if forallb is_number s
      then Ok (sort_by (fun a b => Z.leb (number_of a) (number_of b)) s)
      else if forallb is_str s
      then Ok (sort_by (fun a b => String.leb (text_of a) (text_of b)) s)
      else Raise (TypeError "'<' not supported between instances")
  end.

(** ** generate_device_config.py: [BGPEVPNConfigGenerator] and [main] *)

Module Generator.

(** Lines 39-57; a dict, in insertion order. *)
Definition available_templates : list (scalar * string) :=
  [(SStr "DEFN-VRF", "DEFN-VRF.j2");
   (SStr "DEFN-ROLES", "DEFN-ROLES.j2");
   (SStr "DEFN-LOOPBACKS", "DEFN-LOOPBACKS.j2");
   (SStr "DEFN-OVERLAY", "DEFN-OVERLAY.j2");
   (SStr "DEFN-L3OUT", "DEFN-L3OUT.j2");
   (SStr "DEFN-MCAST", "DEFN-MCAST.j2");
   (SStr "DEFN-VNIOFFSETS", "DEFN-VNIOFFSETS.j2");
   (SStr "DEFN-NAC-IOT", "DEFN-NAC-IOT.j2");
   (SStr "DEFN-IPSEC", "DEFN-IPSEC.j2");
   (SStr "FABRIC-VRF", "FABRIC-VRF.j2");
   (SStr "FABRIC-LOOPBACKS", "FABRIC-LOOPBACKS.j2");
   (SStr "FABRIC-NVE", "FABRIC-NVE.j2");
   (SStr "FABRIC-MCAST", "FABRIC-MCAST.j2");
   (SStr "FABRIC-EVPN", "FABRIC-EVPN.j2");
   (SStr "FABRIC-OVERLAY", "FABRIC-OVERLAY.j2");
   (SStr "FABRIC-NAC-IOT", "FABRIC-NAC-IOT.j2");
   (SStr "FABRIC-IPSEC", "FABRIC-IPSEC.j2")].

(** [available_templates.keys()] *)
Definition template_names : list string :=
  map (fun kv => str_scalar (fst kv)) available_templates.

Definition get_device_list (data_model : value) : result (list scalar) :=
  let* roles := getpath data_model ["devices"; "roles"] in
  let* role_lists := py_values roles in
  let* all_devices := foldM set_update [] role_lists in
  py_sorted all_devices.

(** [get_device_role] for any object; the command line passes a [str],
    the device listing passes members of the device set. *)
Definition device_role_of (data_model : value) (device_hostname : value) : result string :=
  let* roles := getpath data_model ["devices"; "roles"] in
  let* spine := py_get roles "spine" (VList []) in
  let* in_spine := py_in device_hostname spine in
  if in_spine then Ok "spine" else
  let* border := py_get roles "border" (VList []) in
  let* in_border := py_in device_hostname border in
  if in_border then Ok "border" else
  let* leaf := py_get roles "leaf" (VList []) in
  let* in_leaf := py_in device_hostname leaf in
  if in_leaf then Ok "leaf" else
  Ok "unknown".

Definition get_device_role (data_model : value) (device_hostname : string) : result string :=
  device_role_of data_model (VStr device_hostname).

(** *** The wrapper template of [_render_fabric_template]

    The f-string at lines 113-132 produces Jinja source.  Its structure is
    kept ([jnode]); [wrapper_source] prints it back to the text the
    f-string evaluates to.  Text spliced in by Python (the template body,
    the hostname inside a string literal) is part of that source. *)

Inductive jexpr : Type :=
| JName (name : string)     (* a Jinja variable reference *)
| JString (text : string).  (* a Jinja string literal *)

Record jbranch : Type := {
  guard_lhs : jexpr;          (* {% if lhs == rhs %} or {% elif lhs == rhs %} *)
  guard_rhs : jexpr;
  macro : string;             (* {{ macro(args) }} *)
  macro_args : list jexpr
}.

Inductive jnode : Type :=
| JInclude (file : string)          (* {% include "file" %} *)
| JSplice (source : string)         (* template text pasted in by the f-string *)
| JIfChain (branches : list jbranch).

Definition wrapper_template (template_content device_hostname : string) : list jnode :=
  [JInclude "DEFN-VRF.j2";
   JInclude "DEFN-ROLES.j2";
   JInclude "DEFN-LOOPBACKS.j2";
   JInclude "DEFN-OVERLAY.j2";
   JInclude "DEFN-L3OUT.j2";
   JInclude "DEFN-MCAST.j2";
   JInclude "DEFN-VNIOFFSETS.j2";
   JInclude "DEFN-NAC-IOT.j2";
   JInclude "DEFN-IPSEC.j2";
   JInclude "FUNC-OBJECT-MACROS.j2";
   JSplice template_content;
   JIfChain
     [ {| guard_lhs := JName "template_file"; guard_rhs := JString "FABRIC-VRF.j2";
          macro := "vrfDefinitionBuild";
          macro_args := [JName "DEFN_VRF"; JName "DEFN_VRF_TO_NODE";
                         JString device_hostname; JName "DEFN_LOOP_UNDERLAY";
                         JName "FABRIC_BGP_ASN"] |};
       {| guard_lhs := JName "template_file"; guard_rhs := JString "FABRIC-OVERLAY.j2";
          macro := "overlayBuild";
          macro_args := [JName "DEFN_VRF"; JName "DEFN_VRF_TO_NODE";
                         JString device_hostname; JName "FABRIC_BGP_ASN";
                         JName "DEFN_OVERLAY"; JName "DEFN_NODE_ROLES";
                         JName "L2VNIOFFSET"] |} ] ].

Definition jexpr_source (e : jexpr) : string :=
  match e with
  | JName n => n
  | JString t => dquote +:+ t +:+ dquote
  end.

Definition jcall_source (b : jbranch) : string :=
  "{{ " +:+ macro b +:+ "(" +:+ String.concat ", " (map jexpr_source (macro_args b)) +:+ ") }}".

Fixpoint jchain_source (keyword : string) (branches : list jbranch) : string :=
  match branches with
  | [] => "{% endif %}" +:+ nl
  | b :: rest =>
      "{% " +:+ keyword +:+ " " +:+ jexpr_source (guard_lhs b) +:+ " == "
        +:+ jexpr_source (guard_rhs b) +:+ " %}" +:+ nl
        +:+ jcall_source b +:+ nl
        +:+ jchain_source "elif" rest
  end.

Definition jnode_source (n : jnode) : string :=
  match n with
  | JInclude f => "{% include " +:+ dquote +:+ f +:+ dquote +:+ " %}" +:+ nl
  | JSplice src => nl +:+ src +:+ nl +:+ nl
  | JIfChain branches => jchain_source "if" branches
  end.

(** The text of [wrapper_template] (it starts with a newline). *)
Definition wrapper_source (w : list jnode) : string :=
  nl +:+ String.concat EmptyString (map jnode_source w).

(** Which macro call the wrapper reaches.  A name the render context
    does not define is Jinja's [Undefined], which is equal to nothing but
    another [Undefined]. *)
Definition jeval (context : list (scalar * value)) (e : jexpr) : option value :=
  match e with
  | JName n => dict_lookup context (SStr n)
  | JString t => Some (VStr t)
  end.

Definition guard_holds (context : list (scalar * value)) (b : jbranch) : bool :=
  match jeval context (guard_lhs b), jeval context (guard_rhs b) with
  | Some x, Some y => py_eq x y
  | None, None => true
  | _, _ => false
  end.

Definition reached_call (context : list (scalar * value)) (n : jnode)
  : list (string * list jexpr) :=
  match n with
  | JIfChain branches =>
      match find (guard_holds context) branches with
      | Some b => [(macro b, macro_args b)]
      | None => []
      end
  | _ => []
  end.

Definition reached_calls (context : list (scalar * value)) (w : list jnode)
  : list (string * list jexpr) :=
  flat_map (reached_call context) w.

(** Lines 148-171: the template selection of [generate_all_configs]. *)
Definition definition_templates : list string :=
  List.filter (String.prefix "DEFN-") template_names.

Definition role_in (device_role : string) (roles : list string) : bool :=
  existsb (String.eqb device_role) roles.

Definition fabric_templates (device_role : string) : list string :=
  if role_in device_role ["spine"; "leaf"; "border"] then
    ["FABRIC-VRF"; "FABRIC-LOOPBACKS"; "FABRIC-NVE"; "FABRIC-MCAST"; "FABRIC-EVPN"]
    ++ (if role_in device_role ["leaf"; "border"] then ["FABRIC-OVERLAY"] else [])
    ++ (if String.eqb device_role "leaf" then ["FABRIC-NAC-IOT"] else [])
    ++ (if String.eqb device_role "border" then ["FABRIC-IPSEC"] else [])
  else [].

(** Lines 197-201 and 305-308: what the two write paths put in a file. *)
Definition bulk_file_text (device_hostname template_name config : string) : string :=
  "! Configuration generated from " +:+ template_name +:+ " template" +:+ nl
  +:+ "! Device: " +:+ device_hostname +:+ nl
  +:+ "! Generated by BGP EVPN Config Generator" +:+ nl
  +:+ "!" +:+ nl
  +:+ config.

Definition single_file_text (device_hostname template_name config : string) : string :=
  "! Configuration generated from " +:+ template_name +:+ " template" +:+ nl
  +:+ "! Device: " +:+ device_hostname +:+ nl
  +:+ "!" +:+ nl
  +:+ config.

Definition cfg_filename (device_hostname template_name : string) : string :=
  device_hostname +:+ "_" +:+ template_name +:+ ".cfg".

(** What a run leaves behind: the files written and the lines printed. *)
Record world : Type := {
  files : gmap string string;
  stdout : list string
}.

Definition print (line : string) (w : world) : world :=
  {| files := files w; stdout := stdout w ++ [line] |}.

Fixpoint repeat_string (s : string) (n : nat) : string :=
  match n with
  | O => EmptyString
  | S n' => s +:+ repeat_string s n'
  end.

(** The command line after [argparse]. *)
Record args : Type := {
  device : string;
  template : option string;
  all_templates : bool;
  output_dir : option string;
  list_devices : bool;
  list_templates : bool
}.

Section Engine.

(** The interpreter, the operating system, the templating engine and the
    template directory are outside the program; every definition below
    is relative to them. *)

(** [str(e)] for an exception raised by the interpreter *)
Variable wording : exn -> string.
(** [str(Path(output_dir) / filename)] *)
Variable path_join : string -> string -> string.
(** [Path(output_dir).mkdir(parents=True, exist_ok=True)] and
    [open(path, 'w')]: the exception the operating system answers with,
    if any.  Its answer does not depend on what the run has written. *)
Variable mkdir : string -> option exn.
Variable open_w : string -> option exn.

(** [with open(path, 'w') as f] followed by the writes: once the file is
    open it holds exactly [text]; when it cannot be opened nothing
    changes. *)
Definition write_file (path text : string) (w : world) : world * result unit :=
  match open_w path with
  | Some e => (w, Raise e)
  | None => ({| files := <[path := text]> (files w); stdout := stdout w |}, Ok tt)
  end.

(** [self.jinja_env.get_template(file).render(template_vars)] *)
Variable render_file : string -> list (scalar * value) -> result string.
(** [open(self.templates_dir / file).read()] *)
Variable read_template : string -> result string.
(** [Template(source).render(template_vars)] *)
Variable render_source : string -> list (scalar * value) -> result string.

Definition _render_fabric_template (template_file : string)
    (template_vars : list (scalar * value)) (device_hostname : string) : result string :=
  match
    (let* template_content := read_template template_file in
     render_source (wrapper_source (wrapper_template template_content device_hostname))
                   template_vars)
  with
  | Ok config => Ok config
  | Raise _ => render_file template_file template_vars
  end.

Definition generate_config (data_model : value) (device_hostname template_name : string)
  : result string :=
  match dict_lookup available_templates (SStr template_name) with
  | None =>
      Raise (ValueError ("Template " +:+ template_name +:+ " not found. Available: "
                         +:+ repr_names template_names))
  | Some template_file =>
      let* template_vars :=
        Converter.generate_device_specific_vars data_model device_hostname in
      match
        (if String.prefix "DEFN-" template_name
         then render_file template_file template_vars
         else _render_fabric_template template_file template_vars device_hostname)
      with
      | Ok config => Ok config
      | Raise e =>
          Raise (RuntimeError ("Error rendering template " +:+ template_name +:+ ": "
                               +:+ str_exn wording e))
      end
  end.

(** The body of the loop at lines 176-181. *)
Definition config_slot (data_model : value) (device_hostname template_name : string)
  : string :=
  match generate_config data_model device_hostname template_name with
  | Ok config => config
  | Raise e => "Error generating " +:+ template_name +:+ ": " +:+ str_exn wording e
  end.

Definition generate_all_configs (data_model : value) (device_hostname : string)
  : result (list (scalar * string)) :=
  let* device_role := get_device_role data_model device_hostname in
  let all_templates := definition_templates ++ fabric_templates device_role in
  Ok (fold_left
        (fun configs template_name =>
           dict_set configs (SStr template_name)
                    (config_slot data_model device_hostname template_name))
        all_templates []).

(** The loop at lines 192-203: a file that cannot be opened ends it, and
    the files written before stay. *)
Fixpoint save_each (device_hostname output_dir : string)
    (configs : list (scalar * string)) (w : world) : world * result unit :=
  match configs with
  | [] => (w, Ok tt)
  | entry :: rest =>
      let template_name := str_scalar (fst entry) in
      let filepath := path_join output_dir (cfg_filename device_hostname template_name) in
      match write_file filepath
              (bulk_file_text device_hostname template_name (snd entry)) w with
      | (w', Ok _) =>
          save_each device_hostname output_dir rest (print ("Saved: " +:+ filepath) w')
      | (w', Raise e) => (w', Raise e)
      end
  end.

(** Lines 185-203: the directory is made before anything is generated. *)
Definition save_device_configs (data_model : value) (device_hostname output_dir : string)
    (w : world) : world * result unit :=
  match mkdir output_dir with
  | Some e => (w, Raise e)
  | None =>
      match generate_all_configs data_model device_hostname with
      | Raise e => (w, Raise e)
      | Ok configs => save_each device_hostname output_dir configs w
      end
  end.

Definition print_one (device_hostname : string) (w : world) (entry : scalar * string)
  : world :=
  print (snd entry)
    (print (repeat_string "=" 60)
       (print ("Device: " +:+ device_hostname)
          (print ("Template: " +:+ str_scalar (fst entry))
             (print (nl +:+ repeat_string "=" 60) w)))).

(** Lines 298-310: the single-template write path. *)
Definition save_single_config (device_hostname template_name config output_dir : string)
    (w : world) : world * result unit :=
  match mkdir output_dir with
  | Some e => (w, Raise e)
  | None =>
      let filepath := path_join output_dir (cfg_filename device_hostname template_name) in
      match write_file filepath
              (single_file_text device_hostname template_name config) w with
      | (w', Ok _) => (print ("Configuration saved to: " +:+ filepath) w', Ok tt)
      | (w', Raise e) => (w', Raise e)
      end
  end.

(** Lines 282-316, the body of the [try]: the world it leaves, also
    when it raises, and [Some code] for [sys.exit(code)], which
    [except Exception] does not catch. *)
Definition generate (data_model : value) (a : args) (w : world)
  : world * result (option Z) :=
  if all_templates a then
    if truthy (output_dir a) then
      match save_device_configs data_model (device a)
              (default EmptyString (output_dir a)) w with
      | (w', Ok _) => (w', Ok None)
      | (w', Raise e) => (w', Raise e)
      end
    else
      match generate_all_configs data_model (device a) with
      | Ok configs => (fold_left (print_one (device a)) configs w, Ok None)
      | Raise e => (w, Raise e)
      end
  else if truthy (template a) then
    let template_name := default EmptyString (template a) in
    match generate_config data_model (device a) template_name with
    | Raise e => (w, Raise e)
    | Ok config =>
        if truthy (output_dir a) then
          match save_single_config (device a) template_name config
                  (default EmptyString (output_dir a)) w with
          | (w', Ok _) => (w', Ok None)
          | (w', Raise e) => (w', Raise e)
          end
        else (print config w, Ok None)
    end
  else
    (print "Error: Must specify either --template or --all-templates" w, Ok (Some 1%Z)).

(** Lines 263-265 *)
Fixpoint print_devices (data_model : value) (devices : list scalar) (w : world)
  : world * Z :=
  match devices with
  | [] => (w, 0%Z)
  | dev :: rest =>
      match device_role_of data_model (VScalar dev) with
      | Ok role =>
          print_devices data_model rest
            (print ("  " +:+ str_scalar dev +:+ " (" +:+ role +:+ ")") w)
      | Raise _ => (w, 1%Z)
      end
  end.

(** [main] once the generator is initialised; the result is the world
    it leaves and the exit status.  An exception that reaches the top
    level ends the process with status 1. *)
Definition main (data_model : value) (a : args) (w : world) : world * Z :=
  if list_devices a then
    match get_device_list data_model with
    | Raise _ => (w, 1%Z)
    | Ok devices => print_devices data_model devices (print "Available devices:" w)
    end
  else if list_templates a then
    (fold_left (fun w t => print ("  " +:+ t) w) template_names
               (print "Available templates:" w), 0%Z)
  else
    match get_device_list data_model with
    | Raise _ => (w, 1%Z)
    | Ok devices =>
        if negb (existsb (scalar_eq (SStr (device a))) devices) then
          (print "Use --list-devices to see available devices"
             (print ("Error: Device '" +:+ device a +:+ "' not found in data model") w),
           1%Z)
        else
          match generate data_model a w with
          | (w', Ok None) => (w', 0%Z)
          | (w', Ok (Some code)) => (w', code)
          | (w', Raise e) =>
              (print ("Error generating configuration: " +:+ str_exn wording e) w', 1%Z)
          end
    end.

End Engine.

End Generator.

(** ** Vocabulary of the statements *)

(** The representative of a hashable value up to [==]. *)
Definition canon (x : scalar) : scalar :=
  match x with
  | SBool b => SInt (num_of_bool b)
  | _ => x
  end.

(** The members of a role list, [[]] when the role has no entry. *)
Definition role_members (roles : list (scalar * value)) (role : string) : list value :=
  match dict_lookup roles (SStr role) with
  | Some (VList l) => l
  | _ => []
  end.

(** The template names of a generated [configs] dict. *)
Definition config_names (configs : list (scalar * string)) : list string :=
  map (fun kv => str_scalar (fst kv)) configs.

Definition is_definition (template_name : string) : bool :=
  String.prefix "DEFN-" template_name.

Definition is_fabric (template_name : string) : bool :=
  negb (String.prefix "DEFN-" template_name).

Definition spine_set : list string :=
  ["FABRIC-VRF"; "FABRIC-LOOPBACKS"; "FABRIC-NVE"; "FABRIC-MCAST"; "FABRIC-EVPN"].

Definition nine_definitions : list string :=
  ["DEFN-VRF"; "DEFN-ROLES"; "DEFN-LOOPBACKS"; "DEFN-OVERLAY"; "DEFN-L3OUT";
   "DEFN-MCAST"; "DEFN-VNIOFFSETS"; "DEFN-NAC-IOT"; "DEFN-IPSEC"].

(** Adding the members of a list of hashable values one by one. *)
Definition add_all (s : pyset) (xs : list scalar) : pyset := fold_left set_add xs s.


(** The names [fabric_template_vars] defines, in order. *)
Definition global_names : list string :=
  ["FABRIC_BGP_ASN"; "FABRIC_UNDERLAY"; "FABRIC_IPSEC_UNDERLAY"; "L2VNIOFFSET";
   "L3VNIOFFSET"; "FABRIC_RP_ADDR"; "FABRIC_RP_SCOPES"; "ENTERPRISE_RP_ADDR";
   "ENTERPRISE_RP_SCOPES"; "DEFN_NODE_ROLES"; "DEFN_LOOP_UNDERLAY"; "DEFN_LOOP_IPSEC";
   "DEFN_LOOP_MCLUSTER"; "DEFN_LOOP_OVERLAY"; "DEFN_LOOP_NAME"; "DEFN_VRF";
   "DEFN_VRF_TO_NODE"; "DEFN_OVERLAY"; "DEFN_L3OUT"; "DEFN_L3OUT_AGGREGATES";
   "DEFN_NAC_IOT"; "DEFN_IPSEC"].

(** The header the bulk write path puts before the rendered text: four
    lines starting with [!], naming the template, the hostname and the
    generator. *)
Definition four_line_header (device_hostname template_name : string) : string :=
  "! Configuration generated from " +:+ template_name +:+ " template" +:+ nl
  +:+ "! Device: " +:+ device_hostname +:+ nl
  +:+ "! Generated by BGP EVPN Config Generator" +:+ nl
  +:+ "!" +:+ nl.

(** [v[key]] where the statement needs a value; [None] when the
    subscript would raise. *)
Definition field (v : value) (key : string) : value :=
  match getitem v key with
  | Ok x => x
  | Raise _ => VNone
  end.

(** The dotted paths of the fields [fabric_template_vars] reads. *)
Definition mapper_paths : list string :=
  ["fabric.bgp_asn"; "fabric.underlay"; "fabric.ipsec_underlay";
   "vni_offsets.l2_vni_offset"; "vni_offsets.l3_vni_offset";
   "multicast.fabric_rp.address"; "multicast.fabric_rp.scopes";
   "multicast.enterprise_rp.address"; "multicast.enterprise_rp.scopes";
   "devices.roles.spine"; "devices.roles.route_reflector"; "devices.roles.client";
   "devices.roles.border";
   "devices.loopbacks.underlay"; "devices.loopbacks.ipsec";
   "devices.loopbacks.multi_cluster"; "devices.loopbacks.overlay_prefixes";
   "devices.loopbacks.interface_names";
   "vrfs.definitions"; "vrfs.device_mappings";
   "overlay_networks";
   "l3_external.connections"; "l3_external.aggregate_routes";
   "network_access_control.servers";
   "ipsec.tunnels"].

(** The record-level fields the mapper reads inside its loops.  A
    predicate holds vacuously of an object the loop could not visit. *)
Definition has_fields (fields : list string) (v : value) : bool :=
  match v with
  | VDict d => forallb (fun f => dict_mem d (SStr f)) fields
  | _ => true
  end.

Definition each (P : value -> bool) (v : value) : bool :=
  match py_iter v with
  | Ok xs => forallb P xs
  | Raise _ => true
  end.

Definition each_value (P : value -> bool) (v : value) : bool :=
  match py_items v with
  | Ok items => forallb (fun kv => P (snd kv)) items
  | Raise _ => true
  end.

Definition at_path (keys : list string) (P : value -> bool) (v : value) : bool :=
  match getpath v keys with
  | Ok x => P x
  | Raise _ => true
  end.

Definition overlay_complete (overlay : value) : bool :=
  has_fields ["vrf"; "vlans"] overlay
  && at_path ["vlans"]
       (each_value (has_fields ["name"; "ip_address"; "mac_address"; "dhcp_helper";
                                "bum_address"])) overlay.

Definition connection_complete (connection : value) : bool :=
  has_fields ["vrf"; "device"; "neighbor_asn"; "interfaces"] connection
  && at_path ["interfaces"]
       (each_value (has_fields ["name"; "vlan"; "ip_address"; "neighbor_ip"])) connection.

Definition records_complete (data_model : value) : bool :=
  at_path ["overlay_networks"] (each overlay_complete) data_model
  && at_path ["l3_external"; "connections"] (each connection_complete) data_model
  && at_path ["network_access_control"; "servers"]
       (each (has_fields ["vrf"; "server_ip"; "shared_key"])) data_model
  && at_path ["ipsec"; "tunnels"]
       (each_value (each (has_fields ["tunnel_ip"; "peer_ip"; "tunnel_destination";
                                      "tunnel_mode"; "peer_bgp_asn"]))) data_model
  && at_path ["vrfs"; "definitions"] (each (has_fields ["name"])) data_model.

(** [MissingField]: the mapper's subscript of an absent key. *)
Definition no_key_error {A} (r : result A) : Prop :=
  forall key, r <> Raise (KeyError key).

(** ** Sample documents *)

Module Samples.

Definition strs (l : list string) : value := VList (map (fun s => VStr s) l).

Definition rp (address : string) : value :=
  record [("address", VStr address); ("scopes", strs ["239.0.0.0/8"])].

Definition role_entries : list (scalar * value) :=
  [(SStr "spine", strs ["spine01"]);
   (SStr "border", strs ["border01"]);
   (SStr "leaf", strs ["leaf01"]);
   (SStr "route_reflector", strs ["spine01"; "rr01"]);
   (SStr "client", strs ["leaf01"; "border01"])].

Definition roles : value := VDict role_entries.

Definition loopbacks : value :=
  record [("underlay", record [("spine01", VStr "10.1.0.1"); ("border01", VStr "10.1.0.2");
                               ("leaf01", VStr "10.1.0.3"); ("rr01", VStr "10.1.0.4")]);
          ("ipsec", record [("border01", VStr "10.2.0.2")]);
          ("multi_cluster", record []);
          ("overlay_prefixes", record [("leaf01", VStr "10.3.0.0/24")]);
          ("interface_names", record [("underlay", VStr "Loopback0")])].

Definition vlan101 : value :=
  record [("name", VStr "users"); ("ip_address", VStr "192.168.101.1/24");
          ("mac_address", VStr "0000.0c9f.f001"); ("dhcp_helper", VStr "10.9.9.9");
          ("bum_address", VStr "239.1.1.101")].

Definition connection1 : value :=
  record [("vrf", VStr "VRF_10"); ("device", VStr "border01"); ("neighbor_asn", VInt 65100);
          ("interfaces",
            record [("uplink", record [("name", VStr "Te1/0/1"); ("vlan", VInt 3001);
                                       ("ip_address", VStr "172.16.0.1/30");
                                       ("neighbor_ip", VStr "172.16.0.2")])])].

Definition tunnel1 : value :=
  record [("tunnel_ip", VStr "172.17.0.1"); ("peer_ip", VStr "172.17.0.2");
          ("tunnel_destination", VStr "198.51.100.2"); ("tunnel_mode", VStr "ipsec ipv4");
          ("peer_bgp_asn", VInt 65200)].

(** A document with every section of the schema, for a given id list of
    [leaf01] and given further top-level sections. *)
Definition fabric_doc_with (leaf_vrf_ids : list value) (more : list (string * value))
  : value :=
  record ([("fabric", record [("bgp_asn", VInt 65001); ("underlay", VStr "ipv4");
                              ("ipsec_underlay", VBool false)]);
           ("vni_offsets", record [("l2_vni_offset", VInt 10000);
                                   ("l3_vni_offset", VInt 50000)]);
           ("multicast", record [("fabric_rp", rp "10.0.0.1");
                                 ("enterprise_rp", rp "10.0.0.2")]);
           ("devices", record [("roles", roles); ("loopbacks", loopbacks)]);
           ("vrfs", record [("definitions",
                              VList [record [("id", VInt 10); ("name", VStr "VRF_10")]]);
                            ("device_mappings",
                              record [("leaf01", VList leaf_vrf_ids)])]);
           ("overlay_networks",
             VList [record [("vrf", VStr "VRF_10"); ("vlans", VDict [(SInt 101, vlan101)])]]);
           ("l3_external", record [("connections", VList [connection1]);
                                   ("aggregate_routes", VList [])]);
           ("network_access_control",
             record [("servers", VList [record [("vrf", VStr "VRF_10");
                                                ("server_ip", VStr "10.8.8.8");
                                                ("shared_key", VStr "secret")]])]);
           ("ipsec", record [("tunnels", record [("border01", VList [tunnel1])])])]
          ++ more).

(** [leaf01] is mapped to VRF ids 10 and 99; only id 10 is defined. *)
Definition fabric_doc : value := fabric_doc_with [VInt 10; VInt 99] [].

(** A consistent document that declares every path the mapper reads. *)
Definition declared_doc : value :=
  fabric_doc_with [VInt 10]
    [("validation", record [("required_fields", strs mapper_paths)])].

(** Two VRF definitions share id 5, and [leaf09] has no underlay loopback. *)
Definition faulty_roles : list (scalar * value) :=
  [(SStr "spine", strs ["spine01"]); (SStr "leaf", strs ["leaf09"])].

Definition faulty_defs : list value :=
  [record [("id", VInt 5); ("name", VStr "VRF_A")];
   record [("id", VInt 5); ("name", VStr "VRF_B")]].

Definition faulty_doc : value :=
  record [("vrfs", record [("definitions", VList faulty_defs);
                           ("device_mappings", record [("leaf09", VList [VInt 5])])]);
          ("devices", record [("roles", VDict faulty_roles);
                              ("loopbacks",
                                record [("underlay", record [("spine01", VStr "10.1.0.1")])])])].

(** The smallest document the validator accepts: it has the four fields
    the validator reads and nothing else. *)
Definition bare_doc : value :=
  record [("vrfs", record [("definitions", VList []); ("device_mappings", record [])]);
          ("devices", record [("roles", record []);
                              ("loopbacks", record [("underlay", record [])])])].

(** An engine that renders every template to its file name and cannot
    read or compose anything else. *)
Definition echo_file (file : string) (_ : list (scalar * value)) : result string :=
  Ok ("rendered " +:+ file).
Definition no_read (file : string) : result string :=
  Raise (EngineError ("cannot read " +:+ file)).
Definition no_source (_ : string) (_ : list (scalar * value)) : result string :=
  Raise (EngineError "no loader for this environment specified").

(** An engine that fails on one template file and echoes the others. *)
Definition failing_on (bad file : string) (vars : list (scalar * value)) : result string :=
  if String.eqb file bad then Raise (EngineError "undefined variable") else echo_file file vars.

Definition empty_world : Generator.world :=
  {| Generator.files := ∅; Generator.stdout := [] |}.

(** The interpreter's wording of a missing plain key, which is the key
    in single quotes; its other messages are not needed below. *)
Definition wording (e : exn) : string :=
  match e with
  | KeyError k => "'" +:+ k +:+ "'"
  | _ => "(message of the interpreter)"
  end.

(** [Path(dir) / name] for a relative directory name made of plain
    components and a relative file name. *)
Definition under (dir name : string) : string := dir +:+ "/" +:+ name.

(** An operating system that refuses nothing, and one that refuses
    everything. *)
Definition permitted (_ : string) : option exn := None.
Definition refused (path : string) : option exn :=
  Some (EngineError ("[Errno 13] Permission denied: " +:+ path)).

End Samples.

(** ** yaml_to_template_vars.py: [save_template_vars] and [main] *)

Module ConverterMain.

(** What a run of the converter leaves behind.  A printed line is kept
    as f-string pieces, as the violation messages are. *)
Record world : Type := {
  files : gmap string string;
  stdout : list message
}.

Definition print (line : message) (w : world) : world :=
  {| files := files w; stdout := stdout w ++ [line] |}.

(** The command line after [argparse]; [--input] is consumed by the
    loader, which hands over the parsed document. *)
Record args : Type := {
  output : option string;
  device : option string;
  validate : bool;
  list_devices : bool
}.

(** Lines 262-264: the devices of one role.  A device is printed before
    it is added to the set, so an unhashable one is printed and then
    ends the run. *)
Fixpoint list_role_devices (devices : list value) (all_devices : pyset) (w : world)
  : world * result pyset :=
  match devices with
  | [] => (w, Ok all_devices)
  | dev :: rest =>
      let w' := print [Lit "    - "; Fmt dev] w in
      match hash dev with
      | Ok k => list_role_devices rest (set_add all_devices k) w'
      | Raise e => (w', Raise e)
      end
  end.

Section Runtime.

(** [open(path, 'w')]: the exception the operating system answers with,
    if any. *)
Variable open_w : string -> option exn.
(** [yaml.dump(template_vars, default_flow_style=False, indent=2)] and
    [str.upper] belong to the libraries, not to the program. *)
Variable yaml_dump : list (scalar * value) -> string.
Variable str_upper : string -> string.

(** [with open(path, 'w') as f] followed by the dump: once the file is
    open it holds exactly [text]. *)
Definition write_file (path text : string) (w : world) : result world :=
  match open_w path with
  | Some e => Raise e
  | None => Ok {| files := <[path := text]> (files w); stdout := stdout w |}
  end.

(** Lines 201-208: the variables are computed before the file is opened. *)
Definition save_template_vars (data_model : value) (output_path : string)
    (device_hostname : option string) (w : world) : result world :=
  let* template_vars := Converter.convert_to_template_vars data_model device_hostname in
  let* w' := write_file output_path (yaml_dump template_vars) w in
  Ok (print [Lit "Template variables saved to: "; Lit output_path] w').

(** Lines 260-264: the loop over the role mapping. *)
Fixpoint list_roles (roles : list (scalar * value)) (all_devices : pyset) (w : world)
  : world * result pyset :=
  match roles with
  | [] => (w, Ok all_devices)
  | (role, devices) :: rest =>
      match role with
      | SStr name =>
          let w1 := print [Lit "  "; Lit (str_upper name); Lit ":"] w in
          match py_iter devices with
          | Raise e => (w1, Raise e)
          | Ok devs =>
              match list_role_devices devs all_devices w1 with
              | (w2, Ok all_devices') => list_roles rest all_devices' w2
              | (w2, Raise e) => (w2, Raise e)
              end
          end
      | _ => (w, Raise (AttributeError "object has no attribute 'upper'"))
      end
  end.

(** Lines 257-266 *)
Definition list_all_devices (data_model : value) (w : world) : world * Z :=
  let w0 := print [Lit "Devices in data model:"] w in
  match (let* roles := getpath data_model ["devices"; "roles"] in py_items roles) with
  | Raise _ => (w0, 1%Z)
  | Ok items =>
      match list_roles items [] w0 with
      | (w1, Ok all_devices) =>
          (print [Lit (nl +:+ "Total devices: "
                       +:+ str_scalar (SInt (Z.of_nat (length all_devices))))] w1,
           0%Z)
      | (w1, Raise _) => (w1, 1%Z)
      end
  end.

(** Lines 268-274 *)
Definition convert_and_emit (data_model : value) (a : args) (w : world) : world * Z :=
  if truthy (output a) then
    match save_template_vars data_model (default EmptyString (output a)) (device a) w with
    | Ok w' => (w', 0%Z)
    | Raise _ => (w, 1%Z)
    end
  else
    match Converter.convert_to_template_vars data_model (device a) with
    | Ok template_vars => (print [Lit (yaml_dump template_vars)] w, 0%Z)
    | Raise _ => (w, 1%Z)
    end.

(** Lines 256-274, after the optional validation. *)
Definition list_or_convert (data_model : value) (a : args) (w : world) : world * Z :=
  if list_devices a then list_all_devices data_model w
  else convert_and_emit data_model a w.

(** [main] once the document is loaded; the result is the world it
    leaves and the exit status.  There is no [try]: an exception ends
    the process with status 1. *)
Definition main (data_model : value) (a : args) (w : world) : world * Z :=
  if validate a then
    match Converter.validate_data_model data_model with
    | Raise _ => (w, 1%Z)
    | Ok [] => list_or_convert data_model a (print [Lit "Data model validation passed!"] w)
    | Ok errors =>
        (fold_left (fun w error => print (Lit "  - " :: error) w) errors
                   (print [Lit "Validation errors found:"] w),
         1%Z)
    end
  else list_or_convert data_model a w.

End Runtime.

End ConverterMain.

(** ** Further vocabulary *)

(** [".".join(parts)] *)
Fixpoint join_dot (parts : list string) : string :=
  match parts with
  | [] => EmptyString
  | [p] => p
  | p :: rest => p +:+ "." +:+ join_dot rest
  end.

Fixpoint has_dot (s : string) : bool :=
  match s with
  | EmptyString => false
  | String c s' => Ascii.eqb c "."%char || has_dot s'
  end.

(** The files an all-templates run writes for a device of a given role. *)
Definition bulk_paths (path_join : string -> string -> string) (h dir role : string)
  : list string :=
  map (fun t => path_join dir (Generator.cfg_filename h t))
      (Generator.definition_templates ++ Generator.fabric_templates role).

(** The operating system lets an all-templates run into [dir] make the
    directory and open each of its files; likewise for the one file of a
    single-template run. *)
Definition no_failure (answer : option exn) : bool :=
  match answer with
  | None => true
  | Some _ => false
  end.

Definition bulk_writes_succeed (path_join : string -> string -> string)
    (mkdir open_w : string -> option exn) (h dir role : string) : bool :=
  no_failure (mkdir dir)
  && forallb (fun p => no_failure (open_w p)) (bulk_paths path_join h dir role).

Definition single_write_succeeds (path_join : string -> string -> string)
    (mkdir open_w : string -> option exn) (h dir template_name : string) : bool :=
  no_failure (mkdir dir)
  && no_failure (open_w (path_join dir (Generator.cfg_filename h template_name))).

(** What the required-field check reports for declared string paths:
    one message per path that does not resolve, in declaration order. *)
Definition required_field_messages (data_model : value) (paths : list string)
  : list message :=
  map (fun p => [Lit "Required field missing: "; Fmt (VStr p)])
      (List.filter (fun p => negb (Converter.walk_path data_model (split_dot p))) paths).

(** What the mapping check reports for devices mapped to lists of
    hashable ids. *)
Definition mapping_messages (valid : pyset) (entries : list (scalar * list scalar))
  : list message :=
  flat_map (fun e =>
              match set_diff (add_all [] (snd e)) valid with
              | [] => []
              | _ :: _ =>
                  [[Lit "Device "; Fmt (VScalar (fst e));
                    Lit " references invalid VRF IDs: ";
                    FmtSet (set_diff (add_all [] (snd e)) valid)]]
              end) entries.

(** No two keys of the dict are equal (as a loaded YAML mapping has it). *)
Fixpoint distinct_keys {V} (d : list (scalar * V)) : bool :=
  match d with
  | [] => true
  | (k, _) :: d' => negb (dict_mem d' k) && distinct_keys d'
  end.

(** A VLAN record in the shape the templates expect. *)
Definition reshaped_vlan (vlan_config : value) : value :=
  record [("name", field vlan_config "name");
          ("ipaddr", field vlan_config "ip_address");
          ("mac", field vlan_config "mac_address");
          ("dhcp_helper", field vlan_config "dhcp_helper");
          ("bum_addr", field vlan_config "bum_address")].

(** * Properties *)

(** ** The error monad *)

Lemma bind_ok {A B} (c : result A) (k : A -> result B) (b : B) :
  bind c k = Ok b -> exists a, c = Ok a /\ k a = Ok b.
Proof. destruct c as [a|e]; simpl; [eauto | discriminate]. Qed.

(** Inverts a chain of successful binds in hypothesis [H]. *)
Ltac bind_inv H :=
  let a := fresh "x" in
  let E := fresh "E" in
  apply bind_ok in H; destruct H as (a & E & H).

Tactic Notation "bind_split" hyp(H) "as" ident(a) ident(E) :=
  apply bind_ok in H; destruct H as (a & E & H).

Lemma mapM_ok_each {A B} (f : A -> result B) l bs :
  mapM f l = Ok bs -> forall a, In a l -> exists b, f a = Ok b.
Proof.
  revert bs; induction l as [|a l IH]; simpl; intros bs H x Hx; [tauto|].
  bind_inv H. bind_inv H. destruct Hx as [<-|Hx]; eauto.
Qed.

(** ** Equality of hashable values is an equivalence *)

Lemma scalar_eq_canon x y : scalar_eq x y = true <-> canon x = canon y.
Proof.
  destruct x as [|a|a|a], y as [|b|b|b]; cbn [scalar_eq canon];
    rewrite ?Z.eqb_eq, ?String.eqb_eq;
    try (destruct a); try (destruct b); cbn [num_of_bool Bool.eqb];
    split; intros H; try discriminate; try reflexivity; congruence.
Qed.

Lemma scalar_eq_refl x : scalar_eq x x = true.
Proof. apply scalar_eq_canon. reflexivity. Qed.

Lemma scalar_eq_sym x y : scalar_eq x y = scalar_eq y x.
Proof.
  destruct (scalar_eq x y) eqn:E, (scalar_eq y x) eqn:E'; auto.
  - apply scalar_eq_canon in E. symmetry in E. apply scalar_eq_canon in E. congruence.
  - apply scalar_eq_canon in E'. symmetry in E'. apply scalar_eq_canon in E'. congruence.
Qed.

Lemma scalar_eq_trans x y z :
  scalar_eq x y = true -> scalar_eq y z = true -> scalar_eq x z = true.
Proof. rewrite !scalar_eq_canon. congruence. Qed.

Lemma scalar_eq_str_l s x : scalar_eq (SStr s) x = true <-> x = SStr s.
Proof.
  destruct x; simpl; split; try discriminate.
  - intros H. apply String.eqb_eq in H. congruence.
  - intros [= ->]. apply String.eqb_refl.
Qed.

Lemma py_eq_str s v : py_eq (VStr s) v = true <-> v = VStr s.
Proof.
  destruct v as [x|l|d]; simpl; split; try discriminate.
  - intros H. apply scalar_eq_str_l in H. congruence.
  - intros [= ->]. apply String.eqb_refl.
Qed.

Lemma existsb_py_eq_str s l : existsb (py_eq (VStr s)) l = true <-> In (VStr s) l.
Proof.
  rewrite existsb_exists. split.
  - intros (v & Hin & Heq). apply py_eq_str in Heq. congruence.
  - intros Hin. exists (VStr s). split; auto. apply py_eq_str. reflexivity.
Qed.

(** ** Dictionaries *)

Lemma dict_lookup_app {V} (d1 d2 : list (scalar * V)) k :
  dict_lookup (d1 ++ d2) k =
  match dict_lookup d1 k with Some v => Some v | None => dict_lookup d2 k end.
Proof.
  induction d1 as [|[k' v'] d1 IH]; simpl; auto.
  destruct (scalar_eq k' k); auto.
Qed.

Lemma dict_lookup_set_same {V} (d : list (scalar * V)) k v :
  dict_lookup (dict_set d k v) k = Some v.
Proof.
  induction d as [|[k' v'] d IH]; simpl.
  - rewrite scalar_eq_refl. reflexivity.
  - destruct (scalar_eq k' k) eqn:E; simpl; rewrite E; auto.
Qed.

Lemma dict_lookup_set_other {V} (d : list (scalar * V)) k k' v :
  scalar_eq k k' = false -> dict_lookup (dict_set d k v) k' = dict_lookup d k'.
Proof.
  intros Hne. induction d as [|[k0 v0] d IH]; simpl.
  - rewrite Hne. reflexivity.
  - destruct (scalar_eq k0 k) eqn:E; simpl.
    + destruct (scalar_eq k0 k') eqn:E'; [|reflexivity].
      rewrite scalar_eq_sym in E.
      rewrite (scalar_eq_trans _ _ _ E E') in Hne. discriminate.
    + rewrite IH. reflexivity.
Qed.

Lemma dict_lookup_str_map {V} (f : string -> V) (names : list string) t :
  dict_lookup (map (fun n => (SStr n, f n)) names) (SStr t) =
  if existsb (String.eqb t) names then Some (f t) else None.
Proof.
  induction names as [|n names IH]; simpl; auto.
  rewrite (String.eqb_sym t n).
  destruct (String.eqb n t) eqn:E; simpl; auto.
  apply String.eqb_eq in E. subst. reflexivity.
Qed.


(** ** Role resolution *)

Lemma py_get_dict d key default :
  py_get (VDict d) key default =
  Ok (match dict_lookup d (SStr key) with Some x => x | None => default end).
Proof. simpl. destruct (dict_lookup d (SStr key)); reflexivity. Qed.

Lemma role_membership roles role h :
  (forall v, dict_lookup roles (SStr role) = Some v -> exists l, v = VList l) ->
  (let* l := py_get (VDict roles) role (VList []) in py_in (VStr h) l)
  = Ok (existsb (py_eq (VStr h)) (role_members roles role)).
Proof.
  intros Hshape. rewrite py_get_dict. unfold role_members.
  destruct (dict_lookup roles (SStr role)) as [v|] eqn:E; simpl; [|reflexivity].
  destruct (Hshape v eq_refl) as [l ->]. reflexivity.
Qed.

Lemma get_device_role_formula d roles h :
  getpath d ["devices"; "roles"] = Ok (VDict roles) ->
  (forall role v, In role ["spine"; "border"; "leaf"] ->
                  dict_lookup roles (SStr role) = Some v -> exists l, v = VList l) ->
  Generator.get_device_role d h =
  Ok (if existsb (py_eq (VStr h)) (role_members roles "spine") then "spine"
      else if existsb (py_eq (VStr h)) (role_members roles "border") then "border"
      else if existsb (py_eq (VStr h)) (role_members roles "leaf") then "leaf"
      else "unknown").
Proof.
  intros Hroles Hshape.
  unfold Generator.get_device_role, Generator.device_role_of.
  rewrite Hroles. cbn [bind].
  pose proof (role_membership roles "spine" h) as Hs.
  pose proof (role_membership roles "border" h) as Hb.
  pose proof (role_membership roles "leaf" h) as Hl.
  unfold bind in Hs, Hb, Hl |- *.
  destruct (py_get (VDict roles) "spine" (VList [])) as [spine|e] eqn:Es;
    [|rewrite py_get_dict in Es; discriminate].
  rewrite Hs by (intros v; apply Hshape; simpl; auto).
  destruct (existsb (py_eq (VStr h)) (role_members roles "spine")); [reflexivity|].
  destruct (py_get (VDict roles) "border" (VList [])) as [border|e] eqn:Eb;
    [|rewrite py_get_dict in Eb; discriminate].
  rewrite Hb by (intros v; apply Hshape; simpl; auto).
  destruct (existsb (py_eq (VStr h)) (role_members roles "border")); [reflexivity|].
  destruct (py_get (VDict roles) "leaf" (VList [])) as [leaf|e] eqn:El;
    [|rewrite py_get_dict in El; discriminate].
  rewrite Hl by (intros v; apply Hshape; simpl; auto).
  destruct (existsb (py_eq (VStr h)) (role_members roles "leaf")); reflexivity.
Qed.

(** C5.  Role resolution on a document whose [devices.roles] is a mapping
    with list-valued spine, border and leaf entries (an absent entry
    counts as the empty list): the result is one of spine, border, leaf,
    unknown, chosen by membership in that order of precedence; a hostname
    in both the spine and the leaf list is a spine; a hostname in none of
    the three lists is unknown, not an error; and no other entry of the
    mapping (route_reflector, client) has any influence. *)
Theorem role_resolution_precedence d roles h :
  getpath d ["devices"; "roles"] = Ok (VDict roles) ->
  (forall role v, In role ["spine"; "border"; "leaf"] ->
                  dict_lookup roles (SStr role) = Some v -> exists l, v = VList l) ->
  exists role,
    Generator.get_device_role d h = Ok role
    /\ In role ["spine"; "border"; "leaf"; "unknown"]
    /\ (In (VStr h) (role_members roles "spine") -> role = "spine")
    /\ (~ In (VStr h) (role_members roles "spine") ->
        In (VStr h) (role_members roles "border") -> role = "border")
    /\ (~ In (VStr h) (role_members roles "spine") ->
        ~ In (VStr h) (role_members roles "border") ->
        In (VStr h) (role_members roles "leaf") -> role = "leaf")
    /\ (~ In (VStr h) (role_members roles "spine") ->
        ~ In (VStr h) (role_members roles "border") ->
        ~ In (VStr h) (role_members roles "leaf") -> role = "unknown")
    /\ (In (VStr h) (role_members roles "spine") ->
        In (VStr h) (role_members roles "leaf") -> role = "spine")
    /\ (forall d' roles',
          getpath d' ["devices"; "roles"] = Ok (VDict roles') ->
          (forall r, In r ["spine"; "border"; "leaf"] ->
                     dict_lookup roles' (SStr r) = dict_lookup roles (SStr r)) ->
          Generator.get_device_role d' h = Ok role).
Proof.
  intros Hroles Hshape.
  rewrite (get_device_role_formula d roles h Hroles Hshape).
  eexists; split; [reflexivity|].
  destruct (existsb (py_eq (VStr h)) (role_members roles "spine")) eqn:Es;
  destruct (existsb (py_eq (VStr h)) (role_members roles "border")) eqn:Eb;
  destruct (existsb (py_eq (VStr h)) (role_members roles "leaf")) eqn:El;
  (repeat match goal with
          | H : existsb _ _ = true |- _ => apply existsb_py_eq_str in H
          | H : existsb _ _ = false |- _ =>
              apply not_true_iff_false in H; rewrite existsb_py_eq_str in H
          end);
  (repeat split; try tauto; try (simpl; tauto));
  (intros d' roles' Hroles' Hsame;
   rewrite (get_device_role_formula d' roles' h Hroles');
   [ unfold role_members; rewrite !Hsame by (simpl; auto);
     fold (role_members roles "spine"); fold (role_members roles "border");
     fold (role_members roles "leaf");
     repeat match goal with
            | H : In _ _ |- _ => apply existsb_py_eq_str in H; rewrite H
            | H : ~ In _ _ |- _ =>
                rewrite <- existsb_py_eq_str in H; apply not_true_iff_false in H; rewrite H
            end; reflexivity
   | intros r v Hr Hv; rewrite Hsame in Hv by exact Hr; eauto ]).
Qed.

Lemma role_resolution_precedence_witness :
  exists role,
    Generator.get_device_role Samples.fabric_doc "spine01" = Ok role /\ role = "spine".
Proof.
  destruct (role_resolution_precedence Samples.fabric_doc Samples.role_entries
              "spine01") as (role & Hrole & _ & Hspine & _).
  - reflexivity.
  - intros role v [<-|[<-|[<-|[]]]] [= <-]; eexists; reflexivity.
  - exists role. split; [exact Hrole|]. apply Hspine. simpl. auto.
Defined.

(** ** Python sets *)

Lemma set_mem_eq s x y : scalar_eq x y = true -> set_mem s x = set_mem s y.
Proof.
  intros Hxy. unfold set_mem. induction s as [|z s IH]; simpl; auto.
  rewrite IH. f_equal.
  destruct (scalar_eq x z) eqn:E, (scalar_eq y z) eqn:E'; auto.
  - rewrite scalar_eq_sym in Hxy.
    rewrite (scalar_eq_trans _ _ _ Hxy E) in E'. discriminate.
  - rewrite (scalar_eq_trans _ _ _ Hxy E') in E. discriminate.
Qed.

Lemma set_mem_app s1 s2 x : set_mem (s1 ++ s2) x = set_mem s1 x || set_mem s2 x.
Proof. unfold set_mem. apply existsb_app. Qed.

Lemma set_mem_add s x y : set_mem (set_add s x) y = set_mem s y || scalar_eq y x.
Proof.
  unfold set_add. destruct (set_mem s x) eqn:E.
  - destruct (scalar_eq y x) eqn:Eyx; [|rewrite orb_false_r; reflexivity].
    rewrite (set_mem_eq s y x Eyx), E. reflexivity.
  - rewrite set_mem_app. unfold set_mem at 2. simpl. rewrite orb_false_r. reflexivity.
Qed.

Lemma set_mem_str s n : set_mem s (SStr n) = true <-> In (SStr n) s.
Proof.
  unfold set_mem. rewrite existsb_exists. split.
  - intros (x & Hin & Heq). apply scalar_eq_str_l in Heq. congruence.
  - intros Hin. exists (SStr n). split; auto. apply scalar_eq_refl.
Qed.

Lemma set_add_length s x : length (set_add s x) <= S (length s).
Proof.
  unfold set_add. destruct (set_mem s x); [lia|].
  rewrite length_app. simpl. lia.
Qed.

Lemma set_add_all_str s x :
  forallb is_str s = true -> is_str x = true -> forallb is_str (set_add s x) = true.
Proof.
  intros Hs Hx. unfold set_add. destruct (set_mem s x); auto.
  rewrite forallb_app, Hs. simpl. rewrite Hx. reflexivity.
Qed.

Lemma set_mem_add_all xs s y :
  set_mem (add_all s xs) y = set_mem s y || existsb (scalar_eq y) xs.
Proof.
  unfold add_all. revert s; induction xs as [|x xs IH]; intros s; simpl.
  - rewrite orb_false_r. reflexivity.
  - rewrite IH, set_mem_add, orb_assoc. reflexivity.
Qed.

Lemma add_all_length xs s : length (add_all s xs) <= length s + length xs.
Proof.
  unfold add_all. revert s; induction xs as [|x xs IH]; intros s; simpl; [lia|].
  specialize (IH (set_add s x)). pose proof (set_add_length s x). lia.
Qed.

Lemma add_all_all_str xs s :
  forallb is_str s = true -> forallb is_str xs = true ->
  forallb is_str (add_all s xs) = true.
Proof.
  unfold add_all. revert s; induction xs as [|x xs IH]; intros s Hs Hxs; simpl; auto.
  simpl in Hxs. apply andb_prop in Hxs as [Hx Hxs].
  apply IH; auto. apply set_add_all_str; auto.
Qed.

Lemma add_all_app s xs ys : add_all s (xs ++ ys) = add_all (add_all s xs) ys.
Proof. apply fold_left_app. Qed.

Lemma set_add_present s x : set_mem s x = true -> set_add s x = s.
Proof. unfold set_add. intros ->. reflexivity. Qed.

(** A repeated member makes the set strictly smaller than the list. *)
Lemma add_all_duplicate xs1 a xs2 b xs3 s :
  scalar_eq a b = true ->
  length (add_all s (xs1 ++ a :: xs2 ++ b :: xs3))
  < length s + length (xs1 ++ a :: xs2 ++ b :: xs3).
Proof.
  intros Hab.
  rewrite add_all_app.
  change (add_all (add_all s xs1) (a :: xs2 ++ b :: xs3))
    with (add_all (set_add (add_all s xs1) a) (xs2 ++ b :: xs3)).
  rewrite add_all_app.
  set (s1 := add_all s xs1). set (s2 := add_all (set_add s1 a) xs2).
  change (add_all s2 (b :: xs3)) with (add_all (set_add s2 b) xs3).
  assert (Hmem : set_mem s2 b = true).
  { unfold s2. rewrite set_mem_add_all, set_mem_add.
    rewrite (scalar_eq_sym b a), Hab, orb_true_r. reflexivity. }
  rewrite (set_add_present s2 b Hmem).
  pose proof (add_all_length xs3 s2) as H3.
  pose proof (add_all_length xs2 (set_add s1 a)) as H2. fold s2 in H2.
  pose proof (set_add_length s1 a) as Ha.
  pose proof (add_all_length xs1 s) as H1. fold s1 in H1.
  rewrite !length_app. simpl. rewrite length_app. simpl. lia.
Qed.

Lemma hash_all_scalars (xs : list scalar) s :
  foldM (fun acc x => let* k := hash x in Ok (set_add acc k)) s (map VScalar xs)
  = Ok (add_all s xs).
Proof.
  unfold add_all. revert s; induction xs as [|x xs IH]; intros s; simpl; auto.
Qed.

Lemma hash_all_ok (vs : list value) s s' :
  foldM (fun acc x => let* k := hash x in Ok (set_add acc k)) s vs = Ok s' ->
  exists xs, vs = map VScalar xs /\ s' = add_all s xs.
Proof.
  revert s; induction vs as [|v vs IH]; intros s H; simpl in H.
  - injection H as <-. exists []. auto.
  - bind_inv H. bind_inv E. injection E as <-.
    destruct v as [k|l|d]; simpl in E0; try discriminate. injection E0 as ->.
    destruct (IH _ H) as (xs & -> & ->). exists (x0 :: xs). auto.
Qed.

Lemma set_update_strs s names :
  set_update s (VList (map (fun n => VStr n) names)) = Ok (add_all s (map SStr names)).
Proof.
  unfold set_update. simpl.
  rewrite <- hash_all_scalars. rewrite map_map. reflexivity.
Qed.

Lemma set_update_all_strs namess s :
  foldM set_update s (map (fun names => VList (map (fun n => VStr n) names)) namess)
  = Ok (add_all s (map SStr (concat namess))).
Proof.
  revert s; induction namess as [|names namess IH]; intros s; simpl; auto.
  rewrite set_update_strs. simpl. rewrite IH.
  unfold add_all. rewrite map_app, fold_left_app. reflexivity.
Qed.

(** ** Sorting *)

Lemma In_insert_sorted {A} (leb : A -> A -> bool) x y l :
  In y (insert_sorted leb x l) <-> y = x \/ In y l.
Proof.
  induction l as [|z l IH]; simpl.
  - intuition.
  - destruct (leb x z); simpl; [intuition|]. rewrite IH. intuition.
Qed.

Lemma In_sort_by {A} (leb : A -> A -> bool) y l : In y (sort_by leb l) <-> In y l.
Proof.
  unfold sort_by. induction l as [|x l IH]; simpl; [tauto|].
  rewrite In_insert_sorted, IH. intuition.
Qed.

Lemma py_sorted_strs s :
  forallb is_str s = true ->
  exists l, py_sorted s = Ok l /\ forall x, In x l <-> In x s.
Proof.
  intros Hs. unfold py_sorted.
  destruct s as [|a [|b s']]; [exists []; tauto | eexists; split; [reflexivity|tauto] |].
  destruct (forallb is_number (a :: b :: s'));
    [eexists; split; [reflexivity|]; intros x; apply In_sort_by|].
  rewrite Hs. eexists; split; [reflexivity|]. intros x. apply In_sort_by.
Qed.


(** ** Template selection *)

Lemma fabric_templates_cases role :
  (role = "spine" /\ Generator.fabric_templates role = spine_set)
  \/ (role = "leaf" /\
      Generator.fabric_templates role = spine_set ++ ["FABRIC-OVERLAY"; "FABRIC-NAC-IOT"])
  \/ (role = "border" /\
      Generator.fabric_templates role = spine_set ++ ["FABRIC-OVERLAY"; "FABRIC-IPSEC"])
  \/ (~ In role ["spine"; "leaf"; "border"] /\ Generator.fabric_templates role = []).
Proof.
  destruct (String.eqb_spec role "spine") as [->|Hs]; [left; split; reflexivity|].
  destruct (String.eqb_spec role "leaf") as [->|Hl]; [right; left; split; reflexivity|].
  destruct (String.eqb_spec role "border") as [->|Hb];
    [right; right; left; split; reflexivity|].
  right; right; right. split; [simpl; intuition congruence|].
  unfold Generator.fabric_templates, Generator.role_in. simpl.
  apply String.eqb_neq in Hs, Hl, Hb. rewrite Hs, Hl, Hb. reflexivity.
Qed.

Lemma device_role_values d h role :
  Generator.device_role_of d h = Ok role ->
  In role ["spine"; "border"; "leaf"; "unknown"].
Proof.
  unfold Generator.device_role_of. intros H.
  bind_split H as roles Er. bind_split H as spine Es. bind_split H as b1 E1.
  destruct b1; [injection H as <-; simpl; auto|].
  bind_split H as border Eb. bind_split H as b2 E2.
  destruct b2; [injection H as <-; simpl; auto|].
  bind_split H as leaf El. bind_split H as b3 E3.
  destruct b3; injection H as <-; simpl; auto.
Qed.

Lemma definition_templates_eq : Generator.definition_templates = nine_definitions.
Proof. reflexivity. Qed.

Section GeneratorProperties.

Variable wording : exn -> string.
Variable render_file : string -> list (scalar * value) -> result string.
Variable read_template : string -> result string.
Variable render_source : string -> list (scalar * value) -> result string.

Let generate_config :=
  Generator.generate_config wording render_file read_template render_source.
Let config_slot := Generator.config_slot wording render_file read_template render_source.
Let generate_all_configs :=
  Generator.generate_all_configs wording render_file read_template render_source.

(** The dict [generate_all_configs] returns: one slot per selected
    template, definitions first, in selection order. *)
Lemma generate_all_configs_spec d h role :
  Generator.get_device_role d h = Ok role ->
  generate_all_configs d h =
  Ok (map (fun t => (SStr t, config_slot d h t))
          (Generator.definition_templates ++ Generator.fabric_templates role)).
Proof.
  intros Hrole. unfold generate_all_configs, Generator.generate_all_configs.
  rewrite Hrole. cbn [bind]. f_equal.
  fold (config_slot d h). generalize (config_slot d h) as slot. intros slot.
  rewrite definition_templates_eq.
  destruct (fabric_templates_cases role) as [[_ ->]|[[_ ->]|[[_ ->]|[_ ->]]]];
    reflexivity.
Qed.

Lemma config_names_slots (slot : string -> string) names :
  config_names (map (fun t => (SStr t, slot t)) names) = names.
Proof.
  unfold config_names. rewrite map_map. simpl. apply map_id.
Qed.

(** C4.  The fabric templates generated for a device are a fixed function
    of its resolved role: the five-template spine set for a spine; the
    spine set with FABRIC-OVERLAY and FABRIC-NAC-IOT (and no FABRIC-IPSEC)
    for a leaf; the spine set with FABRIC-OVERLAY and FABRIC-IPSEC (and no
    FABRIC-NAC-IOT) for a border; none for an unknown role. *)
Theorem fabric_selection_by_role d h role :
  Generator.get_device_role d h = Ok role ->
  exists configs,
    generate_all_configs d h = Ok configs
    /\ List.filter is_fabric (config_names configs) = Generator.fabric_templates role
    /\ (role = "spine" -> List.filter is_fabric (config_names configs) = spine_set)
    /\ (role = "leaf" ->
        List.filter is_fabric (config_names configs)
        = spine_set ++ ["FABRIC-OVERLAY"; "FABRIC-NAC-IOT"]
        /\ ~ In "FABRIC-IPSEC" (config_names configs))
    /\ (role = "border" ->
        List.filter is_fabric (config_names configs)
        = spine_set ++ ["FABRIC-OVERLAY"; "FABRIC-IPSEC"]
        /\ ~ In "FABRIC-NAC-IOT" (config_names configs))
    /\ (role = "unknown" -> List.filter is_fabric (config_names configs) = []).
Proof.
  intros Hrole. eexists. split; [apply generate_all_configs_spec; exact Hrole|].
  rewrite config_names_slots, definition_templates_eq.
  assert (Hfab : List.filter is_fabric (nine_definitions ++ Generator.fabric_templates role)
                 = Generator.fabric_templates role).
  { destruct (fabric_templates_cases role) as [[_ ->]|[[_ ->]|[[_ ->]|[_ ->]]]];
      reflexivity. }
  rewrite Hfab. split; [reflexivity|].
  split; [intros ->; reflexivity|].
  split; [intros ->; split; [reflexivity | simpl; intuition discriminate]|].
  split; [intros ->; split; [reflexivity | simpl; intuition discriminate]|].
  intros ->; reflexivity.
Qed.

(** C3, as the code has it.  For a device whose role is spine, leaf or
    border, the generated templates include exactly the nine definition
    templates, whatever the role. *)
Theorem nine_definition_templates d h role :
  Generator.get_device_role d h = Ok role ->
  In role ["spine"; "leaf"; "border"] ->
  exists configs,
    generate_all_configs d h = Ok configs
    /\ List.filter is_definition (config_names configs) = nine_definitions
    /\ length (List.filter is_definition (config_names configs)) = 9.
Proof.
  intros Hrole _. eexists. split; [apply generate_all_configs_spec; exact Hrole|].
  rewrite config_names_slots, definition_templates_eq.
  destruct (fabric_templates_cases role) as [[_ ->]|[[_ ->]|[[_ ->]|[_ ->]]]];
    split; reflexivity.
Qed.

(** Each slot holds the rendered text, or the inline error string when
    rendering that template failed. *)
Lemma config_slot_lookup d h role t :
  In t (Generator.definition_templates ++ Generator.fabric_templates role) ->
  dict_lookup (map (fun t => (SStr t, config_slot d h t))
                   (Generator.definition_templates ++ Generator.fabric_templates role))
              (SStr t)
  = Some (config_slot d h t).
Proof.
  intros Hin. rewrite dict_lookup_str_map.
  assert (H : existsb (String.eqb t)
                (Generator.definition_templates ++ Generator.fabric_templates role) = true).
  { apply existsb_exists. exists t. split; auto. apply String.eqb_refl. }
  rewrite H. reflexivity.
Qed.

(** *** The device check of [main] *)

Lemma dict_lookup_In {V} (d : list (scalar * V)) k v :
  dict_lookup d k = Some v -> exists k', In (k', v) d.
Proof.
  induction d as [|[k0 v0] d IH]; simpl; [discriminate|].
  destruct (scalar_eq k0 k).
  - intros [= ->]. eauto.
  - intros H. destruct (IH H) as [k' Hk']. eauto.
Qed.

Lemma foldM_ok_each {A S} (f : S -> A -> result S) l s s' :
  foldM f s l = Ok s' -> forall a, In a l -> exists s1 s2, f s1 a = Ok s2.
Proof.
  revert s; induction l as [|x l IH]; simpl; intros s H a Ha; [tauto|].
  bind_split H as s1 E. destruct Ha as [<-|Ha]; eauto.
Qed.

Lemma py_in_str_iterable h v xs :
  py_iter v = Ok xs -> exists b, py_in (VStr h) v = Ok b.
Proof.
  destruct v as [[| | |s]|l|d]; simpl; try discriminate; eauto.
Qed.

Lemma device_role_total d roles h :
  getpath d ["devices"; "roles"] = Ok (VDict roles) ->
  (forall name v, dict_lookup roles (SStr name) = Some v ->
                  exists b, py_in (VStr h) v = Ok b) ->
  exists role, Generator.get_device_role d h = Ok role.
Proof.
  intros Hroles Hin.
  unfold Generator.get_device_role, Generator.device_role_of.
  rewrite Hroles. cbn [bind]. rewrite !py_get_dict. cbn [bind].
  assert (Hdef : forall name,
             exists b, py_in (VStr h)
                         (match dict_lookup roles (SStr name) with
                          | Some x => x
                          | None => VList []
                          end) = Ok b).
  { intros name. destruct (dict_lookup roles (SStr name)) eqn:E; [eauto|].
    simpl. eauto. }
  destruct (Hdef "spine") as [b1 ->]. cbn [bind]. destruct b1; [eauto|].
  destruct (Hdef "border") as [b2 ->]. cbn [bind]. destruct b2; [eauto|].
  destruct (Hdef "leaf") as [b3 ->]. cbn [bind]. destruct b3; eauto.
Qed.

(** Once the device list could be computed, role resolution cannot raise. *)
Lemma device_list_role_total d devices h :
  Generator.get_device_list d = Ok devices ->
  exists role, Generator.get_device_role d h = Ok role.
Proof.
  unfold Generator.get_device_list. intros H.
  bind_split H as roles Er. bind_split H as role_lists Ev.
  bind_split H as all_devices Ef.
  destruct roles as [x|l|r]; simpl in Ev; try discriminate.
  injection Ev as <-.
  apply (device_role_total d r h Er).
  intros name v Hv. destruct (dict_lookup_In _ _ _ Hv) as [k' Hk'].
  destruct (foldM_ok_each _ _ _ _ Ef v) as (s1 & s2 & Hs).
  { apply in_map_iff. exists (k', v). auto. }
  unfold set_update in Hs. bind_split Hs as xs Ei.
  eapply py_in_str_iterable; eauto.
Qed.

(** *** Runs *)

Variable path_join : string -> string -> string.
Variable mkdir : string -> option exn.
Variable open_w : string -> option exn.

Let main :=
  Generator.main wording path_join mkdir open_w render_file read_template render_source.

(** The loop over the files of a bulk run ends normally exactly when
    every file can be opened. *)
Lemma save_each_outcome h dir (slot : string -> string) names w :
  if forallb (fun p => no_failure (open_w p))
             (map (fun t => path_join dir (Generator.cfg_filename h t)) names)
  then snd (Generator.save_each path_join open_w h dir
              (map (fun t => (SStr t, slot t)) names) w) = Ok tt
  else exists e, snd (Generator.save_each path_join open_w h dir
                        (map (fun t => (SStr t, slot t)) names) w) = Raise e.
Proof.
  revert w; induction names as [|t names IH]; intros w.
  - reflexivity.
  - cbn [map forallb Generator.save_each fst snd str_scalar].
    unfold Generator.write_file.
    destruct (open_w (path_join dir (Generator.cfg_filename h t))) as [e|].
    + cbn [no_failure andb snd]. eauto.
    + cbn [no_failure andb]. apply IH.
Qed.

(** The exit status of an all-templates run for a listed device is
    decided by the operating system alone: without an output directory
    it is 0, with one it is 0 exactly when the directory can be made and
    every file opened. *)
Lemma main_bulk_exit d devices a w role :
  Generator.get_device_list d = Ok devices ->
  existsb (scalar_eq (SStr (Generator.device a))) devices = true ->
  Generator.list_devices a = false ->
  Generator.list_templates a = false ->
  Generator.all_templates a = true ->
  Generator.get_device_role d (Generator.device a) = Ok role ->
  (snd (main d a w) = 0%Z
   <-> truthy (Generator.output_dir a) = false
       \/ bulk_writes_succeed path_join mkdir open_w (Generator.device a)
            (default EmptyString (Generator.output_dir a)) role = true).
Proof.
  intros Hlist Hmem Hld Hlt Hall Hrole.
  unfold main, Generator.main. rewrite Hld, Hlt, Hlist, Hmem. cbn [negb].
  unfold Generator.generate. rewrite Hall.
  destruct (truthy (Generator.output_dir a)).
  - unfold Generator.save_device_configs, bulk_writes_succeed, bulk_paths.
    fold generate_all_configs. rewrite (generate_all_configs_spec d _ role Hrole).
    destruct (mkdir (default EmptyString (Generator.output_dir a))) as [e|].
    + cbn [no_failure andb snd]. split; [discriminate | intros [H|H]; discriminate H].
    + cbn [no_failure andb].
      pose proof (save_each_outcome (Generator.device a)
                    (default EmptyString (Generator.output_dir a))
                    (config_slot d (Generator.device a))
                    (Generator.definition_templates ++ Generator.fabric_templates role) w)
        as Hloop.
      destruct (forallb _ _).
      * destruct (Generator.save_each _ _ _ _ _ _) as [w' [u|e]];
          cbn [snd] in Hloop |- *; [tauto | discriminate Hloop].
      * destruct Hloop as [e He].
        destruct (Generator.save_each _ _ _ _ _ _) as [w' [u|e']];
          cbn [snd] in He |- *; [discriminate He|].
        split; [discriminate | intros [H|H]; discriminate H].
  - fold generate_all_configs. rewrite (generate_all_configs_spec d _ role Hrole).
    cbn [snd]. tauto.
Qed.

Lemma main_single_failure d devices a w t e :
  Generator.get_device_list d = Ok devices ->
  existsb (scalar_eq (SStr (Generator.device a))) devices = true ->
  Generator.list_devices a = false ->
  Generator.list_templates a = false ->
  Generator.all_templates a = false ->
  Generator.template a = Some t -> t <> EmptyString ->
  generate_config d (Generator.device a) t = Raise e ->
  main d a w
  = (Generator.print ("Error generating configuration: " +:+ str_exn wording e) w, 1%Z).
Proof.
  intros Hlist Hmem Hld Hlt Hall Ht Hne Hfail.
  unfold main, Generator.main. rewrite Hld, Hlt, Hlist, Hmem. cbn [negb].
  unfold Generator.generate. rewrite Hall, Ht.
  destruct t as [|c t']; [contradiction|]. cbn [truthy from_option id].
  unfold generate_config in Hfail. rewrite Hfail. reflexivity.
Qed.

(** C7.  For a device that passes the device check: an all-templates run
    yields one slot per selected template, holding the rendered text when
    [generate_config] succeeds for that template and the inline string
    "Error generating <template>: <error>" when it fails, each slot
    depending on its own template only; no failure of a template changes
    the exit status of the run, which is 0 without an output directory
    and, with one, 0 exactly when the operating system lets the run make
    the directory and open its files; a run for one explicitly requested
    template whose rendering fails exits with status 1 and writes no
    file. *)
Theorem bulk_failures_inline_single_fatal d devices h :
  Generator.get_device_list d = Ok devices ->
  existsb (scalar_eq (SStr h)) devices = true ->
  (exists role configs,
      Generator.get_device_role d h = Ok role
      /\ generate_all_configs d h = Ok configs
      /\ config_names configs
         = Generator.definition_templates ++ Generator.fabric_templates role
      /\ (forall t, In t (config_names configs) ->
            (forall config, generate_config d h t = Ok config ->
                            dict_lookup configs (SStr t) = Some config)
            /\ (forall e, generate_config d h t = Raise e ->
                          dict_lookup configs (SStr t)
                          = Some ("Error generating " +:+ t +:+ ": "
                                  +:+ str_exn wording e)))
      /\ (forall a w,
            Generator.device a = h ->
            Generator.list_devices a = false ->
            Generator.list_templates a = false ->
            Generator.all_templates a = true ->
            (snd (main d a w) = 0%Z
             <-> truthy (Generator.output_dir a) = false
                 \/ bulk_writes_succeed path_join mkdir open_w h
                      (default EmptyString (Generator.output_dir a)) role = true)))
  /\ (forall a w t e,
        Generator.device a = h ->
        Generator.list_devices a = false ->
        Generator.list_templates a = false ->
        Generator.all_templates a = false ->
        Generator.template a = Some t -> t <> EmptyString ->
        generate_config d h t = Raise e ->
        snd (main d a w) = 1%Z
        /\ Generator.files (fst (main d a w)) = Generator.files w).
Proof.
  intros Hlist Hmem. split.
  - destruct (device_list_role_total d devices h Hlist) as [role Hrole].
    exists role. eexists.
    split; [exact Hrole|].
    split; [apply generate_all_configs_spec; exact Hrole|].
    rewrite config_names_slots.
    split; [reflexivity|]. split.
    + intros t Ht. rewrite (config_slot_lookup d h role t Ht).
      unfold config_slot, Generator.config_slot. fold generate_config.
      split; intros r Hr; rewrite Hr; reflexivity.
    + intros a w <- Hld Hlt Hall. eapply main_bulk_exit; eauto.
  - intros a w t e <- Hld Hlt Hall Ht Hne Hfail.
    rewrite (main_single_failure d devices a w t e); auto.
Qed.

(** *** Devices that are only route reflectors or clients *)

Lemma role_lists_names (roles : list (scalar * value)) :
  (forall k v, In (k, v) roles -> exists names, v = VList (map (fun n => VStr n) names)) ->
  exists namess,
    map snd roles = map (fun names => VList (map (fun n => VStr n) names)) namess
    /\ forall k names, In (k, VList (map (fun n => VStr n) names)) roles ->
                       forall n, In n names -> In n (concat namess).
Proof.
  induction roles as [|[k v] roles IH]; intros Hshape.
  - exists []. split; [reflexivity|]. intros k names [].
  - destruct (Hshape k v) as [names ->]; [left; reflexivity|].
    destruct IH as (namess & Hmap & Hmem).
    { intros k' v' Hin. apply (Hshape k' v'). right. exact Hin. }
    exists (names :: namess). split.
    + simpl. rewrite Hmap. reflexivity.
    + intros k' names' [Heq|Hin] n Hn; simpl; apply in_or_app.
      * injection Heq as _ Heq. left.
        assert (Hin' : In (VStr n) (map (fun n => VStr n) names)).
        { rewrite Heq. apply in_map_iff. eauto. }
        apply in_map_iff in Hin' as (n' & [= ->] & Hn'). exact Hn'.
      * right. eapply Hmem; eauto.
Qed.

Lemma role_member_listed (roles : list (scalar * value)) role h :
  (forall k v, In (k, v) roles -> exists names, v = VList (map (fun n => VStr n) names)) ->
  In (VStr h) (role_members roles role) ->
  exists k names, In (k, VList (map (fun n => VStr n) names)) roles /\ In h names.
Proof.
  intros Hshape. unfold role_members.
  destruct (dict_lookup roles (SStr role)) as [v|] eqn:E; [|intros []].
  destruct (dict_lookup_In _ _ _ E) as [k Hk].
  destruct (Hshape k v Hk) as [names ->].
  intros Hin. exists k, names. split; [exact Hk|].
  apply in_map_iff in Hin as (n & [= ->] & Hn). exact Hn.
Qed.

Lemma all_str_map_SStr names : forallb is_str (map SStr names) = true.
Proof. induction names; simpl; auto. Qed.

(** C10.  In a document whose role lists are lists of hostnames, a
    hostname found only in the route_reflector or client list is a member
    of the device list, so the device check of [main] passes; its role
    resolves to unknown; an all-templates run for it yields exactly the
    nine DEFN- configurations and no fabric configuration; and that run
    does not end at the device check: it exits with status 0 unless it
    has an output directory that the operating system does not let it
    make or write into. *)
Theorem control_plane_only_device d roles h :
  getpath d ["devices"; "roles"] = Ok (VDict roles) ->
  (forall k v, In (k, v) roles -> exists names, v = VList (map (fun n => VStr n) names)) ->
  In (VStr h) (role_members roles "route_reflector")
  \/ In (VStr h) (role_members roles "client") ->
  ~ In (VStr h) (role_members roles "spine") ->
  ~ In (VStr h) (role_members roles "border") ->
  ~ In (VStr h) (role_members roles "leaf") ->
  exists devices configs,
    Generator.get_device_list d = Ok devices
    /\ existsb (scalar_eq (SStr h)) devices = true
    /\ Generator.get_device_role d h = Ok "unknown"
    /\ generate_all_configs d h = Ok configs
    /\ config_names configs = nine_definitions
    /\ List.filter is_fabric (config_names configs) = []
    /\ (forall a w,
          Generator.device a = h ->
          Generator.list_devices a = false ->
          Generator.list_templates a = false ->
          Generator.all_templates a = true ->
          (snd (main d a w) = 0%Z
           <-> truthy (Generator.output_dir a) = false
               \/ bulk_writes_succeed path_join mkdir open_w h
                    (default EmptyString (Generator.output_dir a)) "unknown" = true)).
Proof.
  intros Hroles Hshape Hcp Hs Hb Hl.
  destruct (role_lists_names roles Hshape) as (namess & Hmap & Hmem).
  assert (Hlisted : In h (concat namess)).
  { destruct Hcp as [Hcp|Hcp];
      destruct (role_member_listed roles _ h Hshape Hcp) as (k & names & Hin & Hn);
      eapply Hmem; eauto. }
  destruct (py_sorted_strs (add_all [] (map SStr (concat namess)))) as (devices & Hsorted & Hsame).
  { apply add_all_all_str; [reflexivity | apply all_str_map_SStr]. }
  assert (Hlist : Generator.get_device_list d = Ok devices).
  { unfold Generator.get_device_list. rewrite Hroles. cbn [bind py_values].
    rewrite Hmap, set_update_all_strs. cbn [bind]. exact Hsorted. }
  assert (Hdev : existsb (scalar_eq (SStr h)) devices = true).
  { apply existsb_exists. exists (SStr h). split; [|apply scalar_eq_refl].
    apply Hsame. apply set_mem_str. rewrite set_mem_add_all.
    apply orb_true_iff. right. apply existsb_exists. exists (SStr h).
    split; [apply in_map; exact Hlisted | apply scalar_eq_refl]. }
  assert (Hrole : Generator.get_device_role d h = Ok "unknown").
  { rewrite (get_device_role_formula d roles h Hroles).
    - rewrite <- existsb_py_eq_str in Hs, Hb, Hl.
      apply not_true_iff_false in Hs, Hb, Hl. rewrite Hs, Hb, Hl. reflexivity.
    - intros role v _ Hv. destruct (dict_lookup_In _ _ _ Hv) as [k Hk].
      destruct (Hshape k v Hk) as [names ->]. eauto. }
  exists devices. eexists.
  split; [exact Hlist|]. split; [exact Hdev|]. split; [exact Hrole|].
  split; [apply generate_all_configs_spec; exact Hrole|].
  rewrite config_names_slots.
  split; [reflexivity|]. split; [reflexivity|].
  intros a w <- Hld Hlt Hall. eapply main_bulk_exit; eauto.
Qed.

End GeneratorProperties.

(** *** Instances on the sample fabric *)

Lemma fabric_selection_by_role_witness :
  exists configs,
    Generator.generate_all_configs Samples.wording
      Samples.echo_file Samples.no_read Samples.no_source
      Samples.fabric_doc "leaf01" = Ok configs
    /\ List.filter is_fabric (config_names configs)
       = spine_set ++ ["FABRIC-OVERLAY"; "FABRIC-NAC-IOT"]
    /\ ~ In "FABRIC-IPSEC" (config_names configs).
Proof.
  destruct (fabric_selection_by_role
              Samples.wording Samples.echo_file Samples.no_read Samples.no_source
              Samples.fabric_doc "leaf01" "leaf" eq_refl)
    as (configs & Hall & _ & _ & Hleaf & _).
  exists configs. split; [exact Hall|]. apply Hleaf. reflexivity.
Defined.

Lemma nine_definition_templates_witness :
  exists configs,
    Generator.generate_all_configs Samples.wording
      Samples.echo_file Samples.no_read Samples.no_source
      Samples.fabric_doc "spine01" = Ok configs
    /\ List.filter is_definition (config_names configs) = nine_definitions.
Proof.
  destruct (nine_definition_templates
              Samples.wording Samples.echo_file Samples.no_read Samples.no_source
              Samples.fabric_doc "spine01" "spine" eq_refl (or_introl eq_refl))
    as (configs & Hall & Hnine & _).
  exists configs. split; [exact Hall | exact Hnine].
Defined.

(** C3, as the specification words it, fails: the spine of the sample
    fabric gets nine definition templates, not seventeen. *)
Lemma seventeen_definition_templates_refuted :
  ~ (forall wording render_file read_template render_source d h role configs,
        Generator.get_device_role d h = Ok role ->
        In role ["spine"; "leaf"; "border"] ->
        Generator.generate_all_configs wording render_file read_template render_source d h
        = Ok configs ->
        length (List.filter is_definition (config_names configs)) = 17).
Proof.
  intros H.
  specialize (H Samples.wording Samples.echo_file Samples.no_read Samples.no_source
                Samples.fabric_doc "spine01" "spine" _ eq_refl (or_introl eq_refl) eq_refl).
  vm_compute in H. discriminate H.
Qed.

Lemma bulk_failures_inline_single_fatal_witness :
  (exists configs,
      Generator.generate_all_configs Samples.wording
        (Samples.failing_on "DEFN-VRF.j2") Samples.no_read Samples.no_source
        Samples.fabric_doc "leaf01" = Ok configs
      /\ dict_lookup configs (SStr "DEFN-VRF")
         = Some "Error generating DEFN-VRF: Error rendering template DEFN-VRF: undefined variable"
      /\ dict_lookup configs (SStr "DEFN-ROLES") = Some "rendered DEFN-ROLES.j2")
  /\ snd (Generator.main Samples.wording Samples.under Samples.permitted Samples.permitted
            (Samples.failing_on "DEFN-VRF.j2") Samples.no_read Samples.no_source
            Samples.fabric_doc
            {| Generator.device := "leaf01"; Generator.template := Some "DEFN-VRF";
               Generator.all_templates := false; Generator.output_dir := Some "out";
               Generator.list_devices := false; Generator.list_templates := false |}
            Samples.empty_world) = 1%Z
  /\ snd (Generator.main Samples.wording Samples.under Samples.permitted Samples.permitted
            (Samples.failing_on "DEFN-VRF.j2") Samples.no_read Samples.no_source
            Samples.fabric_doc
            {| Generator.device := "leaf01"; Generator.template := None;
               Generator.all_templates := true; Generator.output_dir := Some "out";
               Generator.list_devices := false; Generator.list_templates := false |}
            Samples.empty_world) = 0%Z.
Proof.
  destruct (bulk_failures_inline_single_fatal
              Samples.wording (Samples.failing_on "DEFN-VRF.j2")
              Samples.no_read Samples.no_source
              Samples.under Samples.permitted Samples.permitted Samples.fabric_doc
              [SStr "border01"; SStr "leaf01"; SStr "rr01"; SStr "spine01"] "leaf01"
              eq_refl eq_refl)
    as [(role & configs & Hrole & Hall & Hnames & Hslots & Hexit) Hsingle].
  split; [|split].
  - exists configs. split; [exact Hall|]. split.
    + destruct (Hslots "DEFN-VRF") as [_ Herr].
      { rewrite Hnames. apply in_or_app. left. simpl. auto. }
      apply (Herr (RuntimeError "Error rendering template DEFN-VRF: undefined variable")).
      reflexivity.
    + destruct (Hslots "DEFN-ROLES") as [Hok _].
      { rewrite Hnames. apply in_or_app. left. simpl. auto. }
      apply Hok. reflexivity.
  - eapply Hsingle; try reflexivity. discriminate.
  - apply Hexit; try reflexivity. right.
    vm_compute in Hrole. injection Hrole as <-. vm_compute. reflexivity.
Defined.

Lemma control_plane_only_device_witness :
  exists devices configs,
    Generator.get_device_list Samples.fabric_doc = Ok devices
    /\ existsb (scalar_eq (SStr "rr01")) devices = true
    /\ Generator.get_device_role Samples.fabric_doc "rr01" = Ok "unknown"
    /\ Generator.generate_all_configs Samples.wording
         Samples.echo_file Samples.no_read Samples.no_source
         Samples.fabric_doc "rr01" = Ok configs
    /\ config_names configs = nine_definitions
    /\ snd (Generator.main Samples.wording Samples.under Samples.permitted Samples.permitted
              Samples.echo_file Samples.no_read Samples.no_source Samples.fabric_doc
              {| Generator.device := "rr01"; Generator.template := None;
                 Generator.all_templates := true; Generator.output_dir := Some "out";
                 Generator.list_devices := false; Generator.list_templates := false |}
              Samples.empty_world) = 0%Z.
Proof.
  destruct (control_plane_only_device
              Samples.wording Samples.echo_file Samples.no_read Samples.no_source
              Samples.under Samples.permitted Samples.permitted
              Samples.fabric_doc Samples.role_entries "rr01")
    as (devices & configs & Hlist & Hdev & Hrole & Hall & Hnames & _ & Hexit).
  - reflexivity.
  - intros k v Hin. simpl in Hin.
    repeat (destruct Hin as [Hin|Hin]; [injection Hin as <- <-; eexists; reflexivity|]).
    destruct Hin.
  - left. simpl. auto.
  - simpl. intuition discriminate.
  - simpl. intuition discriminate.
  - simpl. intuition discriminate.
  - exists devices, configs.
    split; [exact Hlist|]. split; [exact Hdev|]. split; [exact Hrole|].
    split; [exact Hall|]. split; [exact Hnames|].
    apply Hexit; try reflexivity. right. vm_compute. reflexivity.
Defined.

(** ** The names the mapper defines *)

Lemma dict_lookup_absent {V} (d : list (scalar * V)) k :
  forallb (fun k' => negb (scalar_eq k' k)) (map fst d) = true ->
  dict_lookup d k = None.
Proof.
  induction d as [|[k' v] d IH]; simpl; auto.
  intros H. apply andb_prop in H as [Hk Hd].
  apply negb_true_iff in Hk. rewrite Hk. auto.
Qed.

Lemma fabric_template_vars_names d tv :
  Converter.fabric_template_vars d = Ok tv ->
  map fst tv = map SStr global_names
  /\ exists defs mapping,
       dict_lookup tv (SStr "DEFN_VRF") = Some defs
       /\ dict_lookup tv (SStr "DEFN_VRF_TO_NODE") = Some mapping
       /\ getpath d ["vrfs"; "definitions"] = Ok defs
       /\ getpath d ["vrfs"; "device_mappings"] = Ok mapping.
Proof.
  unfold Converter.fabric_template_vars. intros H.
  repeat bind_inv H. injection H as <-.
  split; [reflexivity|].
  eexists _, _. split; [reflexivity|]. split; [reflexivity|].
  split; assumption.
Qed.

Lemma device_context_other tv0 h tv k :
  Converter.device_context tv0 h = Ok tv ->
  scalar_eq (SStr "__device") k = false ->
  scalar_eq (SStr "vrf_list") k = false ->
  dict_lookup tv k = dict_lookup tv0 k.
Proof.
  unfold Converter.device_context. intros H Hd Hv.
  destruct h as [hostname|]; [|injection H as <-; reflexivity].
  destruct (truthy (Some hostname)); [|injection H as <-; reflexivity].
  bind_split H as mapping Em. bind_split H as mapped Ei.
  destruct mapped.
  - bind_split H as ids Eids. bind_split H as defs Ed. bind_split H as names En.
    injection H as <-. rewrite !dict_lookup_set_other by assumption. reflexivity.
  - injection H as <-. rewrite dict_lookup_set_other by assumption. reflexivity.
Qed.

(** A name outside the mapper's fixed vocabulary is not in the variable set. *)
Lemma template_vars_undefined d h tv name :
  Converter.convert_to_template_vars d h = Ok tv ->
  existsb (String.eqb name) ("__device" :: "vrf_list" :: global_names) = false ->
  dict_lookup tv (SStr name) = None.
Proof.
  unfold Converter.convert_to_template_vars. intros H Hname.
  bind_split H as tv0 E0.
  destruct (fabric_template_vars_names d tv0 E0) as [Hkeys _].
  cbn [existsb] in Hname.
  apply orb_false_iff in Hname as [Hdev Hname].
  apply orb_false_iff in Hname as [Hvl Hname].
  rewrite (device_context_other tv0 h tv (SStr name) H).
  - apply dict_lookup_absent. rewrite Hkeys.
    clear -Hname. induction global_names as [|g gs IH]; [reflexivity|].
    cbn [existsb] in Hname. apply orb_false_iff in Hname as [Hg Hgs].
    cbn [map forallb scalar_eq]. rewrite String.eqb_sym, Hg. cbn [negb andb]. auto.
  - cbn [scalar_eq]. rewrite String.eqb_sym. exact Hdev.
  - cbn [scalar_eq]. rewrite String.eqb_sym. exact Hvl.
Qed.

(** ** The wrapper template *)

(** With [template_file] in the render context the wrapper would reach
    the macro call of the matching branch. *)
Example wrapper_reaches_macro_when_bound :
  Generator.reached_calls [(SStr "template_file", VStr "FABRIC-VRF.j2")]
    (Generator.wrapper_template "body" "leaf01")
  = [("vrfDefinitionBuild",
      [Generator.JName "DEFN_VRF"; Generator.JName "DEFN_VRF_TO_NODE";
       Generator.JString "leaf01"; Generator.JName "DEFN_LOOP_UNDERLAY";
       Generator.JName "FABRIC_BGP_ASN"])].
Proof. reflexivity. Qed.

Lemma guard_undefined context b name text :
  Generator.guard_lhs b = Generator.JName name ->
  Generator.guard_rhs b = Generator.JString text ->
  dict_lookup context (SStr name) = None ->
  Generator.guard_holds context b = false.
Proof.
  intros Hl Hr Hundef. unfold Generator.guard_holds.
  rewrite Hl, Hr. cbn [Generator.jeval]. rewrite Hundef. reflexivity.
Qed.

(** C2, as the code has it.  The wrapper is rendered with the mapper's
    variable set as its context.  [template_file] is a local of the
    Python method, not one of those variables, so unless the spliced
    template body binds that name itself, neither guard of the wrapper
    holds and no macro call is reached, for FABRIC-VRF and FABRIC-OVERLAY
    as for every other fabric template. *)
Theorem wrapper_reaches_no_macro d h template_vars template_content body_bindings :
  Converter.generate_device_specific_vars d h = Ok template_vars ->
  dict_lookup body_bindings (SStr "template_file") = None ->
  Generator.reached_calls (body_bindings ++ template_vars)
    (Generator.wrapper_template template_content h) = [].
Proof.
  intros Hvars Hbody.
  assert (Hundef : dict_lookup (body_bindings ++ template_vars) (SStr "template_file") = None).
  { rewrite dict_lookup_app, Hbody.
    apply (template_vars_undefined d (Some h) template_vars "template_file" Hvars).
    reflexivity. }
  unfold Generator.reached_calls, Generator.wrapper_template.
  cbn [flat_map Generator.reached_call app find].
  rewrite (guard_undefined _ _ "template_file" "FABRIC-VRF.j2") by (reflexivity || exact Hundef).
  rewrite (guard_undefined _ _ "template_file" "FABRIC-OVERLAY.j2") by (reflexivity || exact Hundef).
  reflexivity.
Qed.

Lemma wrapper_reaches_no_macro_witness :
  exists template_vars,
    Converter.generate_device_specific_vars Samples.fabric_doc "leaf01" = Ok template_vars
    /\ Generator.reached_calls template_vars
         (Generator.wrapper_template "! FABRIC-VRF body" "leaf01") = [].
Proof.
  eexists. split; [reflexivity|].
  apply (wrapper_reaches_no_macro Samples.fabric_doc "leaf01" _ "! FABRIC-VRF body" []);
    reflexivity.
Defined.

(** ** The two write paths *)


Lemma prefix_append_common a b c :
  String.prefix (a +:+ b) (a +:+ c) = String.prefix b c.
Proof.
  induction a as [|x a IH]; simpl; [reflexivity|].
  destruct (ascii_dec x x); [exact IH | contradiction].
Qed.



(** The single-template path never does. *)
Lemma single_file_lacks_header h t config :
  String.prefix (four_line_header h t) (Generator.single_file_text h t config) = false.
Proof.
  unfold Generator.single_file_text, four_line_header.
  rewrite (prefix_append_common "! Configuration generated from ").
  rewrite (prefix_append_common t).
  rewrite (prefix_append_common " template").
  rewrite (prefix_append_common nl).
  rewrite (prefix_append_common "! Device: ").
  rewrite (prefix_append_common h).
  rewrite (prefix_append_common nl).
  reflexivity.
Qed.

(** A file that can be opened replaces whatever the path held. *)
Lemma write_file_opened open_w path text w :
  open_w path = None ->
  Generator.write_file open_w path text w
  = ({| Generator.files := <[path := text]> (Generator.files w);
        Generator.stdout := Generator.stdout w |}, Ok tt).
Proof. intros H. unfold Generator.write_file. rewrite H. reflexivity. Qed.

(** The file of the single-template path is named as the files of the
    bulk path are and also replaces what the path held, but holds the
    three-line header. *)
Lemma main_single_writes wording path_join mkdir open_w
    render_file read_template render_source d devices a w t dir config :
  Generator.get_device_list d = Ok devices ->
  existsb (scalar_eq (SStr (Generator.device a))) devices = true ->
  Generator.list_devices a = false ->
  Generator.list_templates a = false ->
  Generator.all_templates a = false ->
  Generator.template a = Some t -> t <> EmptyString ->
  Generator.output_dir a = Some dir -> dir <> EmptyString ->
  Generator.generate_config wording render_file read_template render_source d
    (Generator.device a) t = Ok config ->
  mkdir dir = None ->
  open_w (path_join dir (Generator.cfg_filename (Generator.device a) t)) = None ->
  Generator.files
    (fst (Generator.main wording path_join mkdir open_w
            render_file read_template render_source d a w))
    !! path_join dir (Generator.cfg_filename (Generator.device a) t)
  = Some (Generator.single_file_text (Generator.device a) t config).
Proof.
  intros Hlist Hmem Hld Hlt Hall Ht Hne Hdir Hdne Hconfig Hmk Hopen.
  unfold Generator.main. rewrite Hld, Hlt, Hlist, Hmem. cbn [negb].
  unfold Generator.generate. rewrite Hall, Ht, Hdir.
  destruct t as [|c t']; [contradiction|].
  destruct dir as [|c' dir']; [contradiction|].
  cbn [truthy from_option id]. rewrite Hconfig. cbn [truthy].
  unfold Generator.save_single_config. rewrite Hmk.
  rewrite (write_file_opened _ _ _ _ Hopen). cbn [fst].
  cbn [Generator.print Generator.files].
  apply lookup_insert_eq.
Qed.

(** C9 at a single-template run: [--device leaf01 --template DEFN-VRF
    --output-dir out] on the sample fabric, the directory being writable.  The file is named
    [leaf01_DEFN-VRF.cfg] and replaces an existing file of that name, but
    its header has three lines and no generator line, so the file does not
    begin with the four-line header of the bulk path. *)
Theorem single_template_file_header :
  let a := {| Generator.device := "leaf01"; Generator.template := Some "DEFN-VRF";
              Generator.all_templates := false; Generator.output_dir := Some "out";
              Generator.list_devices := false; Generator.list_templates := false |} in
  let before := {| Generator.files := {["out/leaf01_DEFN-VRF.cfg" := "old text"]};
                   Generator.stdout := [] |} in
  let run := Generator.main Samples.wording Samples.under Samples.permitted Samples.permitted
               Samples.echo_file Samples.no_read Samples.no_source
               Samples.fabric_doc a before in
  snd run = 0%Z
  /\ Generator.files (fst run) !! "out/leaf01_DEFN-VRF.cfg"
     = Some ("! Configuration generated from DEFN-VRF template" +:+ nl
             +:+ "! Device: leaf01" +:+ nl
             +:+ "!" +:+ nl
             +:+ "rendered DEFN-VRF.j2")
  /\ forall text,
       Generator.files (fst run) !! "out/leaf01_DEFN-VRF.cfg" = Some text ->
       String.prefix (four_line_header "leaf01" "DEFN-VRF") text = false.
Proof.
  cbv zeta.
  assert (Hfile :
    Generator.files
      (fst (Generator.main Samples.wording Samples.under Samples.permitted Samples.permitted
               Samples.echo_file Samples.no_read Samples.no_source
              Samples.fabric_doc
              {| Generator.device := "leaf01"; Generator.template := Some "DEFN-VRF";
                 Generator.all_templates := false; Generator.output_dir := Some "out";
                 Generator.list_devices := false; Generator.list_templates := false |}
              {| Generator.files := {["out/leaf01_DEFN-VRF.cfg" := "old text"]};
                 Generator.stdout := [] |}))
      !! "out/leaf01_DEFN-VRF.cfg"
    = Some (Generator.single_file_text "leaf01" "DEFN-VRF" "rendered DEFN-VRF.j2")).
  { vm_compute. reflexivity. }
  split; [vm_compute; reflexivity|].
  split; [rewrite Hfile; reflexivity|].
  intros text Htext. rewrite Hfile in Htext. injection Htext as <-.
  apply single_file_lacks_header.
Qed.

(** ** The device's VRF list *)

Lemma vrf_names_fold defs ids acc :
  (forall def, In def defs ->
     exists id name, getitem def "id" = Ok id /\ getitem def "name" = Ok name) ->
  foldM (fun acc vrf_def =>
           let* id := getitem vrf_def "id" in
           let* hit := py_in id (VList ids) in
           if hit
           then let* name := getitem vrf_def "name" in Ok (acc ++ [name])
           else Ok acc) acc defs
  = Ok (acc ++ map (fun def => field def "name")
                   (List.filter (fun def => existsb (py_eq (field def "id")) ids) defs)).
Proof.
  revert acc; induction defs as [|def defs IH]; intros acc Hdefs.
  - simpl. rewrite app_nil_r. reflexivity.
  - destruct (Hdefs def) as (id & name & Hid & Hname); [left; reflexivity|].
    assert (Hfid : field def "id" = id) by (unfold field; rewrite Hid; reflexivity).
    assert (Hfname : field def "name" = name) by (unfold field; rewrite Hname; reflexivity).
    cbn [foldM List.filter]. rewrite Hid, Hfid. cbn [bind py_in].
    destruct (existsb (py_eq id) ids) eqn:Hhit.
    + rewrite Hname. cbn [bind map].
      rewrite IH by (intros; apply Hdefs; right; assumption).
      rewrite Hfname, <- app_assoc. reflexivity.
    + cbn [bind]. rewrite IH by (intros; apply Hdefs; right; assumption). reflexivity.
Qed.

Lemma convert_without_device d :
  Converter.convert_to_template_vars d None = Converter.fabric_template_vars d.
Proof.
  unfold Converter.convert_to_template_vars.
  destruct (Converter.fabric_template_vars d); reflexivity.
Qed.

(** C6.  On a document whose device-independent mapping succeeds and
    whose VRF definitions each carry an id and a name: for a hostname that
    is a key of the device-to-VRF mapping, with id list [ids], the mapper
    succeeds and [vrf_list] holds, in definition order, the name of every
    definition whose id is in [ids], and nothing else; an id in [ids]
    that no definition carries contributes no entry and raises no error. *)
Theorem vrf_list_skips_undefined_ids d h tv0 defs mapping ids :
  h <> EmptyString ->
  Converter.convert_to_template_vars d None = Ok tv0 ->
  getpath d ["vrfs"; "definitions"] = Ok (VList defs) ->
  getpath d ["vrfs"; "device_mappings"] = Ok (VDict mapping) ->
  dict_lookup mapping (SStr h) = Some (VList ids) ->
  (forall def, In def defs ->
     exists id name, getitem def "id" = Ok id /\ getitem def "name" = Ok name) ->
  exists tv vrf_list,
    Converter.convert_to_template_vars d (Some h) = Ok tv
    /\ dict_lookup tv (SStr "vrf_list") = Some (VList vrf_list)
    /\ vrf_list = map (fun def => field def "name")
                      (List.filter (fun def => existsb (py_eq (field def "id")) ids) defs)
    /\ (forall def, In def defs ->
          existsb (py_eq (field def "id")) ids = true ->
          In (field def "name") vrf_list)
    /\ length vrf_list <= length defs.
Proof.
  intros Hh Hglobal Hdefs Hmapping Hids Hrecords.
  rewrite convert_without_device in Hglobal.
  destruct (fabric_template_vars_names d tv0 Hglobal)
    as (_ & defs' & mapping' & Hld & Hlm & Hgd & Hgm).
  rewrite Hdefs in Hgd. injection Hgd as <-.
  rewrite Hmapping in Hgm. injection Hgm as <-.
  eexists _, _. split.
  - unfold Converter.convert_to_template_vars. rewrite Hglobal. cbn [bind].
    unfold Converter.device_context.
    destruct h as [|c h']; [contradiction|]. cbn [truthy].
    unfold getitem at 1. rewrite dict_lookup_set_other by reflexivity.
    rewrite Hlm. cbn [bind py_in]. unfold dict_mem. rewrite Hids.
    unfold getitem at 1. rewrite Hids. cbn [bind].
    unfold getitem at 1. rewrite dict_lookup_set_other by reflexivity.
    rewrite Hld. cbn [bind].
    unfold Converter.vrf_names. cbn [py_iter bind].
    rewrite (vrf_names_fold defs ids [] Hrecords). cbn [bind app]. reflexivity.
  - split; [apply dict_lookup_set_same|]. split; [reflexivity|]. split.
    + intros def Hin Hhit.
      apply (in_map (fun def => field def "name")). apply filter_In. auto.
    + rewrite length_map. apply filter_length_le.
Qed.

Lemma vrf_list_skips_undefined_ids_witness :
  exists tv,
    Converter.convert_to_template_vars Samples.fabric_doc (Some "leaf01") = Ok tv
    /\ dict_lookup tv (SStr "vrf_list") = Some (VList [VStr "VRF_10"]).
Proof.
  destruct (vrf_list_skips_undefined_ids Samples.fabric_doc "leaf01"
              (match Converter.convert_to_template_vars Samples.fabric_doc None with
               | Ok tv0 => tv0
               | Raise _ => []
               end)
              [record [("id", VInt 10); ("name", VStr "VRF_10")]]
              [(SStr "leaf01", VList [VInt 10; VInt 99])]
              [VInt 10; VInt 99])
    as (tv & vrf_list & Hconv & Hlookup & Hlist & _).
  - discriminate.
  - reflexivity.
  - reflexivity.
  - reflexivity.
  - reflexivity.
  - intros def [<-|[]]. eexists _, _. split; reflexivity.
  - exists tv. split; [exact Hconv|]. rewrite Hlookup, Hlist. reflexivity.
Defined.

(** ** The validator *)

Lemma set_update_scalars s xs :
  set_update s (VList (map VScalar xs)) = Ok (add_all s xs).
Proof. unfold set_update. simpl. apply hash_all_scalars. Qed.

Lemma set_update_all_scalars xss s :
  foldM set_update s (map (fun xs => VList (map VScalar xs)) xss)
  = Ok (add_all s (concat xss)).
Proof.
  revert s; induction xss as [|xs xss IH]; intros s; simpl; auto.
  rewrite set_update_scalars. simpl. rewrite IH, add_all_app. reflexivity.
Qed.

(** Entries whose values are all lists of hashable values. *)
Lemma scalar_lists_shape (entries : list (scalar * value)) :
  (forall k v, In (k, v) entries -> exists xs, v = VList (map VScalar xs)) ->
  exists xss,
    entries = combine (map fst entries) (map (fun xs => VList (map VScalar xs)) xss)
    /\ map snd entries = map (fun xs => VList (map VScalar xs)) xss
    /\ forall k xs, In (k, VList (map VScalar xs)) entries ->
                    forall x, In x xs -> In x (concat xss).
Proof.
  induction entries as [|[k v] entries IH]; intros Hshape.
  - exists []. repeat split. intros k xs [].
  - destruct (Hshape k v) as [xs ->]; [left; reflexivity|].
    destruct IH as (xss & Hcomb & Hmap & Hmem).
    { intros k' v' Hin. apply (Hshape k' v'). right. exact Hin. }
    exists (xs :: xss). split; [|split].
    + simpl. rewrite <- Hcomb. reflexivity.
    + simpl. rewrite Hmap. reflexivity.
    + intros k' xs' [Heq|Hin] x Hx; simpl; apply in_or_app.
      * injection Heq as _ Heq. left.
        assert (Hin' : In (VScalar x) (map VScalar xs)).
        { rewrite Heq. apply in_map. exact Hx. }
        apply in_map_iff in Hin' as (x' & [= ->] & Hx'). exact Hx'.
      * right. eapply Hmem; eauto.
Qed.

Lemma dict_mem_keys {V} (d : list (scalar * V)) k :
  dict_mem d k = set_mem (map fst d) k.
Proof.
  unfold dict_mem, set_mem. induction d as [|[k' v] d IH]; simpl; auto.
  rewrite (scalar_eq_sym k k'). destruct (scalar_eq k' k); auto.
Qed.

Lemma nth_error_two {A} (l : list A) i j a b :
  i < j -> nth_error l i = Some a -> nth_error l j = Some b ->
  exists l1 l2 l3, l = l1 ++ a :: l2 ++ b :: l3.
Proof.
  intros Hij Hi Hj.
  destruct (nth_error_split l i Hi) as (l1 & r & -> & Hlen).
  rewrite nth_error_app2 in Hj by lia.
  destruct (j - length l1) as [|n] eqn:En; [lia|]. simpl in Hj.
  destruct (nth_error_split r n Hj) as (l2 & l3 & -> & _).
  exists l1, l2, l3. reflexivity.
Qed.

Lemma duplicate_shrinks_set ks i j a b :
  i <> j -> nth_error ks i = Some a -> nth_error ks j = Some b ->
  scalar_eq a b = true ->
  length (add_all [] ks) < length ks.
Proof.
  intros Hne Hi Hj Hab.
  destruct (Nat.lt_ge_cases i j) as [Hlt|Hge].
  - destruct (nth_error_two ks i j a b Hlt Hi Hj) as (l1 & l2 & l3 & ->).
    apply (add_all_duplicate l1 a l2 b l3 [] Hab).
  - assert (Hlt : j < i) by lia.
    destruct (nth_error_two ks j i b a Hlt Hj Hi) as (l1 & l2 & l3 & ->).
    rewrite scalar_eq_sym in Hab.
    apply (add_all_duplicate l1 b l2 a l3 [] Hab).
Qed.

Lemma scalar_ids defs :
  (forall def, In def defs -> exists id : scalar, getitem def "id" = Ok (VScalar id)) ->
  exists ks,
    map (fun def => field def "id") defs = map VScalar ks
    /\ mapM (fun vrf => getitem vrf "id") defs = Ok (map VScalar ks).
Proof.
  induction defs as [|def defs IH]; intros Hids.
  - exists []. split; reflexivity.
  - destruct (Hids def) as [k Hk]; [left; reflexivity|].
    destruct IH as (ks & Hmap & HmapM); [intros; apply Hids; right; assumption|].
    exists (k :: ks). simpl. unfold field at 1. rewrite Hk, Hmap. cbn [bind].
    rewrite HmapM. split; reflexivity.
Qed.

Lemma required_fields_total d paths acc :
  exists errors,
    foldM (fun errors field_path =>
             let* present := Converter._check_field_exists d field_path in
             if negb present
             then Ok (errors ++ [[Lit "Required field missing: "; Fmt field_path]])
             else Ok errors) acc (map (fun p => VStr p) paths)
    = Ok errors.
Proof.
  revert acc; induction paths as [|p paths IH]; intros acc; simpl; [eauto|].
  destruct (negb (Converter.walk_path d (split_dot p))); apply IH.
Qed.

Lemma device_mappings_total valid xss keys acc :
  length keys = length xss ->
  exists errors,
    foldM (fun errors kv =>
             let* mapped := py_set (snd kv) in
             let invalid_vrfs := set_diff mapped valid in
             match invalid_vrfs with
             | _ :: _ =>
                 Ok (errors ++ [[Lit "Device "; Fmt (VScalar (fst kv));
                                 Lit " references invalid VRF IDs: "; FmtSet invalid_vrfs]])
             | [] => Ok errors
             end) acc (combine keys (map (fun xs => VList (map VScalar xs)) xss))
    = Ok errors.
Proof.
  revert keys acc; induction xss as [|xs xss IH]; intros [|k keys] acc Hlen;
    simpl in Hlen; try discriminate; simpl; [eauto|].
  unfold py_set. rewrite set_update_scalars. cbn [bind].
  destruct (set_diff (add_all [] xs) valid); apply IH; lia.
Qed.

(** C8.  On a document the validator can read (the fields it
    dereferences are present and of the expected kind), the validator
    returns the concatenation of what its four checks report, each check
    computed on its own whatever the others found; if two VRF definitions
    carry equal ids the message "VRF IDs must be unique" is in the result;
    and if a hostname is in some role list but is not a key of the
    underlay-loopback mapping, the result contains the message "Devices
    missing underlay loopbacks: <set>" whose set has that hostname. *)
Theorem validator_reports_every_violation
    d paths defs roles underlay mappings :
  Converter.required_fields d = Ok (map (fun p => VStr p) paths) ->
  getpath d ["vrfs"; "definitions"] = Ok (VList defs) ->
  (forall def, In def defs -> exists id : scalar, getitem def "id" = Ok (VScalar id)) ->
  getpath d ["devices"; "roles"] = Ok (VDict roles) ->
  (forall k v, In (k, v) roles -> exists members, v = VList (map VScalar members)) ->
  getpath d ["devices"; "loopbacks"; "underlay"] = Ok (VDict underlay) ->
  getpath d ["vrfs"; "device_mappings"] = Ok (VDict mappings) ->
  (forall k v, In (k, v) mappings -> exists ids, v = VList (map VScalar ids)) ->
  exists errors1 errors2 errors3 errors4,
    Converter.validate_data_model d = Ok (errors1 ++ errors2 ++ errors3 ++ errors4)
    /\ Converter.check_required_fields d = Ok errors1
    /\ Converter.check_vrf_ids_unique (map (fun def => field def "id") defs) = Ok errors2
    /\ Converter.check_underlay_loopbacks d = Ok errors3
    /\ Converter.check_device_mappings d (map (fun def => field def "id") defs)
       = Ok errors4
    /\ ((exists i j a b,
            i <> j /\ nth_error defs i = Some a /\ nth_error defs j = Some b
            /\ py_eq (field a "id") (field b "id") = true) ->
        In [Lit "VRF IDs must be unique"] (errors1 ++ errors2 ++ errors3 ++ errors4))
    /\ (forall k members h,
          In (k, VList members) roles -> In (VStr h) members ->
          dict_lookup underlay (SStr h) = None ->
          exists missing,
            In (SStr h) missing
            /\ In [Lit "Devices missing underlay loopbacks: "; FmtSet missing]
                  (errors1 ++ errors2 ++ errors3 ++ errors4)).
Proof.
  intros Hreq Hdefs Hids Hroles Hrole_lists Hunderlay Hmappings Hmapped.
  destruct (scalar_ids defs Hids) as (ks & Hfields & HmapM).
  destruct (scalar_lists_shape roles Hrole_lists) as (memberss & _ & Hrmap & Hrmem).
  destruct (scalar_lists_shape mappings Hmapped) as (idss & Hmcomb & Hmmap & _).
  (* check 1 *)
  destruct (required_fields_total d paths []) as [errors1 H1].
  assert (Hc1 : Converter.check_required_fields d = Ok errors1).
  { unfold Converter.check_required_fields. rewrite Hreq. exact H1. }
  (* the id list *)
  assert (Hidl : Converter.vrf_id_list d = Ok (map VScalar ks)).
  { unfold Converter.vrf_id_list. rewrite Hdefs. cbn [bind py_iter]. exact HmapM. }
  (* check 2 *)
  set (errors2 := if negb (Nat.eqb (length (map VScalar ks)) (length (add_all [] ks)))
                  then [[Lit "VRF IDs must be unique"]] else @nil message).
  assert (Hc2 : Converter.check_vrf_ids_unique (map VScalar ks) = Ok errors2).
  { unfold Converter.check_vrf_ids_unique, set_of_list.
    rewrite hash_all_scalars. cbn [bind]. unfold errors2.
    destruct (negb (Nat.eqb (length (map VScalar ks)) (length (add_all [] ks))));
      reflexivity. }
  (* check 3 *)
  set (all_devices := add_all [] (concat memberss)).
  set (underlay_devices := add_all [] (map fst underlay)).
  set (missing := set_diff all_devices underlay_devices).
  set (errors3 := match missing with
                  | _ :: _ => [[Lit "Devices missing underlay loopbacks: "; FmtSet missing]]
                  | [] => @nil message
                  end).
  assert (Hc3 : Converter.check_underlay_loopbacks d = Ok errors3).
  { unfold Converter.check_underlay_loopbacks. rewrite Hroles. cbn [bind py_values].
    rewrite Hrmap, set_update_all_scalars. cbn [bind]. rewrite Hunderlay.
    cbn [bind py_keys]. unfold set_of_list.
    rewrite <- (map_map fst VScalar), hash_all_scalars. cbn [bind].
    fold all_devices underlay_devices missing. unfold errors3.
    destruct missing; reflexivity. }
  (* check 4 *)
  destruct (device_mappings_total (add_all [] ks) idss (map fst mappings) [])
    as [errors4 H4].
  { rewrite length_map, <- (length_map snd mappings), Hmmap, length_map. reflexivity. }
  assert (Hc4 : Converter.check_device_mappings d (map VScalar ks) = Ok errors4).
  { unfold Converter.check_device_mappings, set_of_list.
    rewrite hash_all_scalars. cbn [bind]. rewrite Hmappings. cbn [bind py_items].
    rewrite Hmcomb. exact H4. }
  exists errors1, errors2, errors3, errors4.
  rewrite Hfields.
  split.
  { unfold Converter.validate_data_model.
    rewrite Hc1. cbn [bind]. rewrite Hidl. cbn [bind].
    rewrite Hc2. cbn [bind]. rewrite Hc3. cbn [bind]. rewrite Hc4. reflexivity. }
  split; [exact Hc1|]. split; [exact Hc2|]. split; [exact Hc3|]. split; [exact Hc4|].
  split.
  - intros (i & j & a & b & Hne & Hi & Hj & Heq).
    apply in_or_app. right. apply in_or_app. left.
    assert (Hka : exists ka, nth_error ks i = Some ka /\ field a "id" = VScalar ka).
    { apply (map_nth_error (fun def => field def "id")) in Hi.
      rewrite Hfields, nth_error_map in Hi.
      destruct (nth_error ks i) as [ka|]; [|discriminate].
      injection Hi as Hi. eauto. }
    assert (Hkb : exists kb, nth_error ks j = Some kb /\ field b "id" = VScalar kb).
    { apply (map_nth_error (fun def => field def "id")) in Hj.
      rewrite Hfields, nth_error_map in Hj.
      destruct (nth_error ks j) as [kb|]; [|discriminate].
      injection Hj as Hj. eauto. }
    destruct Hka as (ka & Hka & Hfa). destruct Hkb as (kb & Hkb & Hfb).
    rewrite Hfa, Hfb in Heq. cbn [py_eq] in Heq.
    pose proof (duplicate_shrinks_set ks i j ka kb Hne Hka Hkb Heq) as Hlt.
    unfold errors2. rewrite length_map.
    destruct (Nat.eqb_spec (length ks) (length (add_all [] ks))) as [Hlen|_]; [lia|].
    left. reflexivity.
  - intros k members h Hin Hh Habsent.
    assert (Hmiss : In (SStr h) missing).
    { unfold missing, set_diff. apply filter_In. split.
      - apply set_mem_str. unfold all_devices. rewrite set_mem_add_all.
        apply orb_true_iff. right. apply existsb_exists. exists (SStr h).
        split; [|apply scalar_eq_refl].
        destruct (Hrole_lists k _ Hin) as [ms Hms]. injection Hms as ->.
        apply (Hrmem k ms Hin).
        apply in_map_iff in Hh as (x & [= <-] & Hx). exact Hx.
      - apply negb_true_iff. unfold underlay_devices.
        rewrite set_mem_add_all. cbn [set_mem existsb orb].
        fold (set_mem (map fst underlay) (SStr h)). rewrite <- dict_mem_keys.
        unfold dict_mem. rewrite Habsent. reflexivity. }
    exists missing. split; [exact Hmiss|].
    apply in_or_app. right. apply in_or_app. right. apply in_or_app. left.
    unfold errors3. destruct missing; [destruct Hmiss|]. left. reflexivity.
Qed.

Lemma validator_reports_every_violation_witness :
  exists errors,
    Converter.validate_data_model Samples.faulty_doc = Ok errors
    /\ In [Lit "VRF IDs must be unique"] errors
    /\ exists missing,
         In (SStr "leaf09") missing
         /\ In [Lit "Devices missing underlay loopbacks: "; FmtSet missing] errors.
Proof.
  destruct (validator_reports_every_violation Samples.faulty_doc []
              Samples.faulty_defs Samples.faulty_roles
              [(SStr "spine01", VStr "10.1.0.1")]
              [(SStr "leaf09", VList [VInt 5])])
    as (e1 & e2 & e3 & e4 & Hvalid & _ & _ & _ & _ & Hdup & Hmissing).
  - reflexivity.
  - reflexivity.
  - intros def [<-|[<-|[]]]; exists (SInt 5); reflexivity.
  - reflexivity.
  - intros k v [[= <- <-]|[[= <- <-]|[]]];
      [exists [SStr "spine01"] | exists [SStr "leaf09"]]; reflexivity.
  - reflexivity.
  - reflexivity.
  - intros k v [[= <- <-]|[]]. exists [SInt 5]. reflexivity.
  - exists (e1 ++ e2 ++ e3 ++ e4). split; [exact Hvalid|]. split.
    + apply Hdup.
      exists 0, 1, (record [("id", VInt 5); ("name", VStr "VRF_A")]),
             (record [("id", VInt 5); ("name", VStr "VRF_B")]).
      repeat split; try reflexivity. discriminate.
    + apply (Hmissing (SStr "leaf") [VStr "leaf09"] "leaf09").
      * right. left. reflexivity.
      * left. reflexivity.
      * reflexivity.
Defined.

(** ** Validation and the mapper *)

(** C1, as the specification words it, fails: the validator accepts a
    document that has only the four fields the validator itself reads,
    and the mapper raises a missing-field error on it, with or without a
    hostname. *)
Lemma validated_document_missing_field :
  Converter.validate_data_model Samples.bare_doc = Ok []
  /\ Converter.convert_to_template_vars Samples.bare_doc None = Raise (KeyError "fabric")
  /\ Converter.convert_to_template_vars Samples.bare_doc (Some "leaf01")
     = Raise (KeyError "fabric").
Proof. repeat split; reflexivity. Qed.

Lemma nke_ok {A} (a : A) : no_key_error (Ok a).
Proof. intros key. discriminate. Qed.

Lemma nke_bind {A B} (c : result A) (k : A -> result B) :
  no_key_error c -> (forall a, c = Ok a -> no_key_error (k a)) ->
  no_key_error (bind c k).
Proof.
  intros Hc Hk key H. destruct c as [a|e]; simpl in H.
  - exact (Hk a eq_refl key H).
  - injection H as ->. exact (Hc key eq_refl).
Qed.

Lemma nke_present {A} (c : result A) : (exists a, c = Ok a) -> no_key_error c.
Proof. intros [a ->]. apply nke_ok. Qed.

Lemma nke_py_iter v : no_key_error (py_iter v).
Proof. destruct v as [[| | |s]|l|d]; intros key; discriminate. Qed.

Lemma nke_py_items v : no_key_error (py_items v).
Proof. destruct v as [x|l|d]; intros key; discriminate. Qed.

Lemma nke_py_in x v : no_key_error (py_in x v).
Proof.
  destruct v as [[| | |s]|l|d]; try (intros key; discriminate).
  - destruct x as [[| | |t]|l|d]; intros key; discriminate.
  - destruct x as [y|l|d']; intros key; discriminate.
Qed.

Lemma nke_mapM {A B} (f : A -> result B) l :
  (forall a, In a l -> no_key_error (f a)) -> no_key_error (mapM f l).
Proof.
  induction l as [|a l IH]; intros H; simpl; [apply nke_ok|].
  apply nke_bind; [apply H; left; reflexivity|]. intros b _.
  apply nke_bind; [apply IH; intros; apply H; right; assumption|].
  intros bs _. apply nke_ok.
Qed.

Lemma nke_foldM {A S} (f : S -> A -> result S) l s :
  (forall s a, In a l -> no_key_error (f s a)) -> no_key_error (foldM f s l).
Proof.
  revert s; induction l as [|a l IH]; intros s H; simpl; [apply nke_ok|].
  apply nke_bind; [apply H; left; reflexivity|]. intros s' _.
  apply IH. intros; apply H; right; assumption.
Qed.

Lemma nke_getitem fields v f :
  has_fields fields v = true -> In f fields -> no_key_error (getitem v f).
Proof.
  intros Hfields Hin. destruct v as [[| | |s]|l|d]; try (intros key; discriminate).
  simpl in Hfields. rewrite forallb_forall in Hfields.
  specialize (Hfields f Hin). unfold dict_mem in Hfields. simpl.
  destruct (dict_lookup d (SStr f)); [apply nke_ok | discriminate].
Qed.

Lemma nke_renamed src fields :
  has_fields (map snd fields) src = true -> no_key_error (renamed src fields).
Proof.
  intros Hfields. unfold renamed.
  apply nke_bind; [|intros; apply nke_ok].
  apply nke_mapM. intros [new old] Hin.
  apply nke_bind; [|intros; apply nke_ok].
  apply (nke_getitem _ _ _ Hfields). apply (in_map snd _ _ Hin).
Qed.

Lemma at_path_field key P v x :
  at_path [key] P v = true -> getitem v key = Ok x -> P x = true.
Proof. unfold at_path. simpl. intros H E. rewrite E in H. exact H. Qed.

Lemma each_value_items P v items kv :
  each_value P v = true -> py_items v = Ok items -> In kv items -> P (snd kv) = true.
Proof.
  unfold each_value. intros H E Hin. rewrite E in H.
  rewrite forallb_forall in H. exact (H kv Hin).
Qed.

Lemma each_iter P v xs x :
  each P v = true -> py_iter v = Ok xs -> In x xs -> P x = true.
Proof.
  unfold each. intros H E Hin. rewrite E in H.
  rewrite forallb_forall in H. exact (H x Hin).
Qed.

Lemma nke_convert_overlay overlay :
  overlay_complete overlay = true -> no_key_error (Converter.convert_overlay overlay).
Proof.
  unfold overlay_complete. intros H. apply andb_prop in H as [Hf Hv].
  unfold Converter.convert_overlay.
  apply nke_bind; [apply (nke_getitem _ _ _ Hf); simpl; auto|]. intros vrf _.
  apply nke_bind; [apply (nke_getitem _ _ _ Hf); simpl; auto|]. intros vlans Evlans.
  apply nke_bind; [apply nke_py_items|]. intros items Eitems.
  apply nke_bind; [|intros; apply nke_ok].
  apply nke_foldM. intros acc kv Hin.
  apply nke_bind; [|intros; apply nke_ok].
  apply nke_renamed.
  exact (each_value_items _ _ _ _ (at_path_field _ _ _ _ Hv Evlans) Eitems Hin).
Qed.

Lemma nke_convert_connection connection :
  connection_complete connection = true ->
  no_key_error (Converter.convert_connection connection).
Proof.
  unfold connection_complete. intros H. apply andb_prop in H as [Hf Hv].
  unfold Converter.convert_connection.
  apply nke_bind; [apply (nke_getitem _ _ _ Hf); simpl; auto|]. intros vrf _.
  apply nke_bind; [apply (nke_getitem _ _ _ Hf); simpl; auto|]. intros node _.
  apply nke_bind; [apply (nke_getitem _ _ _ Hf); simpl; auto|]. intros asn _.
  apply nke_bind; [apply (nke_getitem _ _ _ Hf); simpl; auto|]. intros intfs Eintfs.
  apply nke_bind; [apply nke_py_items|]. intros items Eitems.
  apply nke_bind; [|intros; apply nke_ok].
  apply nke_foldM. intros acc kv Hin.
  apply nke_bind; [|intros; apply nke_ok].
  apply nke_renamed.
  exact (each_value_items _ _ _ _ (at_path_field _ _ _ _ Hv Eintfs) Eitems Hin).
Qed.

Lemma nke_convert_ipsec tunnels_value tunnels_by_device :
  each_value (each (has_fields ["tunnel_ip"; "peer_ip"; "tunnel_destination";
                                "tunnel_mode"; "peer_bgp_asn"])) tunnels_value = true ->
  py_items tunnels_value = Ok tunnels_by_device ->
  no_key_error (Converter.convert_ipsec tunnels_by_device).
Proof.
  intros H E. unfold Converter.convert_ipsec.
  apply nke_foldM. intros acc kv Hin.
  apply nke_bind; [apply nke_py_iter|]. intros tunnels Etunnels.
  apply nke_bind; [|intros; apply nke_ok].
  apply nke_mapM. intros tunnel Htunnel. apply nke_renamed.
  exact (each_iter _ _ _ _ (each_value_items _ _ _ _ H E Hin) Etunnels Htunnel).
Qed.

Lemma walk_path_getpath parts v :
  Converter.walk_path v parts = true -> exists x, getpath v parts = Ok x.
Proof.
  revert v; induction parts as [|part parts IH]; intros v H; simpl; [eauto|].
  simpl in H. destruct v as [x|l|d]; try discriminate. simpl.
  destruct (dict_lookup d (SStr part)) as [next|]; [|discriminate].
  simpl. apply IH. exact H.
Qed.

Lemma required_fields_grow d declared acc res :
  foldM (fun errors field_path =>
           let* present := Converter._check_field_exists d field_path in
           if negb present
           then Ok (errors ++ [[Lit "Required field missing: "; Fmt field_path]])
           else Ok errors) acc declared = Ok res ->
  length acc <= length res
  /\ (length res = length acc ->
      forall field_path, In field_path declared ->
                         Converter._check_field_exists d field_path = Ok true).
Proof.
  revert acc; induction declared as [|fp declared IH]; intros acc H; simpl in H.
  - injection H as <-. split; [lia|]. intros _ field_path [].
  - bind_split H as acc' Estep. bind_split Estep as present Epresent.
    destruct (IH acc' H) as [Hle Hall].
    destruct present; simpl in Estep; injection Estep as <-.
    + split; [exact Hle|]. intros Hlen field_path [<-|Hin]; auto.
    + rewrite length_app in Hle, Hall. simpl in Hle, Hall.
      split; [lia|]. intros Hlen. lia.
Qed.

(** What an accepting validator run establishes. *)
Lemma validated_facts d declared :
  Converter.validate_data_model d = Ok [] ->
  Converter.required_fields d = Ok declared ->
  (forall p, In (VStr p) declared -> exists v, getpath d (split_dot p) = Ok v)
  /\ exists ids, Converter.vrf_id_list d = Ok ids.
Proof.
  unfold Converter.validate_data_model. intros H Hdeclared.
  bind_split H as errors1 E1. bind_split H as vrf_ids Eids.
  bind_split H as errors2 E2. bind_split H as errors3 E3. bind_split H as errors4 E4.
  injection H as H. apply app_eq_nil in H as [-> _].
  split; [|eauto].
  unfold Converter.check_required_fields in E1. rewrite Hdeclared in E1. cbn [bind] in E1.
  destruct (required_fields_grow d declared [] [] E1) as [_ Hall].
  intros p Hp. specialize (Hall eq_refl (VStr p) Hp). simpl in Hall.
  injection Hall as Hall. apply walk_path_getpath. exact Hall.
Qed.

Lemma nke_getitem_member h v :
  py_in (VStr h) v = Ok true -> no_key_error (getitem v h).
Proof.
  destruct v as [[| | |s]|l|d]; try (intros _ key; discriminate).
  simpl. unfold dict_mem. intros H.
  destruct (dict_lookup d (SStr h)); [apply nke_ok | discriminate].
Qed.

Lemma nke_device_context d tv0 h :
  Converter.fabric_template_vars d = Ok tv0 ->
  (exists ids, Converter.vrf_id_list d = Ok ids) ->
  at_path ["vrfs"; "definitions"] (each (has_fields ["name"])) d = true ->
  no_key_error (Converter.device_context tv0 h).
Proof.
  intros Hglobal [ids Hids] Hnames.
  destruct (fabric_template_vars_names d tv0 Hglobal)
    as (_ & defs & mapping & Hld & Hlm & Hgd & Hgm).
  unfold Converter.device_context.
  destruct h as [hostname|]; [|apply nke_ok].
  destruct (truthy (Some hostname)); [|apply nke_ok].
  unfold getitem at 1. rewrite dict_lookup_set_other by reflexivity.
  rewrite Hlm. cbn [bind].
  apply nke_bind; [apply nke_py_in|]. intros mapped Emapped.
  destruct mapped; [|apply nke_ok].
  apply nke_bind; [apply nke_getitem_member; exact Emapped|]. intros device_vrf_ids _.
  unfold getitem at 1. rewrite dict_lookup_set_other by reflexivity.
  rewrite Hld. cbn [bind].
  apply nke_bind; [|intros; apply nke_ok].
  unfold Converter.vrf_names.
  apply nke_bind; [apply nke_py_iter|]. intros xs Exs.
  unfold Converter.vrf_id_list in Hids. rewrite Hgd in Hids. cbn [bind] in Hids.
  rewrite Exs in Hids. cbn [bind] in Hids.
  unfold at_path in Hnames. rewrite Hgd in Hnames.
  apply nke_foldM. intros acc def Hdef.
  apply nke_bind.
  { apply nke_present. exact (mapM_ok_each _ _ _ Hids def Hdef). }
  intros id _.
  apply nke_bind; [apply nke_py_in|]. intros hit _.
  destruct hit; [|apply nke_ok].
  apply nke_bind; [|intros; apply nke_ok].
  apply (nke_getitem ["name"]); [|left; reflexivity].
  exact (each_iter _ _ _ _ Hnames Exs Hdef).
Qed.

Ltac declared_path Hpresent :=
  apply nke_bind;
  [ apply nke_present; apply Hpresent; cbv;
    repeat (first [left; reflexivity | right])
  | intros ? ? ].

Lemma nke_fabric_template_vars d :
  (forall keys, In keys (map split_dot mapper_paths) -> exists v, getpath d keys = Ok v) ->
  records_complete d = true ->
  no_key_error (Converter.fabric_template_vars d).
Proof.
  intros Hpresent Hrecords.
  unfold records_complete in Hrecords.
  apply andb_prop in Hrecords as [Hrecords _].
  apply andb_prop in Hrecords as [Hrecords Hipsec].
  apply andb_prop in Hrecords as [Hrecords Hnac].
  apply andb_prop in Hrecords as [Hoverlay Hl3].
  unfold Converter.fabric_template_vars.
  do 20 declared_path Hpresent.
  (* overlay networks *)
  declared_path Hpresent.
  apply nke_bind; [apply nke_py_iter|]. intros overlays Eoverlays.
  apply nke_bind.
  { apply nke_mapM. intros overlay Hin. apply nke_convert_overlay.
    unfold at_path in Hoverlay.
    match goal with E : getpath d ["overlay_networks"] = Ok _ |- _ => rewrite E in Hoverlay end.
    exact (each_iter _ _ _ _ Hoverlay Eoverlays Hin). }
  intros DEFN_OVERLAY _.
  (* L3 external connections *)
  declared_path Hpresent.
  apply nke_bind; [apply nke_py_iter|]. intros connections Econnections.
  apply nke_bind.
  { apply nke_mapM. intros connection Hin. apply nke_convert_connection.
    unfold at_path in Hl3.
    match goal with
      E : getpath d ["l3_external"; "connections"] = Ok _ |- _ => rewrite E in Hl3
    end.
    exact (each_iter _ _ _ _ Hl3 Econnections Hin). }
  intros DEFN_L3OUT _.
  declared_path Hpresent.
  (* NAC servers *)
  declared_path Hpresent.
  apply nke_bind; [apply nke_py_iter|]. intros servers Eservers.
  apply nke_bind.
  { apply nke_mapM. intros server Hin. apply nke_renamed.
    unfold at_path in Hnac.
    match goal with
      E : getpath d ["network_access_control"; "servers"] = Ok _ |- _ => rewrite E in Hnac
    end.
    exact (each_iter _ _ _ _ Hnac Eservers Hin). }
  intros DEFN_NAC_IOT _.
  (* IPSec tunnels *)
  declared_path Hpresent.
  apply nke_bind; [apply nke_py_items|]. intros tunnels_by_device Etunnels.
  apply nke_bind; [|intros; apply nke_ok].
  unfold at_path in Hipsec.
  match goal with
    E : getpath d ["ipsec"; "tunnels"] = Ok _ |- _ => rewrite E in Hipsec
  end.
  exact (nke_convert_ipsec _ _ Hipsec Etunnels).
Qed.

(** C1, as the code has it.  If the validator accepts a document that
    declares, under validation.required_fields, every dotted path the
    mapper reads, and every record the mapper's loops visit (overlay
    networks and their VLANs, L3 connections and their interfaces, NAC
    servers, IPSec tunnels, VRF definitions) carries the fields the mapper
    reads from it, then the mapper raises no missing-field error, with or
    without a hostname. *)
Theorem validated_declared_document_maps d declared h :
  Converter.validate_data_model d = Ok [] ->
  Converter.required_fields d = Ok declared ->
  (forall p, In p mapper_paths -> In (VStr p) declared) ->
  records_complete d = true ->
  no_key_error (Converter.convert_to_template_vars d h).
Proof.
  intros Hvalid Hdeclared Hlisted Hrecords.
  destruct (validated_facts d declared Hvalid Hdeclared) as [Hpresent Hids].
  unfold Converter.convert_to_template_vars.
  apply nke_bind.
  - apply nke_fabric_template_vars; [|exact Hrecords].
    intros keys Hkeys. apply in_map_iff in Hkeys as (p & <- & Hp).
    apply Hpresent. apply Hlisted. exact Hp.
  - intros tv0 Hglobal. apply (nke_device_context d tv0 h Hglobal Hids).
    unfold records_complete in Hrecords.
    apply andb_prop in Hrecords as [_ Hnames]. exact Hnames.
Qed.

Lemma validated_declared_document_maps_witness :
  Converter.validate_data_model Samples.declared_doc = Ok []
  /\ no_key_error (Converter.convert_to_template_vars Samples.declared_doc (Some "leaf01")).
Proof.
  split; [reflexivity|].
  apply (validated_declared_document_maps Samples.declared_doc
           (map (fun p => VStr p) mapper_paths) (Some "leaf01")).
  - reflexivity.
  - reflexivity.
  - intros p Hp. apply (in_map (fun p => VStr p)). exact Hp.
  - reflexivity.
Defined.

(** * Further properties of the converter *)

(** ** Dotted paths *)

Lemma split_dot_nonempty s : split_dot s <> [].
Proof.
  destruct s as [|c s]; simpl; [discriminate|].
  destruct (Ascii.eqb c "."); [discriminate|].
  destruct (split_dot s); discriminate.
Qed.

Lemma join_dot_cons p q rest : join_dot (p :: q :: rest) = p +:+ "." +:+ join_dot (q :: rest).
Proof. reflexivity. Qed.

Lemma join_dot_head c p rest : join_dot (String c p :: rest) = String c (join_dot (p :: rest)).
Proof. destruct rest as [|q rest]; reflexivity. Qed.

(** [split('.')] loses nothing: joining the parts with dots gives the
    path back, there is always at least one part, and no part has a dot. *)
Theorem split_dot_round_trip s :
  join_dot (split_dot s) = s
  /\ split_dot s <> []
  /\ Forall (fun part => has_dot part = false) (split_dot s).
Proof.
  split; [|split; [apply split_dot_nonempty|]].
  - induction s as [|c s IH]; [reflexivity|]. simpl.
    destruct (Ascii.eqb c ".") eqn:Ec.
    + apply Ascii.eqb_eq in Ec. subst c.
      pose proof (split_dot_nonempty s) as Hne.
      destruct (split_dot s) as [|q rest]; [contradiction|].
      rewrite join_dot_cons, IH. reflexivity.
    + pose proof (split_dot_nonempty s) as Hne.
      destruct (split_dot s) as [|q rest]; [contradiction|].
      rewrite join_dot_head, IH. reflexivity.
  - induction s as [|c s IH]; simpl; [repeat constructor|].
    destruct (Ascii.eqb c ".") eqn:Ec; [constructor; [reflexivity | exact IH]|].
    destruct (split_dot s) as [|q rest]; [repeat constructor; simpl; rewrite Ec; reflexivity|].
    inversion IH as [|? ? Hq Hrest]; subst.
    constructor; [simpl; rewrite Ec, Hq; reflexivity | exact Hrest].
Qed.

Lemma split_dot_append p q :
  split_dot (p +:+ "." +:+ q) = split_dot p ++ split_dot q.
Proof.
  induction p as [|c p IH].
  - reflexivity.
  - change (String c p +:+ "." +:+ q) with (String c (p +:+ "." +:+ q)).
    simpl. rewrite IH.
    destruct (Ascii.eqb c "."); [reflexivity|].
    pose proof (split_dot_nonempty p) as Hne.
    destruct (split_dot p) as [|x xs]; [contradiction|]. reflexivity.
Qed.

Lemma getpath_walk_path parts v x :
  getpath v parts = Ok x -> Converter.walk_path v parts = true.
Proof.
  revert v; induction parts as [|part parts IH]; intros v H; [reflexivity|].
  simpl in H. bind_split H as next E.
  destruct v as [[| | |s]|l|d]; simpl in E; try discriminate.
  simpl. destruct (dict_lookup d (SStr part)); [|discriminate].
  injection E as ->. eauto.
Qed.

Lemma walk_path_prefix parts more v :
  Converter.walk_path v (parts ++ more) = true -> Converter.walk_path v parts = true.
Proof.
  revert v; induction parts as [|part parts IH]; intros v H; [reflexivity|].
  simpl in H |- *. destruct v as [y|l|d]; try discriminate.
  destruct (dict_lookup d (SStr part)); [eauto | discriminate].
Qed.

(** [_check_field_exists] on a string path never raises; it answers
    [True] exactly when the chained subscript [d[k1][k2]...] of the path's
    components succeeds, so a non-mapping on the way gives [False], not an
    error; and whenever a path resolves, so does each shorter path obtained
    by cutting it at a dot.  A path that is not a string raises. *)
Theorem check_field_exists_meaning d :
  (forall p,
      exists b,
        Converter._check_field_exists d (VStr p) = Ok b
        /\ (b = true <-> exists x, getpath d (split_dot p) = Ok x))
  /\ (forall p q,
        Converter._check_field_exists d (VStr (p +:+ "." +:+ q)) = Ok true ->
        Converter._check_field_exists d (VStr p) = Ok true)
  /\ (forall v, (forall p, v <> VStr p) ->
                exists e, Converter._check_field_exists d v = Raise e).
Proof.
  split; [|split].
  - intros p. eexists. split; [reflexivity|]. split.
    + apply walk_path_getpath.
    + intros [x Hx]. eapply getpath_walk_path; eauto.
  - intros p q H. simpl in H |- *. injection H as H. f_equal.
    rewrite split_dot_append in H. eapply walk_path_prefix; eauto.
  - intros v Hv. destruct v as [[| | |s]|l|m]; simpl; eauto.
    exfalso. apply (Hv s). reflexivity.
Qed.

Lemma check_field_exists_meaning_witness :
  Converter._check_field_exists Samples.fabric_doc (VStr "fabric") = Ok true.
Proof.
  destruct (check_field_exists_meaning Samples.fabric_doc) as (_ & Hprefix & _).
  apply (Hprefix "fabric" "bgp_asn"). reflexivity.
Defined.

(** ** The validator's checks one by one *)

Lemma check_required_fields_fold d paths acc :
  foldM (fun errors field_path =>
           let* present := Converter._check_field_exists d field_path in
           if negb present
           then Ok (errors ++ [[Lit "Required field missing: "; Fmt field_path]])
           else Ok errors) acc (map (fun p => VStr p) paths)
  = Ok (acc ++ required_field_messages d paths).
Proof.
  unfold required_field_messages.
  revert acc; induction paths as [|p paths IH]; intros acc.
  - simpl. rewrite app_nil_r. reflexivity.
  - cbn [map foldM Converter._check_field_exists bind List.filter].
    destruct (negb (Converter.walk_path d (split_dot p))); cbn [bind map].
    + rewrite IH, <- app_assoc. reflexivity.
    + apply IH.
Qed.

(** The required-field check reports exactly the declared paths that do
    not resolve, one message each, in declaration order; these messages
    are the first ones of the validator's result. *)
Theorem required_fields_report d paths :
  Converter.required_fields d = Ok (map (fun p => VStr p) paths) ->
  Converter.check_required_fields d = Ok (required_field_messages d paths)
  /\ (forall p, In p paths ->
        (In [Lit "Required field missing: "; Fmt (VStr p)] (required_field_messages d paths)
         <-> Converter._check_field_exists d (VStr p) = Ok false))
  /\ (forall errors, Converter.validate_data_model d = Ok errors ->
        exists rest, errors = required_field_messages d paths ++ rest).
Proof.
  intros Hreq.
  assert (Hc : Converter.check_required_fields d = Ok (required_field_messages d paths)).
  { unfold Converter.check_required_fields. rewrite Hreq. cbn [bind].
    apply (check_required_fields_fold d paths []). }
  split; [exact Hc|]. split.
  - intros p Hp. unfold required_field_messages. rewrite in_map_iff. split.
    + intros (q & [= ->] & Hq). apply filter_In in Hq as [_ Hq].
      apply negb_true_iff in Hq. simpl. rewrite Hq. reflexivity.
    + intros H. simpl in H. injection H as H. exists p. split; [reflexivity|].
      apply filter_In. split; [exact Hp|]. rewrite H. reflexivity.
  - intros errors H. unfold Converter.validate_data_model in H.
    rewrite Hc in H. cbn [bind] in H.
    bind_split H as ids Eids. bind_split H as e2 E2.
    bind_split H as e3 E3. bind_split H as e4 E4.
    injection H as <-. eauto.
Qed.

Lemma required_fields_report_witness :
  Converter.check_required_fields
    (record [("validation", record [("required_fields", Samples.strs ["fabric.bgp_asn"])])])
  = Ok [[Lit "Required field missing: "; Fmt (VStr "fabric.bgp_asn")]].
Proof.
  apply (required_fields_report
           (record [("validation", record [("required_fields", Samples.strs ["fabric.bgp_asn"])])])
           ["fabric.bgp_asn"]).
  reflexivity.
Defined.

Lemma required_fields_fold_raises d declared acc :
  (exists v, In v declared /\ forall p, v <> VStr p) ->
  foldM (fun errors field_path =>
           let* present := Converter._check_field_exists d field_path in
           if negb present
           then Ok (errors ++ [[Lit "Required field missing: "; Fmt field_path]])
           else Ok errors) acc declared
  = Raise (AttributeError "object has no attribute 'split'").
Proof.
  revert acc; induction declared as [|v declared IH]; intros acc (bad & Hin & Hbad).
  - destruct Hin.
  - assert (Htail : forall s, v = VStr s ->
                              exists v', In v' declared /\ forall p, v' <> VStr p).
    { intros s ->. destruct Hin as [<-|Hin]; [exfalso; apply (Hbad s); reflexivity|].
      eauto. }
    destruct v as [[| | |s]|l|m]; try reflexivity.
    simpl. destruct (negb (Converter.walk_path d (split_dot s)));
      apply IH; apply (Htail s); reflexivity.
Qed.

(** An entry of validation.required_fields that is not a string makes
    the validator raise (on [field_path.split]) instead of returning
    violations. *)
Theorem required_fields_non_string_raises d declared :
  Converter.required_fields d = Ok declared ->
  (exists v, In v declared /\ forall p, v <> VStr p) ->
  exists what, Converter.validate_data_model d = Raise (AttributeError what).
Proof.
  intros Hreq Hbad. unfold Converter.validate_data_model, Converter.check_required_fields.
  rewrite Hreq. cbn [bind]. rewrite (required_fields_fold_raises d declared [] Hbad).
  eexists. reflexivity.
Qed.

Lemma required_fields_non_string_raises_witness :
  exists what,
    Converter.validate_data_model
      (record [("validation", record [("required_fields", VList [VInt 7])])])
    = Raise (AttributeError what).
Proof.
  apply (required_fields_non_string_raises _ [VInt 7]); [reflexivity|].
  exists (VInt 7). split; [left; reflexivity | discriminate].
Defined.

Lemma check_device_mappings_fold valid keys idss acc :
  length keys = length idss ->
  foldM (fun errors kv =>
           let* mapped := py_set (snd kv) in
           let invalid_vrfs := set_diff mapped valid in
           match invalid_vrfs with
           | _ :: _ =>
               Ok (errors ++ [[Lit "Device "; Fmt (VScalar (fst kv));
                               Lit " references invalid VRF IDs: "; FmtSet invalid_vrfs]])
           | [] => Ok errors
           end) acc (combine keys (map (fun xs => VList (map VScalar xs)) idss))
  = Ok (acc ++ mapping_messages valid (combine keys idss)).
Proof.
  unfold mapping_messages.
  revert keys acc; induction idss as [|xs idss IH]; intros [|k keys] acc Hlen;
    simpl in Hlen; try discriminate.
  - simpl. rewrite app_nil_r. reflexivity.
  - cbn [map combine foldM flat_map fst snd].
    unfold py_set at 1. rewrite set_update_scalars. cbn [bind].
    destruct (set_diff (add_all [] xs) valid) as [|x inv] eqn:Ediff.
    + cbn [bind app]. apply IH. lia.
    + cbn [bind]. rewrite IH by lia. rewrite <- app_assoc. reflexivity.
Qed.

Lemma In_combine_map {A B C} (f : B -> C) (ks : list A) (xs : list B) k x :
  (forall a b, f a = f b -> a = b) ->
  In (k, f x) (combine ks (map f xs)) -> In (k, x) (combine ks xs).
Proof.
  intros Hinj. revert xs; induction ks as [|k0 ks IH]; intros [|x0 xs]; simpl; try tauto.
  intros [H|H]; [left | right; auto].
  injection H as -> H. apply Hinj in H. subst. reflexivity.
Qed.

Lemma In_combine_map_r {A B C} (f : B -> C) (ks : list A) (xs : list B) k x :
  In (k, x) (combine ks xs) -> In (k, f x) (combine ks (map f xs)).
Proof.
  revert xs; induction ks as [|k0 ks IH]; intros [|x0 xs]; simpl; try tauto.
  intros [H|H]; [left | right; auto]. injection H as -> ->. reflexivity.
Qed.

Lemma map_VScalar_inj (a b : list scalar) : map VScalar a = map VScalar b -> a = b.
Proof.
  revert b; induction a as [|x a IH]; intros [|y b]; simpl; try discriminate; auto.
  intros [= -> H]. f_equal. auto.
Qed.

Lemma scalar_list_inj (a b : list scalar) :
  VList (map VScalar a) = VList (map VScalar b) -> a = b.
Proof. intros [= H]. apply map_VScalar_inj. exact H. Qed.

Lemma set_mem_In s x : In x s -> set_mem s x = true.
Proof.
  intros H. unfold set_mem. apply existsb_exists. exists x.
  split; [exact H | apply scalar_eq_refl].
Qed.

Lemma In_add_all xs s x : In x (add_all s xs) -> In x s \/ In x xs.
Proof.
  unfold add_all. revert s; induction xs as [|y xs IH]; intros s H; simpl in H; [auto|].
  destruct (IH _ H) as [Hs|Hxs]; [|simpl; auto].
  unfold set_add in Hs. destruct (set_mem s y); [auto|].
  apply in_app_or in Hs as [Hs|[<-|[]]]; simpl; auto.
Qed.

Lemma set_mem_diff a b x :
  set_mem (set_diff a b) x = true <-> set_mem a x = true /\ set_mem b x = false.
Proof.
  unfold set_mem at 1 2, set_diff. rewrite !existsb_exists. split.
  - intros (y & Hy & Heq). apply filter_In in Hy as [Hy Hb].
    apply negb_true_iff in Hb. split; [eauto|].
    rewrite (set_mem_eq b x y Heq). exact Hb.
  - intros [(y & Hy & Heq) Hb]. exists y. split; [|exact Heq].
    apply filter_In. split; [exact Hy|]. apply negb_true_iff.
    rewrite <- (set_mem_eq b x y Heq). exact Hb.
Qed.

Lemma set_diff_nil a b : set_diff a b = [] <-> forall x, In x a -> set_mem b x = true.
Proof.
  unfold set_diff. induction a as [|y a IH]; simpl; [tauto|].
  destruct (set_mem b y) eqn:E; simpl.
  - rewrite IH. split; [intros H x [<-|Hx]; auto | auto].
  - split; [discriminate|]. intros H. rewrite (H y) in E by auto. discriminate.
Qed.

Lemma vrf_id_member defs ks id :
  map (fun def => field def "id") defs = map VScalar ks ->
  (set_mem (add_all [] ks) id = true
   <-> exists def, In def defs /\ py_eq (VScalar id) (field def "id") = true).
Proof.
  intros Hfields. rewrite set_mem_add_all. cbn [set_mem existsb orb].
  rewrite existsb_exists. split.
  - intros (k & Hk & Heq).
    assert (Hin : In (VScalar k) (map (fun def => field def "id") defs)).
    { rewrite Hfields. apply in_map. exact Hk. }
    apply in_map_iff in Hin as (def & Hdef & Hin).
    exists def. split; [exact Hin|]. rewrite Hdef. exact Heq.
  - intros (def & Hin & Heq).
    assert (Hf : In (field def "id") (map VScalar ks)).
    { rewrite <- Hfields. apply (in_map (fun def => field def "id")). exact Hin. }
    apply in_map_iff in Hf as (k & Hk & Hkin).
    exists k. split; [exact Hkin|]. rewrite <- Hk in Heq. exact Heq.
Qed.

(** The mapping check, on a document whose VRF ids are hashable and whose
    device mappings are lists of hashable ids: a device mapped to an id
    that no definition carries gets the message "Device <device>
    references invalid VRF IDs: <set>", the set holding that id and only
    undefined ids; a device all of whose ids are defined gets none. *)
Theorem device_mappings_report d defs mappings :
  getpath d ["vrfs"; "definitions"] = Ok (VList defs) ->
  (forall def, In def defs -> exists id : scalar, getitem def "id" = Ok (VScalar id)) ->
  getpath d ["vrfs"; "device_mappings"] = Ok (VDict mappings) ->
  (forall k v, In (k, v) mappings -> exists ids, v = VList (map VScalar ids)) ->
  exists errors4,
    Converter.check_device_mappings d (map (fun def => field def "id") defs) = Ok errors4
    /\ (forall dev ids id,
          In (dev, VList (map VScalar ids)) mappings -> In id ids ->
          (forall def, In def defs -> py_eq (VScalar id) (field def "id") = false) ->
          exists invalid,
            In [Lit "Device "; Fmt (VScalar dev);
                Lit " references invalid VRF IDs: "; FmtSet invalid] errors4
            /\ set_mem invalid id = true
            /\ forall x def, In x invalid -> In def defs ->
                             py_eq (VScalar x) (field def "id") = false)
    /\ (forall dev invalid,
          In [Lit "Device "; Fmt (VScalar dev);
              Lit " references invalid VRF IDs: "; FmtSet invalid] errors4 ->
          exists ids x,
            In (dev, VList (map VScalar ids)) mappings /\ In x ids /\ In x invalid).
Proof.
  intros Hdefs Hids Hmappings Hmapped.
  destruct (scalar_ids defs Hids) as (ks & Hfields & _).
  destruct (scalar_lists_shape mappings Hmapped) as (idss & Hcomb & Hmap & _).
  assert (Hlen : length (map fst mappings) = length idss).
  { rewrite length_map, <- (length_map snd mappings), Hmap, length_map. reflexivity. }
  exists (mapping_messages (add_all [] ks) (combine (map fst mappings) idss)).
  split.
  { unfold Converter.check_device_mappings, set_of_list.
    rewrite Hfields, hash_all_scalars. cbn [bind]. rewrite Hmappings. cbn [bind py_items].
    rewrite Hcomb at 1.
    apply (check_device_mappings_fold (add_all [] ks) (map fst mappings) idss [] Hlen). }
  split.
  - intros dev ids id Hin Hid Hundef.
    rewrite Hcomb in Hin. apply (In_combine_map _ _ _ _ _ scalar_list_inj) in Hin.
    assert (Hinv : set_mem (set_diff (add_all [] ids) (add_all [] ks)) id = true).
    { apply set_mem_diff. split.
      - rewrite set_mem_add_all. apply orb_true_iff. right.
        apply existsb_exists. exists id. split; [exact Hid | apply scalar_eq_refl].
      - apply not_true_iff_false. intros Hmem.
        apply (vrf_id_member defs ks id Hfields) in Hmem as (def & Hdef & Heq).
        rewrite (Hundef def Hdef) in Heq. discriminate. }
    exists (set_diff (add_all [] ids) (add_all [] ks)). split; [|split].
    + unfold mapping_messages. apply in_flat_map. exists (dev, ids).
      split; [exact Hin|]. cbn [fst snd].
      destruct (set_diff (add_all [] ids) (add_all [] ks)); [discriminate Hinv|].
      left. reflexivity.
    + exact Hinv.
    + intros x def Hx Hdef. unfold set_diff in Hx. apply filter_In in Hx as [_ Hx].
      apply negb_true_iff in Hx. apply not_true_iff_false. intros Heq.
      apply not_true_iff_false in Hx. apply Hx.
      apply (vrf_id_member defs ks x Hfields). eauto.
  - intros dev invalid Hin. unfold mapping_messages in Hin.
    apply in_flat_map in Hin as ([dev' ids] & Hentry & Hmsg). cbn [fst snd] in Hmsg.
    destruct (set_diff (add_all [] ids) (add_all [] ks)) as [|x inv] eqn:Ediff;
      [destruct Hmsg|].
    destruct Hmsg as [Hmsg|[]]. injection Hmsg as -> <-.
    exists ids, x. split; [|split].
    + rewrite Hcomb.
      apply (In_combine_map_r (fun xs => VList (map VScalar xs))). exact Hentry.
    + assert (Hx : In x (set_diff (add_all [] ids) (add_all [] ks)))
        by (rewrite Ediff; left; reflexivity).
      unfold set_diff in Hx. apply filter_In in Hx as [Hx _].
      apply In_add_all in Hx as [[]|Hx]. exact Hx.
    + left. reflexivity.
Qed.

Lemma device_mappings_report_witness :
  exists errors4 invalid,
    Converter.check_device_mappings Samples.fabric_doc [VInt 10] = Ok errors4
    /\ In [Lit "Device "; Fmt (VStr "leaf01");
           Lit " references invalid VRF IDs: "; FmtSet invalid] errors4
    /\ set_mem invalid (SInt 99) = true.
Proof.
  destruct (device_mappings_report Samples.fabric_doc
              [record [("id", VInt 10); ("name", VStr "VRF_10")]]
              [(SStr "leaf01", VList [VInt 10; VInt 99])])
    as (errors4 & Hcheck & Hreport & _).
  - reflexivity.
  - intros def [<-|[]]. exists (SInt 10). reflexivity.
  - reflexivity.
  - intros k v [[= <- <-]|[]]. exists [SInt 10; SInt 99]. reflexivity.
  - destruct (Hreport (SStr "leaf01") [SInt 10; SInt 99] (SInt 99))
      as (invalid & Hmsg & Hmem & _).
    + left. reflexivity.
    + right. left. reflexivity.
    + intros def [<-|[]]. reflexivity.
    + exists errors4, invalid. auto.
Defined.

(** ** What acceptance by the validator means *)

Lemma add_all_full_length ks s :
  (forall x, In x ks -> set_mem s x = false) ->
  (forall i j a b, i <> j -> nth_error ks i = Some a -> nth_error ks j = Some b ->
                   scalar_eq a b = false) ->
  length (add_all s ks) = length s + length ks.
Proof.
  revert s; induction ks as [|x ks IH]; intros s Hfresh Hdistinct.
  - simpl. lia.
  - change (add_all s (x :: ks)) with (add_all (set_add s x) ks).
    assert (Hadd : set_add s x = s ++ [x]).
    { unfold set_add. rewrite (Hfresh x) by (left; reflexivity). reflexivity. }
    rewrite Hadd, IH.
    + rewrite length_app. simpl. lia.
    + intros y Hy. rewrite set_mem_app, (Hfresh y) by (right; exact Hy).
      unfold set_mem. cbn [existsb orb]. rewrite orb_false_r.
      apply In_nth_error in Hy as [n Hn].
      apply (Hdistinct (S n) 0 y x); [lia | exact Hn | reflexivity].
    + intros i j a b Hne Hi Hj. apply (Hdistinct (S i) (S j) a b); [lia | exact Hi | exact Hj].
Qed.

Lemma mapping_messages_nil valid entries :
  mapping_messages valid entries = []
  <-> forall e, In e entries -> set_diff (add_all [] (snd e)) valid = [].
Proof.
  unfold mapping_messages. induction entries as [|e entries IH]; simpl; [tauto|].
  destruct (set_diff (add_all [] (snd e)) valid) eqn:E; simpl.
  - rewrite IH. split; [intros H e' [<-|He']; auto | auto].
  - split; [discriminate|]. intros H. rewrite (H e) in E by auto. discriminate.
Qed.

Lemma required_field_messages_nil d paths :
  required_field_messages d paths = []
  <-> forall p, In p paths -> Converter.walk_path d (split_dot p) = true.
Proof.
  unfold required_field_messages. induction paths as [|p paths IH]; simpl; [tauto|].
  destruct (Converter.walk_path d (split_dot p)) eqn:E; simpl.
  - rewrite IH. split; [intros H q [<-|Hq]; auto | auto].
  - split; [discriminate|]. intros H. rewrite (H p) in E by auto. discriminate.
Qed.

Lemma set_mem_add_all_nil xs x : set_mem (add_all [] xs) x = set_mem xs x.
Proof. rewrite set_mem_add_all. reflexivity. Qed.

Lemma scalar_list_member (entries : list (scalar * value)) xss :
  map snd entries = map (fun xs => VList (map VScalar xs)) xss ->
  forall x,
    In x (concat xss)
    <-> exists k xs, In (k, VList (map VScalar xs)) entries /\ In x xs.
Proof.
  intros Hmap x. rewrite in_concat. split.
  - intros (xs & Hxs & Hx).
    assert (Hin : In (VList (map VScalar xs)) (map snd entries)).
    { rewrite Hmap. apply (in_map (fun xs => VList (map VScalar xs))). exact Hxs. }
    apply in_map_iff in Hin as ([k v] & Hv & Hin). simpl in Hv. subst v. eauto.
  - intros (k & xs & Hin & Hx). exists xs. split; [|exact Hx].
    assert (Hin' : In (VList (map VScalar xs)) (map snd entries)).
    { apply in_map_iff. exists (k, VList (map VScalar xs)). auto. }
    rewrite Hmap in Hin'. apply in_map_iff in Hin' as (xs' & Heq & Hxs').
    apply scalar_list_inj in Heq. subst. exact Hxs'.
Qed.

(** The validator's result on a readable document, check by check. *)
Lemma validate_formula d paths defs ks roles memberss underlay mappings idss :
  Converter.required_fields d = Ok (map (fun p => VStr p) paths) ->
  getpath d ["vrfs"; "definitions"] = Ok (VList defs) ->
  mapM (fun vrf => getitem vrf "id") defs = Ok (map VScalar ks) ->
  getpath d ["devices"; "roles"] = Ok (VDict roles) ->
  map snd roles = map (fun xs => VList (map VScalar xs)) memberss ->
  getpath d ["devices"; "loopbacks"; "underlay"] = Ok (VDict underlay) ->
  getpath d ["vrfs"; "device_mappings"] = Ok (VDict mappings) ->
  mappings = combine (map fst mappings) (map (fun xs => VList (map VScalar xs)) idss) ->
  length (map fst mappings) = length idss ->
  Converter.validate_data_model d =
  Ok (required_field_messages d paths
      ++ (if negb (Nat.eqb (length ks) (length (add_all [] ks)))
          then [[Lit "VRF IDs must be unique"]] else [])
      ++ match set_diff (add_all [] (concat memberss)) (add_all [] (map fst underlay)) with
         | [] => []
         | _ :: _ =>
             [[Lit "Devices missing underlay loopbacks: ";
               FmtSet (set_diff (add_all [] (concat memberss))
                                (add_all [] (map fst underlay)))]]
         end
      ++ mapping_messages (add_all [] ks) (combine (map fst mappings) idss)).
Proof.
  intros Hreq Hdefs HmapM Hroles Hrmap Hunderlay Hmappings Hcomb Hlen.
  unfold Converter.validate_data_model, Converter.check_required_fields.
  rewrite Hreq. cbn [bind].
  rewrite (check_required_fields_fold d paths []). cbn [bind app].
  unfold Converter.vrf_id_list. rewrite Hdefs. cbn [bind py_iter]. rewrite HmapM. cbn [bind].
  unfold Converter.check_vrf_ids_unique, set_of_list.
  rewrite hash_all_scalars. cbn [bind]. rewrite length_map.
  assert (H3 : Converter.check_underlay_loopbacks d
               = Ok match set_diff (add_all [] (concat memberss))
                                   (add_all [] (map fst underlay)) with
                    | [] => []
                    | _ :: _ =>
                        [[Lit "Devices missing underlay loopbacks: ";
                          FmtSet (set_diff (add_all [] (concat memberss))
                                           (add_all [] (map fst underlay)))]]
                    end).
  { unfold Converter.check_underlay_loopbacks. rewrite Hroles. cbn [bind py_values].
    rewrite Hrmap, set_update_all_scalars. cbn [bind]. rewrite Hunderlay.
    cbn [bind py_keys]. unfold set_of_list.
    rewrite <- (map_map fst VScalar), hash_all_scalars. cbn [bind].
    destruct (set_diff (add_all [] (concat memberss)) (add_all [] (map fst underlay)));
      reflexivity. }
  assert (H4 : Converter.check_device_mappings d (map VScalar ks)
               = Ok (mapping_messages (add_all [] ks) (combine (map fst mappings) idss))).
  { unfold Converter.check_device_mappings, set_of_list.
    rewrite hash_all_scalars. cbn [bind]. rewrite Hmappings. cbn [bind py_items].
    rewrite Hcomb at 1.
    apply (check_device_mappings_fold (add_all [] ks) (map fst mappings) idss [] Hlen). }
  destruct (negb (Nat.eqb (length ks) (length (add_all [] ks))));
    cbn [bind]; rewrite H3; cbn [bind]; rewrite H4; reflexivity.
Qed.

(** On a readable document the validator returns no violation exactly
    when: every declared path resolves, no two VRF definitions have equal
    ids, every member of every role list is a key of the underlay
    loopback mapping, and every id a device is mapped to is the id of some
    definition. *)
Theorem validator_accepts_iff_invariants d paths defs roles underlay mappings :
  Converter.required_fields d = Ok (map (fun p => VStr p) paths) ->
  getpath d ["vrfs"; "definitions"] = Ok (VList defs) ->
  (forall def, In def defs -> exists id : scalar, getitem def "id" = Ok (VScalar id)) ->
  getpath d ["devices"; "roles"] = Ok (VDict roles) ->
  (forall k v, In (k, v) roles -> exists members, v = VList (map VScalar members)) ->
  getpath d ["devices"; "loopbacks"; "underlay"] = Ok (VDict underlay) ->
  getpath d ["vrfs"; "device_mappings"] = Ok (VDict mappings) ->
  (forall k v, In (k, v) mappings -> exists ids, v = VList (map VScalar ids)) ->
  (Converter.validate_data_model d = Ok []
   <-> (forall p, In p paths -> exists x, getpath d (split_dot p) = Ok x)
       /\ (forall i j a b,
             i <> j -> nth_error defs i = Some a -> nth_error defs j = Some b ->
             py_eq (field a "id") (field b "id") = false)
       /\ (forall k members m,
             In (k, VList (map VScalar members)) roles -> In m members ->
             dict_mem underlay m = true)
       /\ (forall dev ids id,
             In (dev, VList (map VScalar ids)) mappings -> In id ids ->
             exists def, In def defs /\ py_eq (VScalar id) (field def "id") = true)).
Proof.
  intros Hreq Hdefs Hids Hroles Hrole_lists Hunderlay Hmappings Hmapped.
  destruct (scalar_ids defs Hids) as (ks & Hfields & HmapM).
  destruct (scalar_lists_shape roles Hrole_lists) as (memberss & _ & Hrmap & _).
  destruct (scalar_lists_shape mappings Hmapped) as (idss & Hmcomb & Hmmap & _).
  assert (Hlen : length (map fst mappings) = length idss).
  { rewrite length_map, <- (length_map snd mappings), Hmmap, length_map. reflexivity. }
  rewrite (validate_formula d paths defs ks roles memberss underlay mappings idss)
    by assumption.
  (* the four parts, each as a statement about the document *)
  assert (P1 : required_field_messages d paths = []
               <-> forall p, In p paths -> exists x, getpath d (split_dot p) = Ok x).
  { rewrite required_field_messages_nil. split; intros H p Hp.
    - apply walk_path_getpath. auto.
    - destruct (H p Hp) as [x Hx]. eapply getpath_walk_path; eauto. }
  assert (Hnth : forall i a,
             nth_error defs i = Some a ->
             exists ka, nth_error ks i = Some ka /\ field a "id" = VScalar ka).
  { intros i a Hi. apply (map_nth_error (fun def => field def "id")) in Hi.
    rewrite Hfields, nth_error_map in Hi.
    destruct (nth_error ks i) as [ka|]; [|discriminate]. injection Hi as Hi. eauto. }
  assert (Hnth' : forall i ka,
             nth_error ks i = Some ka ->
             exists a, nth_error defs i = Some a /\ field a "id" = VScalar ka).
  { intros i ka Hi. apply (map_nth_error VScalar) in Hi.
    rewrite <- Hfields, nth_error_map in Hi.
    destruct (nth_error defs i) as [a|]; [|discriminate]. injection Hi as Hi. eauto. }
  assert (P2 : (if negb (Nat.eqb (length ks) (length (add_all [] ks)))
                then [[Lit "VRF IDs must be unique"]] else []) = []
               <-> forall i j a b,
                   i <> j -> nth_error defs i = Some a -> nth_error defs j = Some b ->
                   py_eq (field a "id") (field b "id") = false).
  { split.
    - intros H i j a b Hne Hi Hj.
      destruct (Hnth i a Hi) as (ka & Hka & ->). destruct (Hnth j b Hj) as (kb & Hkb & ->).
      cbn [py_eq]. destruct (scalar_eq ka kb) eqn:Eab; [|reflexivity].
      pose proof (duplicate_shrinks_set ks i j ka kb Hne Hka Hkb Eab) as Hlt.
      destruct (Nat.eqb_spec (length ks) (length (add_all [] ks))); [lia | discriminate].
    - intros H.
      rewrite (add_all_full_length ks []); [rewrite Nat.eqb_refl; reflexivity | reflexivity |].
      intros i j ka kb Hne Hi Hj.
      destruct (Hnth' i ka Hi) as (a & Ha & Hfa). destruct (Hnth' j kb Hj) as (b & Hb & Hfb).
      specialize (H i j a b Hne Ha Hb). rewrite Hfa, Hfb in H. exact H. }
  assert (P3 : match set_diff (add_all [] (concat memberss))
                              (add_all [] (map fst underlay)) with
               | [] => []
               | _ :: _ =>
                   [[Lit "Devices missing underlay loopbacks: ";
                     FmtSet (set_diff (add_all [] (concat memberss))
                                      (add_all [] (map fst underlay)))]]
               end = @nil message
               <-> forall k members m,
                   In (k, VList (map VScalar members)) roles -> In m members ->
                   dict_mem underlay m = true).
  { assert (Hnil : forall s : pyset,
               match s with [] => [] | _ :: _ => [[Lit "Devices missing underlay loopbacks: ";
                                                  FmtSet s]] end = @nil message
               <-> s = []).
    { intros [|x s]; split; try reflexivity; discriminate. }
    rewrite Hnil, set_diff_nil. split.
    - intros H k members m Hin Hm.
      assert (Hall : set_mem (add_all [] (concat memberss)) m = true).
      { rewrite set_mem_add_all_nil. apply set_mem_In.
        apply (scalar_list_member roles memberss Hrmap). eauto. }
      unfold set_mem in Hall. apply existsb_exists in Hall as (y & Hy & Heq).
      specialize (H y Hy). rewrite set_mem_add_all_nil in H.
      rewrite dict_mem_keys, (set_mem_eq _ m y Heq). exact H.
    - intros H x Hx. apply In_add_all in Hx as [[]|Hx].
      apply (scalar_list_member roles memberss Hrmap) in Hx as (k & members & Hin & Hm).
      rewrite set_mem_add_all_nil, <- dict_mem_keys. eauto. }
  assert (P4 : mapping_messages (add_all [] ks) (combine (map fst mappings) idss) = []
               <-> forall dev ids id,
                   In (dev, VList (map VScalar ids)) mappings -> In id ids ->
                   exists def, In def defs /\ py_eq (VScalar id) (field def "id") = true).
  { rewrite mapping_messages_nil. split.
    - intros H dev ids id Hin Hid.
      rewrite Hmcomb in Hin. apply (In_combine_map _ _ _ _ _ scalar_list_inj) in Hin.
      specialize (H (dev, ids) Hin). cbn [snd] in H.
      apply (vrf_id_member defs ks id Hfields).
      assert (Hall : set_mem (add_all [] ids) id = true).
      { rewrite set_mem_add_all_nil. apply set_mem_In. exact Hid. }
      unfold set_mem in Hall. apply existsb_exists in Hall as (y & Hy & Heq).
      rewrite (set_mem_eq _ id y Heq). exact (proj1 (set_diff_nil _ _) H y Hy).
    - intros H [dev ids] Hin. cbn [snd]. apply set_diff_nil. intros x Hx.
      apply In_add_all in Hx as [[]|Hx].
      apply (vrf_id_member defs ks x Hfields). apply (H dev ids x); [|exact Hx].
      rewrite Hmcomb.
      apply (In_combine_map_r (fun xs => VList (map VScalar xs))). exact Hin. }
  split.
  - intros [= H]. apply app_eq_nil in H as [H1 H].
    apply app_eq_nil in H as [H2 H]. apply app_eq_nil in H as [H3 H4].
    split; [apply P1; exact H1|]. split; [apply P2; exact H2|].
    split; [apply P3; exact H3 | apply P4; exact H4].
  - intros (H1 & H2 & H3 & H4).
    apply P1 in H1. apply P2 in H2. apply P3 in H3. apply P4 in H4.
    rewrite H1, H2, H3, H4. reflexivity.
Qed.

Lemma validator_accepts_iff_invariants_witness :
  Converter.validate_data_model Samples.declared_doc = Ok []
  <-> (forall p, In p mapper_paths ->
                 exists x, getpath Samples.declared_doc (split_dot p) = Ok x)
      /\ (forall i j a b,
            i <> j ->
            nth_error [record [("id", VInt 10); ("name", VStr "VRF_10")]] i = Some a ->
            nth_error [record [("id", VInt 10); ("name", VStr "VRF_10")]] j = Some b ->
            py_eq (field a "id") (field b "id") = false)
      /\ (forall k members m,
            In (k, VList (map VScalar members)) Samples.role_entries -> In m members ->
            dict_mem [(SStr "spine01", VStr "10.1.0.1"); (SStr "border01", VStr "10.1.0.2");
                      (SStr "leaf01", VStr "10.1.0.3"); (SStr "rr01", VStr "10.1.0.4")] m
            = true)
      /\ (forall dev ids id,
            In (dev, VList (map VScalar ids)) [(SStr "leaf01", VList [VInt 10])] ->
            In id ids ->
            exists def,
              In def [record [("id", VInt 10); ("name", VStr "VRF_10")]]
              /\ py_eq (VScalar id) (field def "id") = true).
Proof.
  apply (validator_accepts_iff_invariants Samples.declared_doc mapper_paths).
  - reflexivity.
  - reflexivity.
  - intros def [<-|[]]. exists (SInt 10). reflexivity.
  - reflexivity.
  - intros k v Hin. simpl in Hin.
    destruct Hin as [[= <- <-]|[[= <- <-]|[[= <- <-]|[[= <- <-]|[[= <- <-]|[]]]]]].
    + exists [SStr "spine01"]. reflexivity.
    + exists [SStr "border01"]. reflexivity.
    + exists [SStr "leaf01"]. reflexivity.
    + exists [SStr "spine01"; SStr "rr01"]. reflexivity.
    + exists [SStr "leaf01"; SStr "border01"]. reflexivity.
  - reflexivity.
  - reflexivity.
  - intros k v [[= <- <-]|[]]. exists [SInt 10]. reflexivity.
Defined.

(** * Further properties of the mapper *)

Lemma dict_set_new {V} (d : list (scalar * V)) k v :
  dict_lookup d k = None -> dict_set d k v = d ++ [(k, v)].
Proof.
  induction d as [|[k' v'] d IH]; simpl; auto.
  destruct (scalar_eq k' k); [discriminate|]. intros H. rewrite IH; auto.
Qed.

Lemma global_name_absent (tv0 : list (scalar * value)) name :
  map fst tv0 = map SStr global_names ->
  existsb (String.eqb name) global_names = false ->
  dict_lookup tv0 (SStr name) = None.
Proof.
  intros Hkeys Hname. apply dict_lookup_absent. rewrite Hkeys.
  clear -Hname. induction global_names as [|g gs IH]; [reflexivity|].
  cbn [existsb] in Hname. apply orb_false_iff in Hname as [Hg Hgs].
  cbn [map forallb scalar_eq]. rewrite String.eqb_sym, Hg. cbn [negb andb]. auto.
Qed.

(** The hostname only adds to the variable set.  When the mapper
    succeeds for a hostname it also succeeds without one, and its result
    is the device-independent set (the twenty-two fixed names, in order)
    followed by: nothing for the empty hostname; [__device] for a
    hostname that is not in the device-to-VRF mapping; [__device] and
    [vrf_list] for one that is. *)
Theorem mapper_device_extension d h tv :
  Converter.convert_to_template_vars d (Some h) = Ok tv ->
  exists tv0,
    Converter.convert_to_template_vars d None = Ok tv0
    /\ map fst tv0 = map SStr global_names
    /\ (h = EmptyString -> tv = tv0)
    /\ (h <> EmptyString ->
        exists mapping,
          getpath d ["vrfs"; "device_mappings"] = Ok mapping
          /\ ((py_in (VStr h) mapping = Ok false
               /\ tv = tv0 ++ [(SStr "__device", record [("hostname", VStr h)])])
              \/ (py_in (VStr h) mapping = Ok true
                  /\ exists names,
                       tv = tv0 ++ [(SStr "__device", record [("hostname", VStr h)]);
                                    (SStr "vrf_list", VList names)]))).
Proof.
  intros H. rewrite convert_without_device.
  unfold Converter.convert_to_template_vars in H. bind_split H as tv0 E0.
  destruct (fabric_template_vars_names d tv0 E0)
    as (Hkeys & defs & mapping & Hld & Hlm & Hgd & Hgm).
  exists tv0. split; [exact E0|]. split; [exact Hkeys|].
  unfold Converter.device_context in H. split.
  - intros ->. cbn [truthy] in H. injection H as <-. reflexivity.
  - intros Hne. destruct h as [|c h']; [contradiction|]. cbn [truthy] in H.
    rewrite (dict_set_new tv0 (SStr "__device")) in H
      by (apply global_name_absent; [exact Hkeys | reflexivity]).
    unfold getitem at 1 in H. rewrite dict_lookup_app, Hlm in H. cbn [bind] in H.
    exists mapping. split; [exact Hgm|].
    bind_split H as mapped Emapped. destruct mapped.
    + right. split; [exact Emapped|].
      bind_split H as ids Eids. bind_split H as defs' Edefs. bind_split H as names En.
      injection H as <-. exists names.
      rewrite dict_set_new.
      * rewrite <- app_assoc. reflexivity.
      * rewrite dict_lookup_app.
        rewrite (global_name_absent tv0 "vrf_list" Hkeys) by reflexivity. reflexivity.
    + left. split; [exact Emapped|]. injection H as <-. reflexivity.
Qed.

Lemma mapper_device_extension_witness :
  exists tv0 names,
    Converter.convert_to_template_vars Samples.fabric_doc None = Ok tv0
    /\ Converter.convert_to_template_vars Samples.fabric_doc (Some "leaf01")
       = Ok (tv0 ++ [(SStr "__device", record [("hostname", VStr "leaf01")]);
                     (SStr "vrf_list", VList names)]).
Proof.
  destruct (mapper_device_extension Samples.fabric_doc "leaf01"
              (match Converter.convert_to_template_vars Samples.fabric_doc (Some "leaf01") with
               | Ok tv => tv
               | Raise _ => []
               end) eq_refl)
    as (tv0 & H0 & _ & _ & Hdev).
  assert (Hne : "leaf01" <> EmptyString) by discriminate.
  destruct (Hdev Hne) as (mapping & Hmapping & [[Hno _]|[_ (names & Htv)]]).
  - injection Hmapping as <-. discriminate Hno.
  - exists tv0, names. split; [exact H0|]. rewrite <- Htv. reflexivity.
Defined.

(** Every path of [mapper_paths] is needed: when the mapper succeeds,
    with or without a hostname, each of them passes the required-field
    test of the validator. *)
Theorem mapper_success_needs_paths d h tv :
  Converter.convert_to_template_vars d h = Ok tv ->
  forall p, In p mapper_paths -> Converter._check_field_exists d (VStr p) = Ok true.
Proof.
  unfold Converter.convert_to_template_vars. intros H.
  bind_split H as tv0 E0. clear H.
  unfold Converter.fabric_template_vars in E0.
  repeat bind_inv E0. clear E0.
  intros p Hp. cbn [Converter._check_field_exists]. f_equal.
  unfold mapper_paths in Hp. cbn [In] in Hp.
  repeat (destruct Hp as [<-|Hp];
          [eapply getpath_walk_path; vm_compute split_dot; eassumption|]).
  destruct Hp.
Qed.

Lemma mapper_success_needs_paths_witness :
  Converter._check_field_exists Samples.fabric_doc (VStr "ipsec.tunnels") = Ok true.
Proof.
  apply (mapper_success_needs_paths Samples.fabric_doc None
           (match Converter.convert_to_template_vars Samples.fabric_doc None with
            | Ok tv => tv
            | Raise _ => []
            end) eq_refl).
  unfold mapper_paths. simpl. tauto.
Defined.

(** The VRF list depends on the device's id list only through
    membership: two id lists with the same members (whatever their order
    or repetitions) give the same result, errors included. *)
Theorem vrf_names_membership_only defs ids1 ids2 :
  (forall x, existsb (py_eq x) ids1 = existsb (py_eq x) ids2) ->
  Converter.vrf_names defs (VList ids1) = Converter.vrf_names defs (VList ids2).
Proof.
  intros Hsame. unfold Converter.vrf_names.
  destruct (py_iter defs) as [xs|e]; [|reflexivity]. cbn [bind].
  assert (Hgen : forall acc,
    foldM (fun acc vrf_def =>
             let* id := getitem vrf_def "id" in
             let* hit := py_in id (VList ids1) in
             if hit
             then let* name := getitem vrf_def "name" in Ok (acc ++ [name])
             else Ok acc) acc xs
    = foldM (fun acc vrf_def =>
               let* id := getitem vrf_def "id" in
               let* hit := py_in id (VList ids2) in
               if hit
               then let* name := getitem vrf_def "name" in Ok (acc ++ [name])
               else Ok acc) acc xs); [|apply Hgen].
  induction xs as [|def xs IH]; intros acc; [reflexivity|].
  cbn [foldM]. destruct (getitem def "id") as [id|e]; [|reflexivity].
  cbn [bind py_in]. rewrite (Hsame id).
  destruct (existsb (py_eq id) ids2); cbn [bind].
  - destruct (getitem def "name") as [name|e]; [|reflexivity]. cbn [bind]. apply IH.
  - apply IH.
Qed.

Lemma vrf_names_membership_only_witness :
  Converter.vrf_names (VList [record [("id", VInt 10); ("name", VStr "VRF_10")]])
    (VList [VInt 10; VInt 99])
  = Converter.vrf_names (VList [record [("id", VInt 10); ("name", VStr "VRF_10")]])
      (VList [VInt 99; VInt 10; VInt 10]).
Proof.
  apply vrf_names_membership_only.
  intros x. simpl. destruct (py_eq x (VInt 10)), (py_eq x (VInt 99)); reflexivity.
Defined.

(** ** Reshaping of overlay networks *)

Lemma renamed_ok src fields :
  (forall f, In f (map snd fields) -> exists x, getitem src f = Ok x) ->
  renamed src fields = Ok (record (map (fun no => (fst no, field src (snd no))) fields)).
Proof.
  intros Hfields. unfold renamed.
  assert (H : mapM (fun no => let* x := getitem src (snd no) in Ok (fst no, x)) fields
              = Ok (map (fun no => (fst no, field src (snd no))) fields)).
  { induction fields as [|[new old] fields IH]; [reflexivity|].
    cbn [mapM map fst snd]. unfold field at 1.
    destruct (Hfields old) as [x ->]; [left; reflexivity|]. cbn [bind].
    rewrite IH by (intros f Hf; apply Hfields; right; exact Hf). reflexivity. }
  rewrite H. reflexivity.
Qed.

Lemma dict_lookup_mem_app {V} (d1 d2 : list (scalar * V)) k :
  dict_mem (d1 ++ d2) k = dict_mem d1 k || dict_mem d2 k.
Proof.
  unfold dict_mem. rewrite dict_lookup_app.
  destruct (dict_lookup d1 k); [reflexivity|]. destruct (dict_lookup d2 k); reflexivity.
Qed.

Lemma reshape_fold (f : value -> result value) (g : value -> value) items acc :
  (forall kv, In kv items -> f (snd kv) = Ok (g (snd kv))) ->
  distinct_keys items = true ->
  (forall kv, In kv items -> dict_mem acc (fst kv) = false) ->
  foldM (fun acc kv => let* entry := f (snd kv) in Ok (dict_set acc (fst kv) entry)) acc items
  = Ok (acc ++ map (fun kv => (fst kv, g (snd kv))) items).
Proof.
  revert acc; induction items as [|[k v] items IH]; intros acc Hf Hdistinct Hfresh.
  - simpl. rewrite app_nil_r. reflexivity.
  - cbn [foldM fst snd].
    pose proof (Hf (k, v) (or_introl eq_refl)) as Hfv. cbn [snd] in Hfv.
    rewrite Hfv. cbn [bind].
    cbn [distinct_keys] in Hdistinct. apply andb_prop in Hdistinct as [Hk Hrest].
    apply negb_true_iff in Hk.
    assert (Hnew : dict_lookup acc k = None).
    { specialize (Hfresh (k, v) (or_introl eq_refl)). unfold dict_mem in Hfresh.
      cbn [fst] in Hfresh. destruct (dict_lookup acc k); [discriminate | reflexivity]. }
    rewrite (dict_set_new acc k _ Hnew).
    rewrite IH.
    + cbn [map fst snd]. rewrite <- app_assoc. reflexivity.
    + intros kv Hin. apply Hf. right. exact Hin.
    + exact Hrest.
    + intros [k' v'] Hin. cbn [fst]. rewrite dict_lookup_mem_app.
      pose proof (Hfresh (k', v') (or_intror Hin)) as Hacc. cbn [fst] in Hacc.
      rewrite Hacc. cbn [orb].
      unfold dict_mem. cbn [dict_lookup].
      destruct (scalar_eq k k') eqn:Ekk; [|reflexivity].
      (* k' equal to k would make k a key of the rest *)
      exfalso. unfold dict_mem in Hk.
      assert (Hmem : dict_mem items k = true).
      { rewrite dict_mem_keys. rewrite (set_mem_eq _ k k' Ekk).
        apply set_mem_In. apply (in_map fst _ _ Hin). }
      unfold dict_mem in Hmem. destruct (dict_lookup items k); discriminate.
Qed.

(** An overlay network whose VLAN records each carry the five VLAN
    fields is mapped to a record with exactly the keys [vrf] and [vlans];
    [vlans] keeps the VLAN ids and their order, and each VLAN record has
    exactly the five template field names (ip_address becomes ipaddr,
    mac_address becomes mac, bum_address becomes bum_addr) with the
    source values; any other field of the source records is dropped. *)
Theorem overlay_reshaped overlay vrf vlans :
  getitem overlay "vrf" = Ok vrf ->
  getitem overlay "vlans" = Ok (VDict vlans) ->
  distinct_keys vlans = true ->
  (forall kv f, In kv vlans ->
                In f ["name"; "ip_address"; "mac_address"; "dhcp_helper"; "bum_address"] ->
                exists x, getitem (snd kv) f = Ok x) ->
  Converter.convert_overlay overlay
  = Ok (record [("vrf", vrf);
                ("vlans", VDict (map (fun kv => (fst kv, reshaped_vlan (snd kv))) vlans))]).
Proof.
  intros Hvrf Hvlans Hdistinct Hfields.
  unfold Converter.convert_overlay. rewrite Hvrf, Hvlans. cbn [bind py_items].
  rewrite (reshape_fold Converter.convert_vlan reshaped_vlan vlans []).
  - reflexivity.
  - intros kv Hin. unfold Converter.convert_vlan. rewrite renamed_ok; [reflexivity|].
    intros f Hf. apply (Hfields kv f Hin Hf).
  - exact Hdistinct.
  - intros kv _. reflexivity.
Qed.

Lemma overlay_reshaped_witness :
  Converter.convert_overlay
    (record [("vrf", VStr "VRF_10"); ("vlans", VDict [(SInt 101, Samples.vlan101)]);
             ("description", VStr "dropped")])
  = Ok (record [("vrf", VStr "VRF_10");
                ("vlans", VDict [(SInt 101, reshaped_vlan Samples.vlan101)])]).
Proof.
  apply (overlay_reshaped _ (VStr "VRF_10") [(SInt 101, Samples.vlan101)]).
  - reflexivity.
  - reflexivity.
  - reflexivity.
  - intros kv f [<-|[]] Hf. simpl in Hf.
    destruct Hf as [<-|[<-|[<-|[<-|[<-|[]]]]]]; eexists; reflexivity.
Defined.

(** * Further properties of the generator *)

(** ** The device list *)

Lemma insert_sorted_perm {A} (leb : A -> A -> bool) x l :
  Permutation (insert_sorted leb x l) (x :: l).
Proof.
  induction l as [|y l IH]; simpl; [reflexivity|].
  destruct (leb x y); [reflexivity|].
  rewrite IH. apply perm_swap.
Qed.

Lemma sort_by_perm {A} (leb : A -> A -> bool) l : Permutation (sort_by leb l) l.
Proof.
  unfold sort_by. induction l as [|x l IH]; simpl; [reflexivity|].
  rewrite insert_sorted_perm, IH. reflexivity.
Qed.

Lemma insert_sorted_sorted {A} (leb : A -> A -> bool) x l :
  (forall a b, leb a b = true \/ leb b a = true) ->
  Sorted (fun a b => leb a b = true) l ->
  Sorted (fun a b => leb a b = true) (insert_sorted leb x l).
Proof.
  intros Htotal Hl. induction Hl as [|y l Hl IH Hhd]; simpl.
  - repeat constructor.
  - destruct (leb x y) eqn:E.
    + constructor; [constructor; assumption | constructor; exact E].
    + constructor; [exact IH|].
      destruct (Htotal x y) as [Hxy|Hyx]; [congruence|].
      destruct Hhd as [|z l' Hyz]; simpl.
      * constructor. exact Hyx.
      * destruct (leb x z); constructor; assumption.
Qed.

Lemma sort_by_sorted {A} (leb : A -> A -> bool) l :
  (forall a b, leb a b = true \/ leb b a = true) ->
  Sorted (fun a b => leb a b = true) (sort_by leb l).
Proof.
  intros Htotal. unfold sort_by. induction l as [|x l IH]; simpl; [constructor|].
  apply insert_sorted_sorted; assumption.
Qed.

Lemma NoDup_snoc {A} (l : list A) x : List.NoDup l -> ~ In x l -> List.NoDup (l ++ [x]).
Proof.
  induction 1 as [|y l Hy Hl IH]; intros Hx; simpl.
  - constructor; [intros []|constructor].
  - constructor.
    + intros Hin. apply in_app_or in Hin as [Hin|[<-|[]]]; [contradiction|].
      apply Hx. left. reflexivity.
    + apply IH. intros Hin. apply Hx. right. exact Hin.
Qed.

Lemma set_add_NoDup s x : List.NoDup s -> List.NoDup (set_add s x).
Proof.
  intros Hs. unfold set_add. destruct (set_mem s x) eqn:E; [exact Hs|].
  apply NoDup_snoc; [exact Hs|].
  intros Hin. rewrite (set_mem_In s x Hin) in E. discriminate.
Qed.

Lemma add_all_NoDup xs s : List.NoDup s -> List.NoDup (add_all s xs).
Proof.
  unfold add_all. revert s; induction xs as [|x xs IH]; intros s Hs; simpl; [exact Hs|].
  apply IH. apply set_add_NoDup. exact Hs.
Qed.

Lemma all_str_texts l : forallb is_str l = true -> l = map SStr (map text_of l).
Proof.
  induction l as [|x l IH]; simpl; [reflexivity|].
  intros H. apply andb_prop in H as [Hx Hl].
  destruct x; try discriminate. simpl. f_equal. auto.
Qed.

Lemma Sorted_texts l :
  Sorted (fun a b => String.leb (text_of a) (text_of b) = true) l ->
  Sorted (fun a b => String.leb a b = true) (map text_of l).
Proof.
  induction 1 as [|x l Hl IH Hhd]; simpl; constructor; [exact IH|].
  destruct Hhd; simpl; constructor; assumption.
Qed.

Lemma py_sorted_hostnames s :
  forallb is_str s = true ->
  exists l,
    py_sorted s = Ok l /\ Permutation l s
    /\ Sorted (fun a b => String.leb (text_of a) (text_of b) = true) l.
Proof.
  intros Hs. unfold py_sorted.
  destruct s as [|a [|b s']].
  - exists []. repeat split; constructor.
  - exists [a]. repeat split; repeat constructor.
  - assert (Hnum : forallb is_number (a :: b :: s') = false).
    { simpl in Hs |- *. destruct a; try discriminate. reflexivity. }
    rewrite Hnum, Hs. eexists. split; [reflexivity|]. split.
    + apply sort_by_perm.
    + apply (sort_by_sorted (fun a b => String.leb (text_of a) (text_of b))).
      intros x y. apply String.leb_total.
Qed.

(** On a document whose role lists are lists of hostnames, the device
    list is the union of all role lists: sorted in ascending string order,
    without repetition, and holding exactly the hostnames that occur in
    some role list. *)
Theorem device_list_sorted_union d roles :
  getpath d ["devices"; "roles"] = Ok (VDict roles) ->
  (forall k v, In (k, v) roles -> exists names, v = VList (map (fun n => VStr n) names)) ->
  exists names,
    Generator.get_device_list d = Ok (map SStr names)
    /\ Sorted (fun a b => String.leb a b = true) names
    /\ List.NoDup names
    /\ forall h,
         In h names
         <-> exists k members, In (k, VList members) roles /\ In (VStr h) members.
Proof.
  intros Hroles Hshape.
  assert (Hscalars : forall k v, In (k, v) roles -> exists xs, v = VList (map VScalar xs)).
  { intros k v Hin. destruct (Hshape k v Hin) as [names ->].
    exists (map SStr names). rewrite map_map. reflexivity. }
  destruct (scalar_lists_shape roles Hscalars) as (memberss & _ & Hmap & _).
  pose proof (scalar_list_member roles memberss Hmap) as Hmem.
  assert (Hstr : forallb is_str (add_all [] (concat memberss)) = true).
  { apply add_all_all_str; [reflexivity|]. apply forallb_forall. intros x Hx.
    apply Hmem in Hx as (k & xs & Hin & Hx).
    destruct (Hshape k _ Hin) as [names Hnames].
    rewrite <- (map_map SStr VScalar) in Hnames. apply scalar_list_inj in Hnames. subst xs.
    apply in_map_iff in Hx as (n & <- & _). reflexivity. }
  destruct (py_sorted_hostnames _ Hstr) as (l & Hsorted & Hperm & Hord).
  assert (Hl : forallb is_str l = true).
  { apply forallb_forall. intros x Hx. rewrite forallb_forall in Hstr. apply Hstr.
    apply (Permutation_in _ Hperm). exact Hx. }
  exists (map text_of l). rewrite <- (all_str_texts l Hl).
  split.
  { unfold Generator.get_device_list. rewrite Hroles. cbn [bind py_values].
    rewrite Hmap, set_update_all_scalars. cbn [bind]. exact Hsorted. }
  split; [apply Sorted_texts; exact Hord|].
  assert (Hnodup : List.NoDup l).
  { apply (Permutation_NoDup (Permutation_sym Hperm)).
    apply add_all_NoDup. constructor. }
  split.
  { rewrite (all_str_texts l Hl) in Hnodup. apply NoDup_map_inv in Hnodup. exact Hnodup. }
  intros h.
  assert (Hin : In h (map text_of l) <-> In (SStr h) (concat memberss)).
  { split.
    - intros Hh. apply (in_map SStr) in Hh. rewrite <- (all_str_texts l Hl) in Hh.
      apply (Permutation_in _ Hperm) in Hh.
      apply In_add_all in Hh as [[]|Hh]. exact Hh.
    - intros Hh. apply (in_map_iff text_of). exists (SStr h). split; [reflexivity|].
      apply (Permutation_in _ (Permutation_sym Hperm)).
      apply set_mem_str. rewrite set_mem_add_all_nil. apply set_mem_In. exact Hh. }
  rewrite Hin, Hmem. split.
  - intros (k & xs & Hentry & Hx). exists k, (map VScalar xs). split; [exact Hentry|].
    apply (in_map VScalar) in Hx. exact Hx.
  - intros (k & members & Hentry & Hx).
    destruct (Hscalars k _ Hentry) as [xs Hxs]. injection Hxs as ->.
    exists k, xs. split; [exact Hentry|].
    apply in_map_iff in Hx as (x & [= <-] & Hx). exact Hx.
Qed.

Lemma device_list_sorted_union_witness :
  Generator.get_device_list Samples.fabric_doc
  = Ok (map SStr ["border01"; "leaf01"; "rr01"; "spine01"]).
Proof.
  destruct (device_list_sorted_union Samples.fabric_doc Samples.role_entries)
    as (names & Hlist & _).
  - reflexivity.
  - intros k v Hin. simpl in Hin.
    repeat (destruct Hin as [Hin|Hin]; [injection Hin as <- <-; eexists; reflexivity|]).
    destruct Hin.
  - reflexivity.
Defined.

(** ** Runs of the generator *)

Lemma selected_template_available role t :
  In t (Generator.definition_templates ++ Generator.fabric_templates role) ->
  exists file, dict_lookup Generator.available_templates (SStr t) = Some file.
Proof.
  rewrite definition_templates_eq.
  destruct (fabric_templates_cases role) as [[_ ->]|[[_ ->]|[[_ ->]|[_ ->]]]];
    intros Hin; simpl in Hin;
    repeat (destruct Hin as [<-|Hin]; [eexists; reflexivity|]); destruct Hin.
Qed.

Section GeneratorRuns.

Variable wording : exn -> string.
Variable render_file : string -> list (scalar * value) -> result string.
Variable read_template : string -> result string.
Variable render_source : string -> list (scalar * value) -> result string.

Let generate_config :=
  Generator.generate_config wording render_file read_template render_source.
Let generate_all_configs :=
  Generator.generate_all_configs wording render_file read_template render_source.


(** A fabric template is rendered on its own whenever the composed
    render fails.  So [generate_config] succeeds for a fabric template as
    soon as its standalone render does, and when it fails the reported
    error is the standalone render's; the reason the composed render
    failed is never reported. *)
Theorem fabric_render_fallback d h t file tv :
  dict_lookup Generator.available_templates (SStr t) = Some file ->
  is_fabric t = true ->
  Converter.generate_device_specific_vars d h = Ok tv ->
  (forall config, render_file file tv = Ok config ->
                  exists config', generate_config d h t = Ok config')
  /\ (forall err, generate_config d h t = Raise err ->
        exists e, render_file file tv = Raise e
                  /\ err = RuntimeError ("Error rendering template " +:+ t +:+ ": "
                                         +:+ str_exn wording e))
  /\ (forall e1 config,
        read_template file = Raise e1 -> render_file file tv = Ok config ->
        generate_config d h t = Ok config).
Proof.
  intros Hfile Hfabric Hvars. unfold is_fabric in Hfabric.
  apply negb_true_iff in Hfabric.
  unfold generate_config, Generator.generate_config.
  rewrite Hfile, Hvars. cbn [bind]. rewrite Hfabric.
  unfold Generator._render_fabric_template.
  split; [|split].
  - intros config Hfallback.
    destruct (let* template_content := read_template file in
              render_source (Generator.wrapper_source
                               (Generator.wrapper_template template_content h)) tv);
      [eauto | rewrite Hfallback; eauto].
  - intros err H.
    destruct (let* template_content := read_template file in
              render_source (Generator.wrapper_source
                               (Generator.wrapper_template template_content h)) tv);
      [discriminate|].
    destruct (render_file file tv) as [config|e2]; [discriminate|].
    injection H as <-. eauto.
  - intros e1 config Hread Hfallback. rewrite Hread. cbn [bind].
    rewrite Hfallback. reflexivity.
Qed.

Variable path_join : string -> string -> string.
Variable mkdir : string -> option exn.
Variable open_w : string -> option exn.

Let main :=
  Generator.main wording path_join mkdir open_w render_file read_template render_source.

(** When the mapper fails for a listed device, every slot of an
    all-templates run, definition and fabric alike, holds the same inline
    error, "Error generating <template>: <mapper error>", the error worded
    as the interpreter words it; and the exit status of the run is what
    it is for a document that maps: 0 unless the operating system refuses
    the output directory or one of the files. *)
Theorem unmappable_document_bulk_run d devices h e :
  Generator.get_device_list d = Ok devices ->
  existsb (scalar_eq (SStr h)) devices = true ->
  Converter.generate_device_specific_vars d h = Raise e ->
  exists role,
    Generator.get_device_role d h = Ok role
    /\ generate_all_configs d h
       = Ok (map (fun t => (SStr t, "Error generating " +:+ t +:+ ": "
                                    +:+ str_exn wording e))
                 (Generator.definition_templates ++ Generator.fabric_templates role))
    /\ forall a w,
         Generator.device a = h ->
         Generator.list_devices a = false ->
         Generator.list_templates a = false ->
         Generator.all_templates a = true ->
         (snd (main d a w) = 0%Z
          <-> truthy (Generator.output_dir a) = false
              \/ bulk_writes_succeed path_join mkdir open_w h
                   (default EmptyString (Generator.output_dir a)) role = true).
Proof.
  intros Hlist Hmem Hfail.
  destruct (device_list_role_total d devices h Hlist) as [role Hrole].
  exists role. split; [exact Hrole|]. split.
  - unfold generate_all_configs.
    rewrite (generate_all_configs_spec wording render_file read_template render_source
               d h role Hrole).
    f_equal. apply map_ext_in. intros t Ht.
    destruct (selected_template_available role t Ht) as [file Hfile].
    unfold Generator.config_slot, Generator.generate_config.
    rewrite Hfile, Hfail. reflexivity.
  - intros a w <- Hld Hlt Hall.
    apply (main_bulk_exit wording render_file read_template render_source
             path_join mkdir open_w d devices a w role); assumption.
Qed.

(** A single-template run for a listed device exits with status 0
    exactly when the template is generated and, with an output
    directory, the directory can be made and the file opened. *)
Lemma main_single_exit d devices a w :
  Generator.get_device_list d = Ok devices ->
  existsb (scalar_eq (SStr (Generator.device a))) devices = true ->
  Generator.list_devices a = false ->
  Generator.list_templates a = false ->
  Generator.all_templates a = false ->
  (snd (main d a w) = 0%Z
   <-> exists t config,
         Generator.template a = Some t /\ t <> EmptyString
         /\ generate_config d (Generator.device a) t = Ok config
         /\ (truthy (Generator.output_dir a) = false
             \/ single_write_succeeds path_join mkdir open_w (Generator.device a)
                  (default EmptyString (Generator.output_dir a)) t = true)).
Proof.
  intros Hlist Hmem Hld Hlt Hall.
  unfold main, Generator.main. rewrite Hld, Hlt, Hlist, Hmem. cbn [negb].
  unfold Generator.generate. rewrite Hall.
  destruct (Generator.template a) as [[|c t']|] eqn:Ht; cbn [truthy from_option id].
  - cbn [snd]. split; [discriminate|].
    intros (t & config & Heq & Hne & _). injection Heq as <-. contradiction.
  - fold (generate_config d (Generator.device a) (String c t')).
    destruct (generate_config d (Generator.device a) (String c t')) as [config|e]
      eqn:Hconfig.
    + destruct (truthy (Generator.output_dir a)).
      * unfold Generator.save_single_config, single_write_succeeds, Generator.write_file.
        destruct (mkdir (default EmptyString (Generator.output_dir a))) as [e|].
        { cbn [snd no_failure andb]. split; [discriminate|].
          intros (t & config' & Heq & _ & _ & [H|H]); discriminate H. }
        destruct (open_w (path_join (default EmptyString (Generator.output_dir a))
                            (Generator.cfg_filename (Generator.device a) (String c t'))))
          as [e|] eqn:Hopen.
        { cbn [snd]. split; [discriminate|].
          intros (t & config' & Heq & _ & _ & [H|H]); [discriminate H|].
          injection Heq as <-. rewrite Hopen in H. discriminate H. }
        cbn [snd]. split; [|reflexivity]. intros _.
        exists (String c t'), config.
        split; [reflexivity|]. split; [discriminate|]. split; [exact Hconfig|].
        right. rewrite Hopen. reflexivity.
      * cbn [snd]. split; [|reflexivity]. intros _.
        exists (String c t'), config.
        split; [reflexivity|]. split; [discriminate|]. split; [exact Hconfig|].
        left; reflexivity.
    + cbn [snd]. split; [discriminate|].
      intros (t & config & Heq & _ & Hok & _). injection Heq as <-.
      rewrite Hconfig in Hok. discriminate Hok.
  - cbn [snd]. split; [discriminate|].
    intros (t & config & Heq & _). discriminate Heq.
Qed.

(** The exit status of a run that is not a listing: it is 0 exactly when
    the device list can be computed, the device is in it, and either
    --all-templates is given (then no failure of any template matters,
    and --template is ignored) or a non-empty --template is given whose
    generation succeeds; and, when an output directory is given, the
    operating system lets the run make it and open each file it writes
    there. *)
Theorem main_exit_zero_iff d a w :
  Generator.list_devices a = false ->
  Generator.list_templates a = false ->
  (snd (main d a w) = 0%Z
   <-> exists devices role,
         Generator.get_device_list d = Ok devices
         /\ existsb (scalar_eq (SStr (Generator.device a))) devices = true
         /\ Generator.get_device_role d (Generator.device a) = Ok role
         /\ ((Generator.all_templates a = true
              /\ (truthy (Generator.output_dir a) = false
                  \/ bulk_writes_succeed path_join mkdir open_w (Generator.device a)
                       (default EmptyString (Generator.output_dir a)) role = true))
             \/ (Generator.all_templates a = false
                 /\ exists t config,
                      Generator.template a = Some t /\ t <> EmptyString
                      /\ generate_config d (Generator.device a) t = Ok config
                      /\ (truthy (Generator.output_dir a) = false
                          \/ single_write_succeeds path_join mkdir open_w
                               (Generator.device a)
                               (default EmptyString (Generator.output_dir a)) t
                             = true)))).
Proof.
  intros Hld Hlt. split.
  - intros Hexit.
    assert (Hlisted : exists devices,
               Generator.get_device_list d = Ok devices
               /\ existsb (scalar_eq (SStr (Generator.device a))) devices = true).
    { unfold main, Generator.main in Hexit. rewrite Hld, Hlt in Hexit.
      destruct (Generator.get_device_list d) as [devices|e]; [|discriminate].
      exists devices. split; [reflexivity|].
      destruct (existsb (scalar_eq (SStr (Generator.device a))) devices);
        [reflexivity | discriminate]. }
    destruct Hlisted as (devices & Hlist & Hmem).
    destruct (device_list_role_total d devices (Generator.device a) Hlist) as [role Hrole].
    exists devices, role. split; [exact Hlist|]. split; [exact Hmem|].
    split; [exact Hrole|].
    destruct (Generator.all_templates a) eqn:Hall.
    + left. split; [reflexivity|].
      apply (main_bulk_exit wording render_file read_template render_source
               path_join mkdir open_w d devices a w role); assumption.
    + right. split; [reflexivity|].
      apply (main_single_exit d devices a w); assumption.
  - intros (devices & role & Hlist & Hmem & Hrole & [[Hall Hos]|[Hall Hsingle]]).
    + apply (main_bulk_exit wording render_file read_template render_source
               path_join mkdir open_w d devices a w role); assumption.
    + apply (main_single_exit d devices a w); assumption.
Qed.

Lemma print_devices_files d devices w :
  Generator.files (fst (Generator.print_devices d devices w)) = Generator.files w.
Proof.
  revert w; induction devices as [|dev devices IH]; intros w; simpl; [reflexivity|].
  destruct (Generator.device_role_of d (VScalar dev)); [|reflexivity].
  rewrite IH. reflexivity.
Qed.

Lemma fold_print_files {A} (f : Generator.world -> A -> Generator.world) l w :
  (forall w x, Generator.files (f w x) = Generator.files w) ->
  Generator.files (fold_left f l w) = Generator.files w.
Proof.
  intros Hf. revert w; induction l as [|x l IH]; intros w; simpl; [reflexivity|].
  rewrite IH. apply Hf.
Qed.

(** Without --output-dir no run writes, replaces or removes a file:
    listings, bulk and single-template runs, and failed runs alike. *)
Theorem no_output_dir_no_files d a w :
  truthy (Generator.output_dir a) = false ->
  Generator.files (fst (main d a w)) = Generator.files w.
Proof.
  intros Hout. unfold main, Generator.main.
  destruct (Generator.list_devices a).
  { destruct (Generator.get_device_list d); [|reflexivity].
    rewrite print_devices_files. reflexivity. }
  destruct (Generator.list_templates a).
  { cbn [fst]. rewrite fold_print_files; reflexivity. }
  destruct (Generator.get_device_list d) as [devices|e]; [|reflexivity].
  destruct (negb (existsb (scalar_eq (SStr (Generator.device a))) devices)); [reflexivity|].
  unfold Generator.generate. rewrite Hout.
  destruct (Generator.all_templates a).
  - destruct (Generator.generate_all_configs wording render_file read_template
                render_source d (Generator.device a)); [|reflexivity].
    cbn [fst]. rewrite fold_print_files; reflexivity.
  - destruct (truthy (Generator.template a)); [|reflexivity].
    destruct (Generator.generate_config wording render_file read_template render_source d
                (Generator.device a) (default EmptyString (Generator.template a)));
      reflexivity.
Qed.

End GeneratorRuns.

Lemma unmappable_document_bulk_run_witness :
  exists role,
    Generator.get_device_role
      (record [("devices", record [("roles", record [("leaf", Samples.strs ["leaf01"])])])])
      "leaf01" = Ok role
    /\ Generator.generate_all_configs Samples.wording
         Samples.echo_file Samples.no_read Samples.no_source
         (record [("devices", record [("roles", record [("leaf", Samples.strs ["leaf01"])])])])
         "leaf01"
       = Ok (map (fun t => (SStr t, "Error generating " +:+ t +:+ ": 'fabric'"))
                 (Generator.definition_templates ++ Generator.fabric_templates role)).
Proof.
  destruct (unmappable_document_bulk_run Samples.wording
              Samples.echo_file Samples.no_read Samples.no_source
              Samples.under Samples.permitted Samples.permitted
              (record [("devices", record [("roles", record [("leaf", Samples.strs ["leaf01"])])])])
              [SStr "leaf01"] "leaf01" (KeyError "fabric") eq_refl eq_refl eq_refl)
    as (role & Hrole & Hall & _).
  exists role. split; [exact Hrole | exact Hall].
Defined.

Lemma fabric_render_fallback_witness :
  Generator.generate_config Samples.wording Samples.echo_file Samples.no_read Samples.no_source
    Samples.fabric_doc "leaf01" "FABRIC-VRF" = Ok "rendered FABRIC-VRF.j2".
Proof.
  destruct (fabric_render_fallback Samples.wording
              Samples.echo_file Samples.no_read Samples.no_source
              Samples.fabric_doc "leaf01" "FABRIC-VRF" "FABRIC-VRF.j2"
              (match Converter.generate_device_specific_vars Samples.fabric_doc "leaf01" with
               | Ok tv => tv
               | Raise _ => []
               end) eq_refl eq_refl eq_refl)
    as (_ & _ & Hfallback).
  apply (Hfallback (EngineError "cannot read FABRIC-VRF.j2")); reflexivity.
Defined.

(** A single template into a directory that cannot be made: status 1,
    although the template is generated. *)
Lemma main_exit_zero_iff_witness :
  snd (Generator.main Samples.wording Samples.under Samples.permitted Samples.permitted
         Samples.echo_file Samples.no_read Samples.no_source Samples.fabric_doc
         {| Generator.device := "leaf01"; Generator.template := Some "FABRIC-VRF";
            Generator.all_templates := false; Generator.output_dir := Some "out";
            Generator.list_devices := false; Generator.list_templates := false |}
         Samples.empty_world) = 0%Z
  /\ snd (Generator.main Samples.wording Samples.under Samples.refused Samples.permitted
            Samples.echo_file Samples.no_read Samples.no_source Samples.fabric_doc
            {| Generator.device := "leaf01"; Generator.template := Some "FABRIC-VRF";
               Generator.all_templates := false; Generator.output_dir := Some "out";
               Generator.list_devices := false; Generator.list_templates := false |}
            Samples.empty_world) <> 0%Z.
Proof.
  split.
  - apply (main_exit_zero_iff Samples.wording
             Samples.echo_file Samples.no_read Samples.no_source
             Samples.under Samples.permitted Samples.permitted);
      [reflexivity | reflexivity |].
    exists [SStr "border01"; SStr "leaf01"; SStr "rr01"; SStr "spine01"], "leaf".
    split; [reflexivity|]. split; [reflexivity|]. split; [reflexivity|].
    right. split; [reflexivity|].
    exists "FABRIC-VRF", "rendered FABRIC-VRF.j2".
    split; [reflexivity|]. split; [discriminate|]. split; [reflexivity|].
    right. reflexivity.
  - intros Hexit.
    apply (main_exit_zero_iff Samples.wording
             Samples.echo_file Samples.no_read Samples.no_source
             Samples.under Samples.refused Samples.permitted) in Hexit;
      [|reflexivity|reflexivity].
    destruct Hexit as (devices & role & _ & _ & _ & [[Hall _]|(_ & t & config & Ht & _ & _ & Hos)]).
    + discriminate Hall.
    + destruct Hos as [Hos|Hos]; discriminate Hos.
Defined.

Lemma no_output_dir_no_files_witness :
  Generator.files
    (fst (Generator.main Samples.wording Samples.under Samples.permitted Samples.permitted
            Samples.echo_file Samples.no_read Samples.no_source Samples.fabric_doc
            {| Generator.device := "leaf01"; Generator.template := None;
               Generator.all_templates := true; Generator.output_dir := Some EmptyString;
               Generator.list_devices := false; Generator.list_templates := false |}
            Samples.empty_world))
  = ∅.
Proof.
  apply (no_output_dir_no_files Samples.wording
           Samples.echo_file Samples.no_read Samples.no_source
           Samples.under Samples.permitted Samples.permitted).
  reflexivity.
Defined.

(** ** Files of an all-templates run *)







Section BulkFiles.

Variable path_join : string -> string -> string.
Variable open_w : string -> option exn.



End BulkFiles.



(** * The converter's command line *)

Lemma list_role_devices_scalars xs all_devices w :
  exists w',
    ConverterMain.list_role_devices (map VScalar xs) all_devices w
    = (w', Ok (add_all all_devices xs))
    /\ ConverterMain.files w' = ConverterMain.files w
    /\ length (ConverterMain.stdout w') = length (ConverterMain.stdout w) + length xs.
Proof.
  revert all_devices w; induction xs as [|x xs IH]; intros all_devices w.
  - exists w. repeat split. simpl. lia.
  - cbn [map ConverterMain.list_role_devices hash].
    destruct (IH (set_add all_devices x)
                 (ConverterMain.print [Lit "    - "; Fmt (VScalar x)] w))
      as (w' & Hrun & Hfiles & Hout).
    exists w'. split; [exact Hrun|]. split; [exact Hfiles|].
    rewrite Hout. cbn [ConverterMain.print ConverterMain.stdout].
    rewrite length_app. simpl. lia.
Qed.

Section ConverterRuns.

Variable open_w : string -> option exn.
Variable yaml_dump : list (scalar * value) -> string.
Variable str_upper : string -> string.

Lemma list_roles_scalars role_names xss all_devices w :
  length role_names = length xss ->
  exists w',
    ConverterMain.list_roles str_upper
      (combine (map SStr role_names) (map (fun xs => VList (map VScalar xs)) xss))
      all_devices w
    = (w', Ok (add_all all_devices (concat xss)))
    /\ ConverterMain.files w' = ConverterMain.files w.
Proof.
  revert role_names all_devices w; induction xss as [|xs xss IH];
    intros [|name role_names] all_devices w Hlen; simpl in Hlen; try discriminate.
  - exists w. split; reflexivity.
  - cbn [map combine ConverterMain.list_roles py_iter].
    destruct (list_role_devices_scalars xs all_devices
                (ConverterMain.print [Lit "  "; Lit (str_upper name); Lit ":"] w))
      as (w1 & Hrun1 & Hfiles1 & _).
    rewrite Hrun1.
    destruct (IH role_names (add_all all_devices xs) w1) as (w' & Hrun & Hfiles); [lia|].
    exists w'. split.
    + rewrite Hrun. cbn [concat]. rewrite add_all_app. reflexivity.
    + rewrite Hfiles, Hfiles1. reflexivity.
Qed.

Lemma fold_print_errors prefix (errors : list message) w :
  let w' := fold_left (fun w error => ConverterMain.print (prefix :: error) w) errors w in
  ConverterMain.files w' = ConverterMain.files w
  /\ ConverterMain.stdout w'
     = ConverterMain.stdout w ++ map (fun error => prefix :: error) errors.
Proof.
  revert w; induction errors as [|e errors IH]; intros w; cbn zeta.
  - simpl. rewrite app_nil_r. split; reflexivity.
  - cbn [fold_left map]. specialize (IH (ConverterMain.print (prefix :: e) w)).
    cbn zeta in IH. destruct IH as [Hfiles Hout]. split; [exact Hfiles|].
    rewrite Hout. cbn [ConverterMain.print ConverterMain.stdout].
    rewrite <- app_assoc. reflexivity.
Qed.

(** The --validate flag.  With violations the run prints the heading
    and one line per violation, exits with status 1 and goes no further:
    nothing else is printed and no file is written, even with --output or
    --list-devices.  Without violations the run prints the success line
    and then continues exactly as it would without the flag. *)
Theorem converter_validate_flag d a w :
  ConverterMain.validate a = true ->
  (forall e errors,
      Converter.validate_data_model d = Ok (e :: errors) ->
      snd (ConverterMain.main open_w yaml_dump str_upper d a w) = 1%Z
      /\ ConverterMain.files (fst (ConverterMain.main open_w yaml_dump str_upper d a w))
         = ConverterMain.files w
      /\ ConverterMain.stdout (fst (ConverterMain.main open_w yaml_dump str_upper d a w))
         = ConverterMain.stdout w
           ++ [Lit "Validation errors found:"]
              :: map (fun error => Lit "  - " :: error) (e :: errors))
  /\ (Converter.validate_data_model d = Ok [] ->
      ConverterMain.main open_w yaml_dump str_upper d a w
      = ConverterMain.main open_w yaml_dump str_upper d
             {| ConverterMain.output := ConverterMain.output a;
                ConverterMain.device := ConverterMain.device a;
                ConverterMain.validate := false;
                ConverterMain.list_devices := ConverterMain.list_devices a |}
             (ConverterMain.print [Lit "Data model validation passed!"] w)).
Proof.
  intros Hflag. split.
  - intros e errors Hvalid. unfold ConverterMain.main. rewrite Hflag, Hvalid.
    cbn [fst snd]. split; [reflexivity|].
    destruct (fold_print_errors (Lit "  - ") (e :: errors)
                (ConverterMain.print [Lit "Validation errors found:"] w)) as [Hfiles Hout].
    cbn zeta in Hfiles, Hout. split.
    + rewrite Hfiles. reflexivity.
    + rewrite Hout. cbn [ConverterMain.print ConverterMain.stdout].
      rewrite <- app_assoc. reflexivity.
  - intros Hvalid. unfold ConverterMain.main. rewrite Hflag, Hvalid. reflexivity.
Qed.

(** --list-devices on a document whose roles are named by strings and
    whose role lists are lists of hostnames: the run exits with status 0,
    writes no file, and its last line reports as total the number of
    entries of the generator's device list. *)
Theorem converter_lists_all_devices d roles a w :
  ConverterMain.validate a = false ->
  ConverterMain.list_devices a = true ->
  getpath d ["devices"; "roles"] = Ok (VDict roles) ->
  (forall k v, In (k, v) roles ->
     exists name names, k = SStr name /\ v = VList (map (fun n => VStr n) names)) ->
  exists devices,
    Generator.get_device_list d = Ok devices
    /\ snd (ConverterMain.main open_w yaml_dump str_upper d a w) = 0%Z
    /\ ConverterMain.files (fst (ConverterMain.main open_w yaml_dump str_upper d a w))
       = ConverterMain.files w
    /\ List.last
         (ConverterMain.stdout (fst (ConverterMain.main open_w yaml_dump str_upper d a w)))
         []
       = [Lit (nl +:+ "Total devices: "
               +:+ str_scalar (SInt (Z.of_nat (length devices))))].
Proof.
  intros Hval Hlist Hroles Hshape.
  assert (Hscalars : forall k v, In (k, v) roles -> exists xs, v = VList (map VScalar xs)).
  { intros k v Hin. destruct (Hshape k v Hin) as (name & names & _ & ->).
    exists (map SStr names). rewrite map_map. reflexivity. }
  destruct (scalar_lists_shape roles Hscalars) as (xss & Hcomb & Hmap & _).
  pose proof (scalar_list_member roles xss Hmap) as Hmem.
  assert (Hkeys : map fst roles = map SStr (map (fun kv => str_scalar (fst kv)) roles)).
  { rewrite map_map. apply map_ext_in. intros [k v] Hin.
    destruct (Hshape k v Hin) as (name & names & -> & _). reflexivity. }
  assert (Hstr : forallb is_str (add_all [] (concat xss)) = true).
  { apply add_all_all_str; [reflexivity|]. apply forallb_forall. intros x Hx.
    apply Hmem in Hx as (k & xs & Hin & Hx).
    destruct (Hshape k _ Hin) as (name & names & _ & Hnames).
    rewrite <- (map_map SStr VScalar) in Hnames. apply scalar_list_inj in Hnames. subst xs.
    apply in_map_iff in Hx as (n & <- & _). reflexivity. }
  destruct (py_sorted_hostnames _ Hstr) as (devices & Hsorted & Hperm & _).
  exists devices. split.
  { unfold Generator.get_device_list. rewrite Hroles. cbn [bind py_values].
    rewrite Hmap, set_update_all_scalars. cbn [bind]. exact Hsorted. }
  unfold ConverterMain.main. rewrite Hval.
  unfold ConverterMain.list_or_convert. rewrite Hlist.
  unfold ConverterMain.list_all_devices. rewrite Hroles. cbn [bind py_items].
  rewrite Hcomb, Hkeys.
  destruct (list_roles_scalars (map (fun kv => str_scalar (fst kv)) roles) xss []
              (ConverterMain.print [Lit "Devices in data model:"] w))
    as (w' & Hrun & Hfiles).
  { rewrite length_map, <- (length_map snd roles), Hmap, length_map. reflexivity. }
  rewrite Hrun. cbn [fst snd]. split; [reflexivity|]. split.
  - cbn [ConverterMain.print ConverterMain.files]. rewrite Hfiles. reflexivity.
  - cbn [ConverterMain.print ConverterMain.stdout]. rewrite last_last.
    rewrite (Permutation_length Hperm). reflexivity.
Qed.

(** A run that neither validates nor lists: its exit status is 0 exactly
    when the mapper succeeds and, with a non-empty --output, the file can
    be opened.  It then writes the dumped variable set to that path,
    replacing what was there, and touches no other path; without
    --output it prints the dump and writes nothing.  When the mapper
    fails or the file cannot be opened, nothing is written or printed. *)
Theorem converter_emits_mapper_result d a w :
  ConverterMain.validate a = false ->
  ConverterMain.list_devices a = false ->
  (snd (ConverterMain.main open_w yaml_dump str_upper d a w) = 0%Z
   <-> (exists tv,
          Converter.convert_to_template_vars d (ConverterMain.device a) = Ok tv)
       /\ (truthy (ConverterMain.output a) = false
           \/ open_w (default EmptyString (ConverterMain.output a)) = None))
  /\ (forall tv path,
        Converter.convert_to_template_vars d (ConverterMain.device a) = Ok tv ->
        ConverterMain.output a = Some path -> path <> EmptyString ->
        open_w path = None ->
        ConverterMain.files (fst (ConverterMain.main open_w yaml_dump str_upper d a w))
        = <[path := yaml_dump tv]> (ConverterMain.files w))
  /\ (forall tv,
        Converter.convert_to_template_vars d (ConverterMain.device a) = Ok tv ->
        truthy (ConverterMain.output a) = false ->
        fst (ConverterMain.main open_w yaml_dump str_upper d a w)
        = ConverterMain.print [Lit (yaml_dump tv)] w)
  /\ (snd (ConverterMain.main open_w yaml_dump str_upper d a w) <> 0%Z ->
      ConverterMain.main open_w yaml_dump str_upper d a w = (w, 1%Z)).
Proof.
  intros Hval Hlist. unfold ConverterMain.main. rewrite Hval.
  unfold ConverterMain.list_or_convert. rewrite Hlist.
  unfold ConverterMain.convert_and_emit, ConverterMain.save_template_vars,
    ConverterMain.write_file.
  split; [|split; [|split]].
  - destruct (Converter.convert_to_template_vars d (ConverterMain.device a)) as [tv|e].
    + destruct (truthy (ConverterMain.output a)); cbn [bind snd].
      * destruct (open_w (default EmptyString (ConverterMain.output a))) as [e|];
          cbn [bind snd].
        { split; [discriminate|]. intros [_ [H|H]]; discriminate H. }
        split; [|reflexivity]. intros _. split; [eauto | right; reflexivity].
      * split; [|reflexivity]. intros _. split; [eauto | left; reflexivity].
    + destruct (truthy (ConverterMain.output a)); cbn [bind snd];
        (split; [discriminate|]); intros [[tv H] _]; discriminate H.
  - intros tv path Htv Hout Hne Hopen. rewrite Hout, Htv.
    destruct path as [|c path']; [contradiction|].
    cbn [truthy from_option id bind]. rewrite Hopen. reflexivity.
  - intros tv Htv Hout. rewrite Hout, Htv. reflexivity.
  - destruct (Converter.convert_to_template_vars d (ConverterMain.device a)) as [tv|e].
    + destruct (truthy (ConverterMain.output a)); cbn [bind snd].
      * destruct (open_w (default EmptyString (ConverterMain.output a))) as [e|];
          cbn [bind snd]; [reflexivity | intros H; contradiction H; reflexivity].
      * intros H; contradiction H; reflexivity.
    + destruct (truthy (ConverterMain.output a)); reflexivity.
Qed.

End ConverterRuns.

Lemma converter_validate_flag_witness :
  snd (ConverterMain.main (fun _ => None) (fun _ => "dump") (fun s => s) Samples.faulty_doc
         {| ConverterMain.output := Some "vars.yml"; ConverterMain.device := None;
            ConverterMain.validate := true; ConverterMain.list_devices := true |}
         {| ConverterMain.files := ∅; ConverterMain.stdout := [] |}) = 1%Z.
Proof.
  destruct (converter_validate_flag (fun _ => None) (fun _ => "dump") (fun s => s)
              Samples.faulty_doc
              {| ConverterMain.output := Some "vars.yml"; ConverterMain.device := None;
                 ConverterMain.validate := true; ConverterMain.list_devices := true |}
              {| ConverterMain.files := ∅; ConverterMain.stdout := [] |} eq_refl)
    as [Hfail _].
  destruct (Converter.validate_data_model Samples.faulty_doc) as [[|e errors]|] eqn:E;
    try discriminate E.
  apply (Hfail e errors eq_refl).
Defined.

Lemma converter_lists_all_devices_witness :
  List.last (ConverterMain.stdout
          (fst (ConverterMain.main (fun _ => None) (fun _ => "dump") (fun s => s) Samples.fabric_doc
                  {| ConverterMain.output := None; ConverterMain.device := None;
                     ConverterMain.validate := false; ConverterMain.list_devices := true |}
                  {| ConverterMain.files := ∅; ConverterMain.stdout := [] |}))) []
  = [Lit (nl +:+ "Total devices: 4")].
Proof.
  destruct (converter_lists_all_devices (fun _ => None) (fun _ => "dump") (fun s => s)
              Samples.fabric_doc
              Samples.role_entries
              {| ConverterMain.output := None; ConverterMain.device := None;
                 ConverterMain.validate := false; ConverterMain.list_devices := true |}
              {| ConverterMain.files := ∅; ConverterMain.stdout := [] |}
              eq_refl eq_refl eq_refl)
    as (devices & Hlist & _ & _ & Hlast).
  - intros k v Hin. simpl in Hin.
    repeat (destruct Hin as [Hin|Hin];
            [injection Hin as <- <-; eexists _, _; split; reflexivity|]).
    destruct Hin.
  - rewrite Hlast. injection Hlist as <-. reflexivity.
Defined.

Lemma converter_emits_mapper_result_witness :
  ConverterMain.files
    (fst (ConverterMain.main (fun _ => None) (fun _ => "dump") (fun s => s) Samples.fabric_doc
            {| ConverterMain.output := Some "vars.yml"; ConverterMain.device := Some "leaf01";
               ConverterMain.validate := false; ConverterMain.list_devices := false |}
            {| ConverterMain.files := ∅; ConverterMain.stdout := [] |}))
  = {["vars.yml" := "dump"]}.
Proof.
  destruct (converter_emits_mapper_result (fun _ => None) (fun _ => "dump") (fun s => s)
              Samples.fabric_doc
              {| ConverterMain.output := Some "vars.yml";
                 ConverterMain.device := Some "leaf01";
                 ConverterMain.validate := false; ConverterMain.list_devices := false |}
              {| ConverterMain.files := ∅; ConverterMain.stdout := [] |} eq_refl eq_refl)
    as (_ & Hfile & _).
  rewrite (Hfile (match Converter.convert_to_template_vars Samples.fabric_doc (Some "leaf01")
                  with Ok tv => tv | Raise _ => [] end) "vars.yml" eq_refl eq_refl);
    [reflexivity | discriminate | reflexivity].
Defined.
